(** * rag-spec-extraction: retrieval-and-extraction pipeline

    A shallow embedding of the Python pipeline (OCR fallback, chunker,
    query classifier, retriever, reranker, extraction engine and query
    processor) together with the properties its specification states.

    Conventions of the embedding.
    - Python [str] values are [string]s of ASCII characters; [str.lower],
      [str.strip], [str.split], [in] and the [re] character classes are
      written out for that range.
    - A [dict] with string keys is a [gmap string pyval]; a dict whose
      insertion order is observable is an association list.
    - Python [float]s are exact rationals kept in lowest terms ([Qred]);
      rounding, infinities and NaN are outside the model.  Printing and
      parsing of floats are runtime primitives taken as parameters.
    - A raised exception is an explicit [Raised] outcome; [try]/[except]
      is a [match] on the outcome.
    - Calls to the generative model and to the vector index are nodes of a
      small interaction type [io]. *)

From Stdlib Require Import ZArith QArith Qreduction Ascii String List Lia.
From Stdlib Require Import DecimalString Lqa.
From stdpp Require Import base gmap strings list sorting.

Open Scope string_scope.
Open Scope list_scope.
Open Scope nat_scope.
Open Scope stdpp_scope.

(* ================================================================== *)
(** ** Python values, exceptions and outcomes *)

Inductive pyval : Type :=
| VNone
| VBool (b : bool)
| VInt (z : Z)
| VFloat (q : Q)
| VStr (s : string).

(** Exception classes the pipeline raises or catches; all of them derive
    from Python's [Exception]. *)
Inductive exn : Type :=
| RuntimeError (msg : string)
| ValueError (msg : string)
| TypeError (msg : string)
| AttributeError (msg : string)
| ZeroDivisionError
| ValidationError
| JSONDecodeError
| FileNotFoundError (msg : string)
| TesseractNotFoundError
| OtherException (msg : string).

Inductive outcome (A : Type) : Type :=
| Returned (a : A)
| Raised (e : exn).
Arguments Returned {A} a.
Arguments Raised {A} e.

#[global] Instance outcome_ret : MRet outcome := fun A a => Returned a.
#[global] Instance outcome_bind : MBind outcome := fun A B f m =>
  match m with
  | Returned a => f a
  | Raised e => Raised e
  end.

(** [for x in l: ...] where the body may raise. *)
Fixpoint omapM {A B} (f : A -> outcome B) (l : list A) : outcome (list B) :=
  match l with
  | [] => Returned []
  | x :: l' => y ← f x; ys ← omapM f l'; Returned (y :: ys)
  end.

(** Python truthiness, as used by [not x] and [x or y]. *)
Definition truthy (v : pyval) : bool :=
  match v with
  | VNone => false
  | VBool b => b
  | VInt z => negb (z =? 0)%Z
  | VFloat q => negb (Qeq_bool q 0)
  | VStr s => negb (String.eqb s "")
  end.

(* ================================================================== *)
(** ** Strings *)

Module Str.

Definition isspace (c : ascii) : bool :=
  let n := nat_of_ascii c in
  ((9 <=? n) && (n <=? 13)) || ((28 <=? n) && (n <=? 32)).

Definition isdigit (c : ascii) : bool :=
  let n := nat_of_ascii c in (48 <=? n) && (n <=? 57).

Definition isupper (c : ascii) : bool :=
  let n := nat_of_ascii c in (65 <=? n) && (n <=? 90).

Definition islower (c : ascii) : bool :=
  let n := nat_of_ascii c in (97 <=? n) && (n <=? 122).

(** [\w] of the [re] module on ASCII text. *)
Definition isword (c : ascii) : bool :=
  isdigit c || isupper c || islower c || Ascii.eqb c "_"%char.

Definition lower_char (c : ascii) : ascii :=
  if isupper c then ascii_of_nat (nat_of_ascii c + 32) else c.

Definition upper_char (c : ascii) : ascii :=
  if islower c then ascii_of_nat (nat_of_ascii c - 32) else c.

(** [s.lower()] *)
Fixpoint lower (s : string) : string :=
  match s with
  | EmptyString => EmptyString
  | String c s' => String (lower_char c) (lower s')
  end.

Fixpoint lstrip (s : string) : string :=
  match s with
  | EmptyString => EmptyString
  | String c s' => if isspace c then lstrip s' else s
  end.

Fixpoint rstrip (s : string) : string :=
  match s with
  | EmptyString => EmptyString
  | String c s' =>
      match rstrip s' with
      | EmptyString => if isspace c then EmptyString else String c EmptyString
      | r => String c r
      end
  end.

(** [s.strip()] *)
Definition strip (s : string) : string := rstrip (lstrip s).

(** [sub in s] *)
Fixpoint contains (sub s : string) : bool :=
  String.prefix sub s ||
  match s with
  | EmptyString => false
  | String _ s' => contains sub s'
  end.

Definition startswith (p s : string) : bool := String.prefix p s.

Fixpoint endswith (p s : string) : bool :=
  String.eqb p s ||
  match s with
  | EmptyString => false
  | String _ s' => endswith p s'
  end.

(** [s.split()]: the maximal runs of non-whitespace characters. *)
Fixpoint split (s : string) : list string :=
  match s with
  | EmptyString => []
  | String c s' =>
      if isspace c then split s'
      else
        match s' with
        | EmptyString => [String c EmptyString]
        | String c' _ =>
            if isspace c' then String c EmptyString :: split s'
            else
              match split s' with
              | t :: ts => String c t :: ts
              | [] => [String c EmptyString]
              end
        end
  end.

(** [s.split(sep)] for a one-character separator; never empty. *)
Fixpoint split_on (sep : ascii) (s : string) : list string :=
  match s with
  | EmptyString => [EmptyString]
  | String c s' =>
      if Ascii.eqb c sep then EmptyString :: split_on sep s'
      else
        match split_on sep s' with
        | t :: ts => String c t :: ts
        | [] => [String c EmptyString]
        end
  end.

(** [s[:n]] *)
Fixpoint take (n : nat) (s : string) : string :=
  match n, s with
  | S n', String c s' => String c (take n' s')
  | _, _ => EmptyString
  end.

(** [str(z)] for an [int]. *)
Definition of_Z (z : Z) : string := NilZero.string_of_int (Z.to_int z).

Fixpoint join (sep : string) (l : list string) : string :=
  match l with
  | [] => EmptyString
  | [x] => x
  | x :: l' => x +:+ sep +:+ join sep l'
  end.

End Str.

(* ================================================================== *)
(** ** Regular expressions

    The patterns of the pipeline are written in a small abstract syntax and
    run by a backtracking matcher with the priorities of Python's [re]:
    alternatives are tried left to right and repetition is greedy. *)

Module Re.

Inductive regex : Type :=
| Eps
| Chr (c : ascii)
| Cls (p : ascii -> bool)
| Seq (r1 r2 : regex)
| Alt (r1 r2 : regex)
| Star (r : regex)
| WordB.

Definition plus (r : regex) : regex := Seq r (Star r).
Definition opt (r : regex) : regex := Alt r Eps.

Fixpoint lit (s : string) : regex :=
  match s with
  | EmptyString => Eps
  | String c s' => Seq (Chr c) (lit s')
  end.

Fixpoint seqs (l : list regex) : regex :=
  match l with
  | [] => Eps
  | r :: l' => Seq r (seqs l')
  end.

(** [(a|b|c)] *)
Fixpoint alts (r : regex) (l : list regex) : regex :=
  match l with
  | [] => r
  | r' :: l' => Alt r (alts r' l')
  end.

Definition digit : regex := Cls Str.isdigit.
Definition space : regex := Cls Str.isspace.
Definition any : regex := Cls (fun _ => true).

(** [r{n}] *)
Fixpoint rep (n : nat) (r : regex) : regex :=
  match n with
  | 0 => Eps
  | S n' => Seq r (rep n' r)
  end.

(** The pattern compiled with [re.IGNORECASE]. *)
Fixpoint icase (r : regex) : regex :=
  match r with
  | Chr c => Cls (fun a => Ascii.eqb (Str.lower_char a) (Str.lower_char c))
  | Cls p => Cls (fun a => p a || p (Str.lower_char a) || p (Str.upper_char a))
  | Seq r1 r2 => Seq (icase r1) (icase r2)
  | Alt r1 r2 => Alt (icase r1) (icase r2)
  | Star r' => Star (icase r')
  | Eps => Eps
  | WordB => WordB
  end.

(** [\b]: exactly one side of the position is a word character. *)
Definition at_boundary (prev : option ascii) (s : string) : bool :=
  xorb (match prev with Some c => Str.isword c | None => false end)
       (match s with String c _ => Str.isword c | EmptyString => false end).

(** [go r prev s k]: match [r] at the head of [s], the character before
    the position being [prev]; [k] receives what follows the match. *)
Fixpoint go {R : Type} (r : regex) (prev : option ascii) (s : string)
    (k : option ascii -> string -> option R) : option R :=
  match r with
  | Eps => k prev s
  | Chr c =>
      match s with
      | String a s' => if Ascii.eqb a c then k (Some a) s' else None
      | EmptyString => None
      end
  | Cls p =>
      match s with
      | String a s' => if p a then k (Some a) s' else None
      | EmptyString => None
      end
  | Seq r1 r2 => go r1 prev s (fun prev' s' => go r2 prev' s' k)
  | Alt r1 r2 =>
      match go r1 prev s k with
      | Some x => Some x
      | None => go r2 prev s k
      end
  | Star r' =>
      (fix loop (n : nat) (prev : option ascii) (s : string) : option R :=
         match n with
         | 0 => k prev s
         | S n' =>
             match go r' prev s (fun prev' s' =>
                     if String.length s' <? String.length s
                     then loop n' prev' s' else None) with
             | Some x => Some x
             | None => k prev s
             end
         end) (String.length s) prev s
  | WordB => if at_boundary prev s then k prev s else None
  end.

(** The text left after the first-priority match of [r] at the head of [s]. *)
Definition match_at (r : regex) (prev : option ascii) (s : string) : option string :=
  go r prev s (fun _ rest => Some rest).

Fixpoint search_from (r : regex) (prev : option ascii) (s : string) (i : nat)
    : option (nat * string) :=
  match match_at r prev s with
  | Some rest => Some (i, Str.take (String.length s - String.length rest) s)
  | None =>
      match s with
      | EmptyString => None
      | String c s' => search_from r (Some c) s' (S i)
      end
  end.

(** [re.search(r, s)]: start and text of the leftmost match. *)
Definition search (r : regex) (s : string) : option (nat * string) :=
  search_from r None s 0.

Definition found (r : regex) (s : string) : bool :=
  match search r s with Some _ => true | None => false end.

(** [re.sub(r, repl, s)] for a pattern that matches no empty text:
    a match of [n] characters found at the current position is replaced and
    the next [n-1] characters are skipped. *)
Fixpoint sub_from (r : regex) (repl : string) (prev : option ascii) (s : string)
    (skip : nat) : string :=
  match s with
  | EmptyString => EmptyString
  | String c s' =>
      match skip with
      | S n => sub_from r repl (Some c) s' n
      | 0 =>
          match match_at r prev s with
          | Some rest =>
              match String.length s - String.length rest with
              | 0 => String c (sub_from r repl (Some c) s' 0)
              | S n => repl +:+ sub_from r repl (Some c) s' n
              end
          | None => String c (sub_from r repl (Some c) s' 0)
          end
      end
  end.

Definition sub (r : regex) (repl s : string) : string := sub_from r repl None s 0.

End Re.

(* ================================================================== *)
(** ** Documents *)

(** [langchain_core.documents.Document]: text and a metadata dict. *)
Record Document : Type := mkDocument {
  page_content : string;
  metadata : gmap string pyval
}.

(** [d.get(k, dflt)] *)
Definition dict_get (d : gmap string pyval) (k : string) (dflt : pyval) : pyval :=
  default dflt (d !! k).

Definition newline : string := String "010" EmptyString.

(* ================================================================== *)
(** ** OCR fallback ([src/ocr/ocr_engine.py]) *)

Module OCREngine.

Definition MIN_TEXT_CHARS : nat := 25.

(** An opened PDF, seen through the only use the engine makes of it: for a
    0-based page index, [load_page], [get_pixmap], [Image.frombytes] and
    [pytesseract.image_to_string] either yield the recognized text or
    raise ([TesseractNotFoundError] when the recognizer is not installed). *)
Definition pdf_handle : Type := nat -> outcome string.

(** [[ \t]+] *)
Definition blanks : Re.regex :=
  Re.plus (Re.Cls (fun c => Ascii.eqb c " " || Ascii.eqb c "009")%char).

(** [\n{2,}] *)
Definition newlines2 : Re.regex :=
  Re.Seq (Re.Chr "010") (Re.plus (Re.Chr "010")).

Definition clean_ocr_text (ocr_text_raw : string) : string :=
  let clean_text := Re.sub blanks " " ocr_text_raw in
  Str.strip (Re.sub newlines2 newline clean_text).

(** The body of the loop for the document at position [idx]. *)
Definition ocr_page (file_path : string) (pdf : pdf_handle) (idx : nat)
    (doc : Document) : Document :=
  let page_num := dict_get (metadata doc) "page" (VInt (Z.of_nat idx + 1)) in
  let text := Str.strip (page_content doc) in
  if MIN_TEXT_CHARS <=? String.length text then doc
  else
    match pdf idx with
    | Returned ocr_text_raw =>
        let clean_text := clean_ocr_text ocr_text_raw in
        if String.length clean_text <? 5 then doc
        else
          mkDocument clean_text
            (<["page" := page_num]>
             (<["section" := dict_get (metadata doc) "section" (VStr "")]>
              (<["source" := VStr file_path]>
               (<["file_name" := VStr (List.last (Str.split_on "/" file_path) "")]>
                (<["parser" := VStr "ocr"]>
                 (<["ocr" := VBool true]> ∅))))))
    | Raised TesseractNotFoundError => doc
    | Raised _ => doc
    end.

(** [fitz_open] is [fitz.open]: it raises when the file cannot be opened. *)
Definition ocr_pages_if_empty (fitz_open : string -> outcome pdf_handle)
    (file_path : string) (docs : list Document) : list Document :=
  match fitz_open file_path with
  | Raised _ => docs
  | Returned pdf => imap (ocr_page file_path pdf) docs
  end.

End OCREngine.

(* ================================================================== *)
(** ** Chunker ([src/chunking/chunker.py]) *)

Module Chunker.

(** [(SECTION\s+\d{3}(?:[-A-Z0-9]+)?(?:\s*:\s*[A-Za-z0-9 \-]+)?)],
    compiled with [re.IGNORECASE]; group 1 is the whole match. *)
Definition SECTION_PATTERN : Re.regex :=
  Re.icase
    (Re.seqs
       [Re.lit "SECTION"; Re.plus Re.space; Re.rep 3 Re.digit;
        Re.opt (Re.plus (Re.Cls (fun c =>
                  Ascii.eqb c "-" || Str.isupper c || Str.isdigit c)%char));
        Re.opt (Re.seqs
                  [Re.Star Re.space; Re.Chr ":"; Re.Star Re.space;
                   Re.plus (Re.Cls (fun c =>
                     Str.isupper c || Str.islower c || Str.isdigit c ||
                     Ascii.eqb c " " || Ascii.eqb c "-")%char)])]).

Section Splitter.

(** [RecursiveCharacterTextSplitter.split_text] of the text-splitting
    library, configured with chunk size 600, overlap 80 and the separators
    of the constructor. *)
Variable split_text : string -> list string.

(** The body of the inner loop: the chunk at position [chunk_index]. *)
Definition make_chunk (doc : Document) (original_section page_num : pyval)
    (chunk_index : nat) (chunk : string) : Document :=
  let metadata :=
    <["original_section" := original_section]>
      (<["parent_page" := page_num]>
         (<["chunk_index" := VInt (Z.of_nat chunk_index)]> (metadata doc))) in
  let metadata :=
    if negb (truthy original_section) then
      match Re.search SECTION_PATTERN chunk with
      | Some (_, group1) => <["section" := VStr (Str.strip group1)]> metadata
      | None => metadata
      end
    else metadata in
  let cleaned_chunk := Str.strip chunk in
  mkDocument cleaned_chunk metadata.

(** The body of the outer loop: the chunks of one page. *)
Definition split_page (doc : Document) : list Document :=
  let page_text := page_content doc in
  let original_section := dict_get (metadata doc) "section" (VStr "") in
  let page_num := dict_get (metadata doc) "page" (VStr "?") in
  let chunks := split_text page_text in
  imap (make_chunk doc original_section page_num) chunks.

Definition split_documents (docs : list Document) : list Document :=
  docs ≫= split_page.

End Splitter.

End Chunker.

(* ================================================================== *)
(** ** Collaborators reached during a query *)

Record generation_config : Type := mkGenerationConfig {
  temperature : Q;
  candidate_count : nat;
  max_output_tokens : nat
}.

(** A program that may call the generative model and the vector index.
    [GenerateContent] stands for [genai.GenerativeModel(model)
    .generate_content(prompt, generation_config)] followed by reading
    [response.text]; the reply is the text (possibly [None]) or the
    exception raised on the way.  [SimilaritySearch] stands for
    [vectorstore.similarity_search_with_score(query, k)]. *)
Inductive io (A : Type) : Type :=
| Ret (a : A)
| GenerateContent (model prompt : string) (config : option generation_config)
    (k : outcome (option string) -> io A)
| SimilaritySearch (vectorstore query : string) (top_k : nat)
    (k : outcome (list (Document * Q)) -> io A).
Arguments Ret {A} a.
Arguments GenerateContent {A} model prompt config k.
Arguments SimilaritySearch {A} vectorstore query top_k k.

Fixpoint io_bind {A B : Type} (f : A -> io B) (m : io A) : io B :=
  match m with
  | Ret a => f a
  | GenerateContent model prompt config k =>
      GenerateContent model prompt config (fun r => io_bind f (k r))
  | SimilaritySearch vs query top_k k =>
      SimilaritySearch vs query top_k (fun r => io_bind f (k r))
  end.

#[global] Instance io_ret : MRet io := fun A a => Ret a.
#[global] Instance io_mbind : MBind io := fun A B f m => io_bind f m.

(** The program reaches a call of the generative model on some replies. *)
Inductive invokes_model {A : Type} : io A -> Prop :=
| invokes_now model prompt config k :
    invokes_model (GenerateContent model prompt config k)
| invokes_after_search vs query top_k k r :
    invokes_model (k r) -> invokes_model (SimilaritySearch vs query top_k k).

(** One behaviour of the collaborators: what each call replies. *)
Record world : Type := mkWorld {
  model_reply : string -> string -> option generation_config -> outcome (option string);
  index_reply : string -> string -> nat -> outcome (list (Document * Q))
}.

Fixpoint run {A : Type} (w : world) (p : io A) : A :=
  match p with
  | Ret a => a
  | GenerateContent model prompt config k => run w (k (model_reply w model prompt config))
  | SimilaritySearch vs query top_k k => run w (k (index_reply w vs query top_k))
  end.

Definition dquote : string := String "034" EmptyString.
Definition quoted (s : string) : string := dquote +:+ s +:+ dquote.

(* ================================================================== *)
(** ** Query classifier ([src/pipeline/query_classifier.py]) *)

Inductive QueryType : Type := SPEC | GENERAL.

(** [query_type.value] *)
Definition QueryType_value (t : QueryType) : string :=
  match t with SPEC => "spec" | GENERAL => "general" end.

Module Classifier.

Definition SPEC_KEYWORDS : list string :=
  ["torque"; "tighten"; "tightening"; "bolt"; "nut"; "screw";
   "clearance"; "gap"; "stroke"; "play"; "pressure"; "psi"; "bar";
   "capacity"; "volume"; "oil"; "fuel"; "coolant"; "level";
   "dimension"; "length"; "width"; "height"; "thickness";
   "rpm"; "speed"; "voltage"; "current"; "amp"; "amps"; "watt";
   "power"; "resistance"; "ohm"].

(** [\b\d+(\.\d+)?\s*(nm|ft|lb|psi|mm|cm|inch|in|amp|ohm|bar|kg)\b],
    compiled with [re.IGNORECASE]. *)
Definition SPEC_PATTERN : Re.regex :=
  Re.icase
    (Re.seqs
       [Re.WordB; Re.plus Re.digit;
        Re.opt (Re.Seq (Re.Chr ".") (Re.plus Re.digit));
        Re.Star Re.space;
        Re.alts (Re.lit "nm")
          [Re.lit "ft"; Re.lit "lb"; Re.lit "psi"; Re.lit "mm"; Re.lit "cm";
           Re.lit "inch"; Re.lit "in"; Re.lit "amp"; Re.lit "ohm"; Re.lit "bar";
           Re.lit "kg"];
        Re.WordB]).

Definition classify_prompt (query : string) : string :=
    "
Classify the following user query into one of two categories:

1. " +:+
    quoted "spec" +:+
    "    → If the user is asking for any numeric or technical specification 
                (torque, pressure, gap, bolt size, capacity, value, measurement, etc.)
2. " +:+
    quoted "general" +:+
    " → If the query is informational, conceptual or not requesting a specific spec.

Query: " +:+
    quoted query +:+
    "

Respond ONLY with either: spec  OR  general
".

Definition classify_query_llm (query : string) : io QueryType :=
  GenerateContent "gemini-2.5-flash" (classify_prompt query) None (fun r =>
    Ret match r with
        | Returned (Some response_text) =>
            let text := Str.lower (Str.strip response_text) in
            if Str.contains "spec" text then SPEC else GENERAL
        | Returned None => GENERAL
        | Raised _ => GENERAL
        end).

Definition classify_query (query : string) : io QueryType :=
  let q := Str.lower query in
  if existsb (fun keyword => Str.contains keyword q) SPEC_KEYWORDS then Ret SPEC
  else if Re.found SPEC_PATTERN q then Ret SPEC
  else classify_query_llm query.

End Classifier.

(* ================================================================== *)
(** ** Float arithmetic *)

Module Float.

Definition add (a b : Q) : Q := Qred (a + b).
Definition sub (a b : Q) : Q := Qred (a - b).
Definition mul (a b : Q) : Q := Qred (a * b).

(** [a / b] raises on a zero divisor. *)
Definition div (a b : Q) : outcome Q :=
  if Qeq_bool b 0 then Raised ZeroDivisionError else Returned (Qred (a / b)).

Definition ltb (a b : Q) : bool := negb (Qle_bool b a).

(** [min(a, b)] and [max(a, b)]: the first argument wins a tie. *)
Definition min (a b : Q) : Q := if ltb b a then b else a.
Definition max (a b : Q) : Q := if ltb a b then b else a.

(** [min(l)] and [max(l)] of a non-empty list headed by [x]. *)
Definition list_min (x : Q) (l : list Q) : Q := fold_left min l x.
Definition list_max (x : Q) (l : list Q) : Q := fold_left max l x.

End Float.

(** What the Python runtime does with floats as text; the float model being
    rational, these stay parameters. *)
Record float_text : Type := mkFloatText {
  (** [float(s)] for a string; [None] is [ValueError] *)
  float_of_str : string -> option Q;
  (** [str(x)] for a float *)
  float_repr : Q -> string;
  (** [format(x, ".nf")] *)
  float_fixed : nat -> Q -> string
}.

Section PythonText.

Variable py : float_text.

(** [float(v)] *)
Definition py_float (v : pyval) : outcome Q :=
  match v with
  | VFloat q => Returned (Qred q)
  | VInt z => Returned (inject_Z z)
  | VBool b => Returned (if b then 1%Q else 0%Q)
  | VStr s =>
      match float_of_str py s with
      | Some q => Returned (Qred q)
      | None => Raised (ValueError "could not convert string to float")
      end
  | VNone => Raised (TypeError "float() argument must be a string or a real number")
  end.

(** [str(v)], as produced by [{v}] in an f-string *)
Definition py_str (v : pyval) : string :=
  match v with
  | VNone => "None"
  | VBool true => "True"
  | VBool false => "False"
  | VInt z => Str.of_Z z
  | VFloat q => float_repr py q
  | VStr s => s
  end.

(** [{v:.nf}] in an f-string *)
Definition py_format_f (n : nat) (v : pyval) : outcome string :=
  match v with
  | VFloat q => Returned (float_fixed py n q)
  | VInt z => Returned (float_fixed py n (inject_Z z))
  | VBool b => Returned (float_fixed py n (if b then 1%Q else 0%Q))
  | VStr _ => Raised (ValueError "Unknown format code 'f' for object of type 'str'")
  | VNone => Raised (TypeError "unsupported format string passed to NoneType.__format__")
  end.

End PythonText.

(* ================================================================== *)
(** ** Retriever ([src/retrieval/retriever.py]) *)

Module Retriever.

Definition SPEC_KEYWORDS : list string :=
  ["torque"; "tighten"; "nut"; "bolt"; "caliper"; "hose";
   "psi"; "capacity"; "fluid"; "oil"; "grease";
   "disc"; "pad"; "brake"; "shock"; "damper"].

Definition keyword_score (text query : string) : Q :=
  let t := Str.lower text in
  let q := Str.lower query in
  let score := 0%Q in
  let score :=
    fold_left (fun score kw =>
                 let score := if Str.contains kw t then Float.add score (3 # 10) else score in
                 if Str.contains kw q && Str.contains kw t
                 then Float.add score (1 # 2) else score)
              SPEC_KEYWORDS score in
  let score :=
    fold_left (fun score token =>
                 if (3 <? String.length token) && Str.contains token t
                 then Float.add score (1 # 10) else score)
              (Str.split q) score in
  Float.min score 2.

(** The body of the loop over the results, for one [(doc, distance)]; the
    results of one search are distinct document objects, and the document
    returned stands for the same object with its metadata updated. *)
Definition annotate (query : string) (min_s range_s : Q) (result : Document * Q)
    : outcome Document :=
  let '(doc, distance) := result in
  let distance := Qred distance in
  scaled ← Float.div (Float.sub distance min_s) range_s;
  let faiss_sim := Float.sub 1 scaled in
  let kw := keyword_score (page_content doc) query in
  let hybrid_raw := Float.add faiss_sim kw in
  Returned
    (mkDocument (page_content doc)
       (<["retrieval_type" := VStr "hybrid"]>
        (<["retrieval_score" := VFloat hybrid_raw]>
         (<["keyword_score" := VFloat kw]>
          (<["faiss_similarity" := VFloat faiss_sim]>
           (<["faiss_distance" := VFloat distance]> (metadata doc))))))).

(** The part of [retrieve] after the [try] block. *)
Definition normalize (query : string) (results : list (Document * Q))
    : outcome (list Document) :=
  let all_scores := map (fun r => Qred (snd r)) results in
  let max_s := match all_scores with x :: l => Float.list_max x l | [] => 1%Q end in
  let min_s := match all_scores with x :: l => Float.list_min x l | [] => 0%Q end in
  let range_s :=
    let d := Float.sub max_s min_s in if Qeq_bool d 0 then 1%Q else d in
  omapM (annotate query min_s range_s) results.

Definition retrieve (vectorstore query query_type : string) (top_k : nat)
    : io (outcome (list Document)) :=
  SimilaritySearch vectorstore query top_k (fun r =>
    Ret match r with
        | Raised _ => Returned []
        | Returned results => normalize query results
        end).

End Retriever.

(* ================================================================== *)
(** ** Reranker ([src/retrieval/reranker.py]) *)

Module Reranker.

Definition units (u : string) (us : list string) : Re.regex :=
  Re.alts (Re.lit u) (map Re.lit us).

(** The byte form of [N·m]. *)
Definition N_dot_m : string := "N" +:+ String "194" (String "183" "m").

(** [\b\d+\s*(Nm|N·m|lb-ft|ft-lb|in-lb|psi|bar)\b],
    [\b\d+\.\d+\s*(mm|cm|inch|in)\b], [\b\d+\s*(mm|cm|inch|in)\b] *)
Definition SPEC_NUMBER_PATTERNS : list Re.regex :=
  [Re.seqs [Re.WordB; Re.plus Re.digit; Re.Star Re.space;
            units "Nm" [N_dot_m; "lb-ft"; "ft-lb"; "in-lb"; "psi"; "bar"]; Re.WordB];
   Re.seqs [Re.WordB; Re.plus Re.digit; Re.Chr "."; Re.plus Re.digit; Re.Star Re.space;
            units "mm" ["cm"; "inch"; "in"]; Re.WordB];
   Re.seqs [Re.WordB; Re.plus Re.digit; Re.Star Re.space;
            units "mm" ["cm"; "inch"; "in"]; Re.WordB]].

Definition contains_real_spec (text : string) : bool :=
  let text := Str.lower text in
  existsb (fun pattern => Re.found pattern text) SPEC_NUMBER_PATTERNS.

Definition keywords : list string :=
  ["torque"; "bolt"; "caliper"; "rear"; "front"; "specification"].

(** Steps 2 to 4 of [score_document] and the cap: the boost of a chunk. *)
Definition boost_of (page_content query : string) : Q :=
  let text := Str.lower page_content in
  let q := Str.lower query in
  let boost := 0%Q in
  let boost := if contains_real_spec text then Float.add boost (6 # 5) else boost in
  let boost :=
    fold_left (fun boost k => if Str.contains k text then Float.add boost (1 # 10) else boost)
              keywords boost in
  let boost :=
    fold_left (fun boost token =>
                 if (3 <? String.length token) && Str.contains token text
                 then Float.add boost (3 # 20) else boost)
              (Str.split q) boost in
  Float.min boost 2.

Section Scoring.

Variable py : float_text.

Definition score_document (doc : Document) (query query_type : string) : outcome Q :=
  semantic_score ← py_float py (dict_get (metadata doc) "score" (VFloat 1));
  semantic_sim ← Float.div 1 (Float.add 1 semantic_score);
  let boost := boost_of (page_content doc) query in
  let final_score := Float.add (Float.mul (7 # 10) semantic_sim) (Float.mul (3 # 10) boost) in
  Returned final_score.

(** [d.metadata["hybrid_score"]], set on every document before sorting. *)
Definition hybrid_score (d : Document) : Q :=
  match metadata d !! "hybrid_score" with
  | Some (VFloat q) => q
  | _ => 0%Q
  end.

(** [sorted(docs, key=hybrid_score, reverse=True)]: descending, and
    documents of equal score stay in their order. *)
Fixpoint insert_desc (d : Document) (l : list Document) : list Document :=
  match l with
  | [] => [d]
  | d' :: l' =>
      if Float.ltb (hybrid_score d) (hybrid_score d') then d' :: insert_desc d l'
      else d :: l
  end.

Definition sorted_desc (docs : list Document) : list Document :=
  foldr insert_desc [] docs.

Definition rerank_documents (docs : list Document) (query query_type : string)
    : outcome (list Document) :=
  docs ← omapM (fun d =>
            score ← score_document d query query_type;
            Returned (mkDocument (page_content d)
                        (<["hybrid_score" := VFloat score]> (metadata d))))
          docs;
  Returned (sorted_desc docs).

End Scoring.

End Reranker.

(* ================================================================== *)
(** ** Extraction engine ([src/pipeline/extraction_llm.py]) *)

Module Spec.

(** [SpecItem] *)
Record SpecItem : Type := mkSpecItem {
  component : string;
  value : string;
  unit : string;
  page : option Z;
  raw_text : option string
}.

End Spec.

Abbreviation SpecItem := Spec.SpecItem.

(** The entry points of the validation and JSON libraries that the engine
    calls, over the library's own type of parsed JSON values. *)
Record json_library : Type := mkJsonLibrary {
  json_value : Type;
  (** [SpecList.model_validate_json(text).specs]; raises [ValidationError] *)
  model_validate_json : string -> outcome (list SpecItem);
  (** [json.loads(text)]; raises [JSONDecodeError] *)
  json_loads : string -> outcome json_value;
  (** [json.dumps({"specs": v})] *)
  json_dumps_specs : json_value -> string
}.

Module Extraction.

Definition GEMINI_MODEL : string := "gemini-2.5-flash".

(** [\{[\s\S]*\}] and [\[[\s\S]*\]] *)
Definition object_block : Re.regex := Re.seqs [Re.Chr "{"; Re.Star Re.any; Re.Chr "}"].
Definition array_block : Re.regex := Re.seqs [Re.Chr "["; Re.Star Re.any; Re.Chr "]"].

Definition _extract_json_block (raw : string) : option string :=
  match Re.search object_block raw with
  | Some (_, group0) => Some group0
  | None =>
      match Re.search array_block raw with
      | Some (_, group0) => Some group0
      | None => None
      end
  end.

Definition extraction_prompt (query context query_type : string) : string :=
    "
You are a technical specification extraction engine.

### TASK
From the context below, extract ALL technical specs that answer the user's query.

### QUERY TYPE
" +:+
    query_type +:+
    "

### USER QUERY
" +:+
    query +:+
    "

### CONTEXT (service manual excerpts)
" +:+
    context +:+
    "

### OUTPUT FORMAT (VERY IMPORTANT)
Return ONLY JSON and nothing else.

The JSON must match this schema:

{
  " +:+
    quoted "specs" +:+
    ": [
    {
      " +:+
    quoted "component" +:+
    ": " +:+
    quoted "string, e.g. 'Rear brake caliper bolt'" +:+
    ",
      " +:+
    quoted "value" +:+
    ": " +:+
    quoted "string, numeric as string, e.g. '35'" +:+
    ",
      " +:+
    quoted "unit" +:+
    ": " +:+
    quoted "string, e.g. 'Nm', may be empty string if no unit" +:+
    ",
      " +:+
    quoted "page" +:+
    ": 123,  // integer page number if known, otherwise null
      " +:+
    quoted "raw_text" +:+
    ": " +:+
    quoted "original short phrase/snippet from the manual for this spec" +:+
    "
    }
  ]
}

Rules:
- Do NOT include comments in the JSON.
- Do NOT wrap the JSON in backticks.
- If no relevant specs exist, return: {" +:+
    quoted "specs" +:+
    ": []}
".

Definition generation : generation_config :=
  mkGenerationConfig 0 1 2048.

Section Engine.

Variable lib : json_library.

(** The statements after the direct validation has failed. *)
Definition recover (raw_text : string) : outcome (list SpecItem) :=
  match _extract_json_block raw_text with
  | None => Returned []
  | Some EmptyString => Returned []
  | Some json_block =>
      let stripped := Str.strip json_block in
      json_block ←
        (if Str.startswith "[" stripped && Str.endswith "]" stripped
         then parsed ← json_loads lib stripped; Returned (json_dumps_specs lib parsed)
         else Returned json_block);
      model_validate_json lib json_block
  end.

(** The body of the outer [try] once the model has replied. *)
Definition parse_response (reply : outcome (option string)) : outcome (list SpecItem) :=
  response_text ← reply;
  let raw_text := Str.strip (default "" response_text) in
  match model_validate_json lib raw_text with
  | Returned specs => Returned specs
  | Raised ValidationError => recover raw_text
  | Raised e => Raised e
  end.

Definition extract_specs (query context query_type : string) : io (list SpecItem) :=
  let prompt := extraction_prompt query context query_type in
  GenerateContent GEMINI_MODEL prompt (Some generation) (fun reply =>
    Ret match parse_response reply with
        | Returned specs => specs
        | Raised _ => []
        end).

End Engine.

End Extraction.

(* ================================================================== *)
(** ** Query processor ([src/pipeline/query_processor.py]) *)

Record QueryProcessor : Type := mkQueryProcessor {
  index_name : string;
  (** [None] until an index has been built or loaded *)
  vectorstore : option string;
  last_context : string
}.

Module Processor.

(** [(s.component.lower(), s.value.lower(), s.unit.lower())] *)
Definition spec_key (s : SpecItem) : string * string * string :=
  (Str.lower (Spec.component s), Str.lower (Spec.value s), Str.lower (Spec.unit s)).

(** [unique[key] = s] on a dict, whose entries stay in insertion order: an
    existing key keeps its place and takes the new value. *)
Fixpoint dict_set (key : string * string * string) (s : SpecItem)
    (unique : list (string * string * string * SpecItem))
    : list (string * string * string * SpecItem) :=
  match unique with
  | [] => [(key, s)]
  | (k, v) :: rest =>
      if decide (k = key) then (k, s) :: rest else (k, v) :: dict_set key s rest
  end.

(** Step 6 of [answer_query]. *)
Definition dedup (specs : list SpecItem) : list SpecItem :=
  let unique := fold_left (fun unique s => dict_set (spec_key s) s unique) specs [] in
  unique.*2.

Section Pipeline.

Variable py : float_text.
Variable lib : json_library.

(** One block of the context string, for the [idx]-th selected chunk. *)
Definition context_block (idx : nat) (d : Document) : outcome string :=
  let page := dict_get (metadata d) "page" (VStr "?") in
  let section := dict_get (metadata d) "section" (VStr "") in
  let score := dict_get (metadata d) "hybrid_score" (VFloat 0) in
  let text := Str.strip (page_content d) in
  score_text ← py_format_f py 2 score;
  Returned (newline +:+ "--- CHUNK " +:+ Str.of_Z (Z.of_nat idx) +:+
            " | Page " +:+ py_str py page +:+
            " | Section=" +:+ py_str py section +:+
            " | Score=" +:+ score_text +:+ " ---" +:+ newline +:+ text).

(** Steps 2 to 4, after the retriever has returned: the debug lines (whose
    number formats are evaluated), the rerank, the cut to six chunks and
    the context string. *)
Definition build_context (initial_docs : list Document) (query query_type_str : string)
    : outcome string :=
  _ ← omapM (fun d => py_format_f py 3 (dict_get (metadata d) "score" (VFloat 1)))
        initial_docs;
  ranked_docs ← Reranker.rerank_documents py initial_docs query query_type_str;
  let final_docs := take 6 ranked_docs in
  _ ← omapM (fun d => py_format_f py 3 (dict_get (metadata d) "hybrid_score" (VFloat 0)))
        final_docs;
  blocks ← omapM (fun b => b) (imap (fun i d => context_block (i + 1) d) final_docs);
  Returned (Str.join newline blocks).

Definition answer_query (self : QueryProcessor) (query : string)
    : io (QueryProcessor * outcome (list SpecItem)) :=
  match vectorstore self with
  | None =>
      Ret (self, Raised (RuntimeError "Vectorstore not initialized. Build or load index first."))
  | Some vs =>
      query_type ← Classifier.classify_query query;
      let query_type_str := QueryType_value query_type in
      retrieved ← Retriever.retrieve vs query query_type_str 15;
      match initial_docs ← retrieved; build_context initial_docs query query_type_str with
      | Raised e => Ret (self, Raised e)
      | Returned context =>
          let self := mkQueryProcessor (index_name self) (vectorstore self) context in
          specs ← Extraction.extract_specs lib query context query_type_str;
          let specs := dedup specs in
          Ret (self, Returned specs)
      end
  end.

End Pipeline.

End Processor.

(* ================================================================== *)
(** ** A reading of the JSON entry points on ASCII text

    Used to run the engine on concrete model replies.  Texts follow
    RFC 8259; string fields take JSON strings and [page] takes an integer
    or [null] (the lenient conversions of the validation library are not
    part of this reading). *)

Module JsonText.

#[warnings="-register-all"] Inductive json : Type :=
| JNull
| JBool (b : bool)
| JInt (z : Z)
| JFloat (lexeme : string)
| JString (s : string)
| JArray (items : list json)
| JObject (members : list (string * json)).

Definition is_ws (c : ascii) : bool :=
  (Ascii.eqb c " " || Ascii.eqb c "009" || Ascii.eqb c "010" || Ascii.eqb c "013")%char.

Fixpoint skip_ws (s : string) : string :=
  match s with
  | String c s' => if is_ws c then skip_ws s' else s
  | EmptyString => EmptyString
  end.

Definition hex_digit (c : ascii) : option nat :=
  let n := nat_of_ascii c in
  if Str.isdigit c then Some (n - 48)
  else if (97 <=? n) && (n <=? 102) then Some (n - 87)
  else if (65 <=? n) && (n <=? 70) then Some (n - 55)
  else None.

Definition escape_char (c : ascii) : option ascii :=
  (if Ascii.eqb c "034" then Some "034"
   else if Ascii.eqb c "\" then Some "\"
   else if Ascii.eqb c "/" then Some "/"
   else if Ascii.eqb c "b" then Some "008"
   else if Ascii.eqb c "f" then Some "012"
   else if Ascii.eqb c "n" then Some "010"
   else if Ascii.eqb c "r" then Some "013"
   else if Ascii.eqb c "t" then Some "009"
   else None)%char.

(** The characters of a string literal after its opening quote, and the
    text after its closing quote. *)
Fixpoint read_string (s : string) : option (string * string) :=
  match s with
  | EmptyString => None
  | String c s' =>
      if Ascii.eqb c "034" then Some (EmptyString, s')
      else if Ascii.eqb c "\" then
        match s' with
        | String "u" (String h1 (String h2 (String h3 (String h4 s'')))) =>
            match hex_digit h1, hex_digit h2, hex_digit h3, hex_digit h4 with
            | Some a, Some b, Some c, Some d =>
                let n := ((a * 16 + b) * 16 + c) * 16 + d in
                if n <? 128 then
                  match read_string s'' with
                  | Some (t, rest) => Some (String (ascii_of_nat n) t, rest)
                  | None => None
                  end
                else None
            | _, _, _, _ => None
            end
        | String e s'' =>
            match escape_char e, read_string s'' with
            | Some ch, Some (t, rest) => Some (String ch t, rest)
            | _, _ => None
            end
        | EmptyString => None
        end
      else if nat_of_ascii c <? 32 then None
      else
        match read_string s' with
        | Some (t, rest) => Some (String c t, rest)
        | None => None
        end
  end.

Fixpoint read_digits (s : string) : string * string :=
  match s with
  | String c s' =>
      if Str.isdigit c then let '(d, rest) := read_digits s' in (String c d, rest)
      else (EmptyString, s)
  | EmptyString => (EmptyString, EmptyString)
  end.

Fixpoint digits_value (d : string) (acc : Z) : Z :=
  match d with
  | String c d' => digits_value d' (10 * acc + Z.of_nat (nat_of_ascii c - 48))
  | EmptyString => acc
  end.

(** A JSON number: optional minus sign, integer part without a leading
    zero, optional fraction, optional exponent. *)
Definition read_number (s : string) : option (json * string) :=
  let '(neg, s1) :=
    match s with
    | String "-" r => (true, r)
    | _ => (false, s)
    end in
  let '(int_part, s2) := read_digits s1 in
  let well_formed :=
    match int_part with
    | EmptyString => false
    | String "0" (String _ _) => false
    | _ => true
    end in
  if negb well_formed then None
  else
    let frac :=
      match s2 with
      | String "." r =>
          let '(d, r') := read_digits r in
          match d with
          | EmptyString => None
          | _ => Some (Some ("." +:+ d), r')
          end
      | _ => Some (None, s2)
      end in
    match frac with
    | None => None
    | Some (frac_part, s3) =>
        let expo :=
          match s3 with
          | String e r =>
              if (Ascii.eqb e "e" || Ascii.eqb e "E")%char then
                let '(sign, r1) :=
                  match r with
                  | String "+" r' => ("+", r')
                  | String "-" r' => ("-", r')
                  | _ => ("", r)
                  end in
                let '(d, r2) := read_digits r1 in
                match d with
                | EmptyString => None
                | _ => Some (Some (String e sign +:+ d), r2)
                end
              else Some (None, s3)
          | EmptyString => Some (None, s3)
          end in
        match expo with
        | None => None
        | Some (exp_part, s4) =>
            match frac_part, exp_part with
            | None, None =>
                let v := digits_value int_part 0 in
                Some (JInt (if neg then (- v)%Z else v), s4)
            | _, _ =>
                Some (JFloat ((if neg then "-" else "") +:+ int_part +:+
                              default "" frac_part +:+ default "" exp_part), s4)
            end
        end
    end.

Definition read_literal (name : string) (v : json) (s : string) : option (json * string) :=
  if String.prefix name s
  then Some (v, String.substring (String.length name)
                  (String.length s - String.length name) s)
  else None.

Fixpoint read_value (fuel : nat) (s : string) {struct fuel} : option (json * string) :=
  match fuel with
  | 0 => None
  | S fuel =>
      match skip_ws s with
      | EmptyString => None
      | String c rest =>
          if Ascii.eqb c "[" then
            match skip_ws rest with
            | String "]" r => Some (JArray [], r)
            | _ =>
                match read_items fuel rest with
                | Some (l, r) => Some (JArray l, r)
                | None => None
                end
            end
          else if Ascii.eqb c "{" then
            match skip_ws rest with
            | String "}" r => Some (JObject [], r)
            | _ =>
                match read_members fuel rest with
                | Some (l, r) => Some (JObject l, r)
                | None => None
                end
            end
          else if Ascii.eqb c "034" then
            match read_string rest with
            | Some (t, r) => Some (JString t, r)
            | None => None
            end
          else if Ascii.eqb c "t" then read_literal "true" (JBool true) (String c rest)
          else if Ascii.eqb c "f" then read_literal "false" (JBool false) (String c rest)
          else if Ascii.eqb c "n" then read_literal "null" JNull (String c rest)
          else read_number (String c rest)
      end
  end
with read_items (fuel : nat) (s : string) {struct fuel} : option (list json * string) :=
  match fuel with
  | 0 => None
  | S fuel =>
      match read_value fuel s with
      | Some (v, r) =>
          match skip_ws r with
          | String "," r' =>
              match read_items fuel r' with
              | Some (l, r'') => Some (v :: l, r'')
              | None => None
              end
          | String "]" r' => Some ([v], r')
          | _ => None
          end
      | None => None
      end
  end
with read_members (fuel : nat) (s : string) {struct fuel}
    : option (list (string * json) * string) :=
  match fuel with
  | 0 => None
  | S fuel =>
      match skip_ws s with
      | String "034" r0 =>
          match read_string r0 with
          | Some (key, r1) =>
              match skip_ws r1 with
              | String ":" r2 =>
                  match read_value fuel r2 with
                  | Some (v, r3) =>
                      match skip_ws r3 with
                      | String "," r4 =>
                          match read_members fuel r4 with
                          | Some (l, r5) => Some ((key, v) :: l, r5)
                          | None => None
                          end
                      | String "}" r4 => Some ([(key, v)], r4)
                      | _ => None
                      end
                  | None => None
                  end
              | _ => None
              end
          | None => None
          end
      | _ => None
      end
  end.

(** A whole text as one JSON value. *)
Definition parse (text : string) : option json :=
  match read_value (2 * String.length text + 2) text with
  | Some (v, rest) =>
      match skip_ws rest with
      | EmptyString => Some v
      | _ => None
      end
  | None => None
  end.

(** The value of a key; the last occurrence counts. *)
Fixpoint member (key : string) (members : list (string * json)) : option json :=
  match members with
  | [] => None
  | (k, v) :: rest =>
      match member key rest with
      | Some v' => Some v'
      | None => if String.eqb k key then Some v else None
      end
  end.

Definition required_str (key : string) (members : list (string * json)) : option string :=
  match member key members with
  | Some (JString s) => Some s
  | _ => None
  end.

Definition validate_item (j : json) : option SpecItem :=
  match j with
  | JObject members =>
      component ← required_str "component" members;
      value ← required_str "value" members;
      unit ←
        match member "unit" members with
        | None => Some ""
        | Some (JString s) => Some s
        | Some _ => None
        end;
      page ←
        match member "page" members with
        | None | Some JNull => Some None
        | Some (JInt z) => Some (Some z)
        | Some _ => None
        end;
      raw_text ←
        match member "raw_text" members with
        | None | Some JNull => Some None
        | Some (JString s) => Some (Some s)
        | Some _ => None
        end;
      Some (Spec.mkSpecItem component value unit page raw_text)
  | _ => None
  end.

Definition validate (j : json) : option (list SpecItem) :=
  match j with
  | JObject members =>
      match member "specs" members with
      | Some (JArray items) => mapM validate_item items
      | _ => None
      end
  | _ => None
  end.

Definition model_validate_json (text : string) : outcome (list SpecItem) :=
  match parse text ≫= validate with
  | Some specs => Returned specs
  | None => Raised ValidationError
  end.

Definition loads (text : string) : outcome json :=
  match parse text with
  | Some v => Returned v
  | None => Raised JSONDecodeError
  end.

Definition hex_char (n : nat) : ascii :=
  ascii_of_nat (if n <? 10 then 48 + n else 87 + n).

Fixpoint escape (s : string) : string :=
  match s with
  | EmptyString => EmptyString
  | String c s' =>
      (if Ascii.eqb c "034" then "\" +:+ dquote
       else if Ascii.eqb c "\" then "\\"
       else if Ascii.eqb c "010" then "\n"
       else if Ascii.eqb c "013" then "\r"
       else if Ascii.eqb c "009" then "\t"
       else if Ascii.eqb c "008" then "\b"
       else if Ascii.eqb c "012" then "\f"
       else if nat_of_ascii c <? 32 then
         "\u00" +:+ String (hex_char (nat_of_ascii c / 16))
                      (String (hex_char (nat_of_ascii c mod 16)) EmptyString)
       else String c EmptyString) +:+ escape s'
  end.

(** [json.dumps(v)] with the default separators. *)
Fixpoint dumps (v : json) : string :=
  match v with
  | JNull => "null"
  | JBool true => "true"
  | JBool false => "false"
  | JInt z => Str.of_Z z
  | JFloat lexeme => lexeme
  | JString s => quoted (escape s)
  | JArray items => "[" +:+ Str.join ", " (map dumps items) +:+ "]"
  | JObject members =>
      "{" +:+ Str.join ", " (map (fun kv => quoted (escape (fst kv)) +:+ ": " +:+ dumps (snd kv))
                                 members) +:+ "}"
  end.

Definition library : json_library :=
  mkJsonLibrary json model_validate_json loads
    (fun v => dumps (JObject [("specs", v)])).

End JsonText.

(* ================================================================== *)
(** ** Predicates on texts used in the statements *)

Module Text.

(** Every character of [s] satisfies [p]. *)
Fixpoint all_chars (p : ascii -> bool) (s : string) : bool :=
  match s with
  | EmptyString => true
  | String c s' => p c && all_chars p s'
  end.

(** The character [c] does not occur in [s]. *)
Definition lacks (c : ascii) (s : string) : bool :=
  all_chars (fun a => negb (Ascii.eqb a c)) s.

End Text.

(* ================================================================== *)
(** ** Plain-text parser ([src/parsers/pymupdf_parser.py]) *)

Module PyMuPDFParser.

(** The word SECTION, white space, three digits, any run of hyphens and
    word characters, one colon or white-space character and the rest of
    the line; compiled with [re.IGNORECASE]; group 1 is the whole match. *)
Definition SECTION_REGEX : Re.regex :=
  Re.icase
    (Re.seqs
       [Re.lit "SECTION"; Re.plus Re.space; Re.rep 3 Re.digit;
        Re.Star (Re.Cls (fun c => Ascii.eqb c "-" || Str.isword c)%char);
        Re.Cls (fun c => Ascii.eqb c ":" || Str.isspace c)%char;
        Re.Star (Re.Cls (fun c => negb (Ascii.eqb c "010")))]).

(** The two [re.sub] calls and the [strip] applied to the text of a page. *)
Definition normalize_whitespace (raw_text : string) : string :=
  let text := Re.sub OCREngine.blanks " " raw_text in
  Str.strip (Re.sub OCREngine.newlines2 newline text).

Definition find_section (text : string) : string :=
  match Re.search SECTION_REGEX text with
  | Some (_, group1) => Str.strip group1
  | None => EmptyString
  end.

(** The document built in the loop for the page at 0-based position [i]. *)
Definition page_document (file_path : string) (i : nat) (raw_text : string) : Document :=
  let text := normalize_whitespace raw_text in
  let section := find_section text in
  mkDocument text
    (<["page" := VInt (Z.of_nat i + 1)]>
     (<["section" := VStr section]>
      (<["source" := VStr file_path]>
       (<["file_name" := VStr (List.last (Str.split_on "/" file_path) EmptyString)]>
        (<["parser" := VStr "pymupdf"]> ∅))))).

(** The loop inside the [try]: it ends at the first page that raises, and
    what was collected so far is kept.  A page is what iterating the PDF
    and [get_text] yield for it. *)
Fixpoint load_pages (file_path : string) (i : nat) (pages : list (outcome string))
    : list Document :=
  match pages with
  | [] => []
  | Returned raw_text :: rest =>
      page_document file_path i raw_text :: load_pages file_path (S i) rest
  | Raised _ :: _ => []
  end.

(** [fitz_open] is [fitz.open], outside the [try]: its exception is the
    caller's. *)
Definition load (fitz_open : string -> outcome (list (outcome string)))
    (file_path : string) : outcome (list Document) :=
  pdf ← fitz_open file_path;
  Returned (load_pages file_path 0 pdf).

End PyMuPDFParser.

(* ================================================================== *)
(** ** Structured parser ([src/parsers/llama_parser.py]) *)

Module LlamaParser.

(** One element of what [load_data] returns, seen through the two
    attributes the loop reads; reading an attribute the object lacks
    raises. *)
Record parsed : Type := mkParsed {
  parsed_page_content : outcome (option string);
  parsed_metadata : outcome (gmap string pyval)
}.

(** The client, seen through its [load_data] method. *)
Definition client : Type := string -> outcome (list parsed).

(** [__init__]: no client without a key, or when the constructor raises. *)
Definition init (LLAMA_CLOUD_API_KEY : option string)
    (LlamaParse : string -> outcome client) : option client :=
  match LLAMA_CLOUD_API_KEY with
  | None => None
  | Some EmptyString => None
  | Some api_key =>
      match LlamaParse api_key with
      | Returned c => Some c
      | Raised _ => None
      end
  end.

(** The body of the loop for the element at position [idx]. *)
Definition page_document (file_path : string) (idx : nat) (p : parsed) : outcome Document :=
  content ← parsed_page_content p;
  let page_text := default EmptyString content in
  let clean := PyMuPDFParser.normalize_whitespace page_text in
  let section := PyMuPDFParser.find_section clean in
  meta ← parsed_metadata p;
  let page_num :=
    match meta !! "page_number" with
    | Some v => if truthy v then v else VInt (Z.of_nat idx + 1)
    | None => VInt (Z.of_nat idx + 1)
    end in
  Returned
    (mkDocument clean
       (<["page" := page_num]>
        (<["section" := VStr section]>
         (<["source" := VStr file_path]>
          (<["file_name" := VStr (List.last (Str.split_on "/" file_path) EmptyString)]>
           (<["parser" := VStr "llamaparse"]> ∅)))))).

Fixpoint load_results (file_path : string) (idx : nat) (results : list parsed)
    : outcome (list Document) :=
  match results with
  | [] => Returned []
  | p :: rest =>
      doc ← page_document file_path idx p;
      docs ← load_results file_path (S idx) rest;
      Returned (doc :: docs)
  end.

Definition load (self_client : option client) (file_path : string)
    : outcome (list Document) :=
  match self_client with
  | None => Raised (RuntimeError "LlamaParse client not initialized.")
  | Some load_data =>
      results ← load_data file_path;
      load_results file_path 0 results
  end.

End LlamaParser.

(* ================================================================== *)
(** ** Parse manager ([src/parsers/parse_manager.py]) *)

Module ParseManager.

(** [d.setdefault(k, v)] *)
Definition setdefault (k : string) (v : pyval) (d : gmap string pyval) : gmap string pyval :=
  match d !! k with
  | Some _ => d
  | None => <[k := v]> d
  end.

(** Step 3 for one document. *)
Definition fix_metadata (llama : option LlamaParser.client) (file_path : string)
    (doc : Document) : Document :=
  mkDocument (page_content doc)
    (setdefault "parser" (VStr (match llama with Some _ => "llama" | None => "pymupdf" end))
       (setdefault "source" (VStr file_path)
          (setdefault "section" (VStr EmptyString)
             (setdefault "page" (VInt (-1)) (metadata doc))))).

(** Step 1: the structured parser when it is configured and yields pages,
    the plain-text parser otherwise. *)
Definition parse (llama : option LlamaParser.client)
    (fitz_open_text : string -> outcome (list (outcome string)))
    (file_path : string) : outcome (list Document) :=
  match llama with
  | Some _ =>
      match (docs ← LlamaParser.load llama file_path;
             match docs with
             | [] => Raised (ValueError "LlamaParse returned empty docs.")
             | _ => Returned docs
             end) with
      | Returned docs => Returned docs
      | Raised _ => PyMuPDFParser.load fitz_open_text file_path
      end
  | None => PyMuPDFParser.load fitz_open_text file_path
  end.

Definition load (llama : option LlamaParser.client)
    (fitz_open_text : string -> outcome (list (outcome string)))
    (fitz_open : string -> outcome OCREngine.pdf_handle)
    (file_path : string) : outcome (list Document) :=
  docs ← parse llama fitz_open_text file_path;
  let docs := OCREngine.ocr_pages_if_empty fitz_open file_path docs in
  Returned (fix_metadata llama file_path <$> docs).

End ParseManager.

(* ================================================================== *)
(** ** Vector index ([src/embeddings/embed_index.py]) *)

(** The embedding and index libraries and the file system, seen through
    the calls the module makes.  An index is named by a handle. *)
Record index_library : Type := mkIndexLibrary {
  (** the type of embedding models *)
  embeddings : Type;
  (** [HuggingFaceEmbeddings(model_name=..., encode_kwargs=...)] *)
  HuggingFaceEmbeddings : outcome embeddings;
  (** [FAISS.from_documents(docs, embedding_model)] *)
  from_documents : list Document -> embeddings -> outcome string;
  (** [os.makedirs(path, exist_ok=True)] *)
  makedirs : string -> outcome unit;
  (** [db.save_local(folder, index_name=...)] *)
  save_local : string -> string -> string -> outcome unit;
  (** [os.path.exists(path)] *)
  path_exists : string -> bool;
  (** [FAISS.load_local(folder_path=..., embeddings=..., index_name=...)] *)
  load_local : string -> embeddings -> string -> outcome string
}.

Module EmbedIndex.

(** [os.path.join(a, b)] with the separator [/]. *)
Definition path_join (a b : string) : string :=
  if Str.startswith "/" b then b
  else if (String.length a =? 0) || Str.endswith "/" a then a +:+ b
  else a +:+ "/" +:+ b.

Section Index.

Variable lib : index_library.
(** [INDEX_DIR] of the configuration module *)
Variable INDEX_DIR : string.

Definition get_embedding_model : outcome (embeddings lib) := HuggingFaceEmbeddings lib.

Definition build_faiss_index (docs : list Document) (index_name : string) : outcome string :=
  embedding_model ← get_embedding_model;
  db ← from_documents lib docs embedding_model;
  _ ← makedirs lib INDEX_DIR;
  _ ← save_local lib db INDEX_DIR index_name;
  Returned db.

Definition missing_index_files (faiss_path pkl_path : string) : string :=
  "[FAISS] Missing index files:" +:+ newline +:+
  " - " +:+ faiss_path +:+ newline +:+
  " - " +:+ pkl_path +:+ newline +:+
  "Index cannot be loaded.".

Definition load_faiss_index (index_name : string) : outcome string :=
  embedding_model ← get_embedding_model;
  let faiss_path := path_join INDEX_DIR (index_name +:+ ".faiss") in
  let pkl_path := path_join INDEX_DIR (index_name +:+ ".pkl") in
  if negb (path_exists lib faiss_path) || negb (path_exists lib pkl_path) then
    Raised (FileNotFoundError (missing_index_files faiss_path pkl_path))
  else
    load_local lib INDEX_DIR embedding_model index_name.

End Index.

End EmbedIndex.

(* ================================================================== *)
(** ** Query processor: building and loading the index
    ([src/pipeline/query_processor.py]) *)

Module Indexing.

Section Index.

Variable lib : index_library.
Variable INDEX_DIR : string.
(** [LLAMA_CLOUD_API_KEY] of the configuration module and the constructor
    of the structured parser's client *)
Variable LLAMA_CLOUD_API_KEY : option string.
Variable LlamaParse : string -> outcome LlamaParser.client.
Variable fitz_open_text : string -> outcome (list (outcome string)).
Variable fitz_open : string -> outcome OCREngine.pdf_handle.
Variable split_text : string -> list string.

(** The method assigns [self.vectorstore]; the processor after the call is
    returned. *)
Definition build_index_from_pdf (self : QueryProcessor) (file_path : string)
    : outcome QueryProcessor :=
  let llama := LlamaParser.init LLAMA_CLOUD_API_KEY LlamaParse in
  docs ← ParseManager.load llama fitz_open_text fitz_open file_path;
  let chunks := Chunker.split_documents split_text docs in
  db ← EmbedIndex.build_faiss_index lib INDEX_DIR chunks (index_name self);
  Returned (mkQueryProcessor (index_name self) (Some db) (last_context self)).

Definition load_existing_index (self : QueryProcessor) : outcome QueryProcessor :=
  db ← EmbedIndex.load_faiss_index lib INDEX_DIR (index_name self);
  Returned (mkQueryProcessor (index_name self) (Some db) (last_context self)).

End Index.

End Indexing.

(* ================================================================== *)
(** ** Concrete inputs used by the examples *)

Module Samples.

(** A scanned PDF of two pages and the text recognized on each. *)
Definition scanned_pdf : OCREngine.pdf_handle := fun idx =>
  match idx with
  | 0 => Returned "Front  axle nut 	 torque: 120 Nm"
  | 1 => Returned "Rear caliper bolt: 35 Nm"
  | _ => Raised (ValueError "page not in document")
  end.

Definition open_scanned : string -> outcome OCREngine.pdf_handle :=
  fun _ => Returned scanned_pdf.

(** Thirty blanks: long as a string, empty once stripped. *)
Definition blank_page : Document :=
  mkDocument "                              " {["page" := VInt 1; "parser" := VStr "pymupdf"]}.

Definition full_page : Document :=
  mkDocument "Tighten the rear caliper bolt to 35 Nm."
             {["page" := VInt 1; "parser" := VStr "pymupdf"]}.

(** A short page labelled as page 2 of the manual. *)
Definition short_page2 : Document :=
  mkDocument "Fig. 3" {["page" := VInt 2; "section" := VStr "SECTION 204"]}.

(** A PDF on which recognition finds next to nothing. *)
Definition empty_scan : string -> outcome OCREngine.pdf_handle :=
  fun _ => Returned (fun _ => Returned " . ").

(** A stand-in for the library splitter: one chunk per line. *)
Definition by_lines : string -> list string := Str.split_on "010".

Definition page_with_section : Document :=
  mkDocument ("SECTION 310: Rear Brakes" +:+ newline +:+ "Caliper bolt torque 35 Nm")
             {["page" := VInt 7; "section" := VStr "SECTION 204: Front Suspension"]}.

Definition page_without_section : Document :=
  mkDocument ("Intro text" +:+ newline +:+ "  section 310-A : Rear Brakes  ")
             {["page" := VInt 8; "section" := VStr ""]}.

(** Decimal text of a float with [n] digits after the point, rounded half
    up; it stands for the runtime's float formatting in the examples. *)
Fixpoint zeros (n : nat) : string :=
  match n with
  | 0 => EmptyString
  | S n' => String "0" (zeros n')
  end.

Definition pad_zeros (n : nat) (s : string) : string :=
  zeros (n - String.length s) +:+ s.

Definition fixed (n : nat) (q : Q) : string :=
  let scale := (10 ^ Z.of_nat n)%Z in
  let den := Zpos (Qden q) in
  let r := ((2 * Qnum q * scale + den) / (2 * den))%Z in
  let a := Z.abs r in
  (if (r <? 0)%Z then "-" else "") +:+ Str.of_Z (a / scale) +:+ "." +:+
  pad_zeros n (Str.of_Z (a mod scale)).

Definition plain_floats : float_text :=
  mkFloatText (fun _ => None) (fixed 1) fixed.

(** Three indexed chunks and the distances the index reports for them. *)
Definition chunk_near : Document :=
  mkDocument "Rear caliper bolt torque: 35 Nm"
             {["page" := VInt 42; "section" := VStr "SECTION 206: Rear Brakes";
               "chunk_index" := VInt 0]}.

Definition chunk_far : Document :=
  mkDocument "The cooling system circulates coolant through the radiator."
             {["page" := VInt 10; "section" := VStr ""; "chunk_index" := VInt 2]}.

Definition chunk_mid : Document :=
  mkDocument "Front caliper bolt torque is 30 Nm."
             {["page" := VInt 40; "section" := VStr "SECTION 204: Front Brakes";
               "chunk_index" := VInt 1]}.

Definition neighbours : list (Document * Q) :=
  [(chunk_near, 1 # 4); (chunk_far, 9 # 4); (chunk_mid, 1%Q)].

(** JSON texts a model may answer with. *)
Definition member_text (key val : string) : string := quoted key +:+ ":" +:+ quoted val.

Definition object_X : string :=
  "{" +:+ member_text "component" "X" +:+ "," +:+ member_text "value" "1" +:+ "," +:+
  member_text "unit" "" +:+ "}".

Definition bare_array : string := "[" +:+ object_X +:+ "]".

Definition narrative_array : string :=
  "Here are the specifications I found: " +:+ bare_array +:+ " Let me know if you need more.".

Definition wrapped_reply : string :=
  "{" +:+ quoted "specs" +:+ ": [{" +:+
  member_text "component" "Rear caliper bolt" +:+ "," +:+ member_text "value" "35" +:+ "," +:+
  member_text "unit" "Nm" +:+ "," +:+ quoted "page" +:+ ":42}]}".

Definition duplicated_reply : string :=
  "{" +:+ quoted "specs" +:+ ": [{" +:+
  member_text "component" "Rear caliper bolt" +:+ "," +:+ member_text "value" "35" +:+ "," +:+
  member_text "unit" "Nm" +:+ "," +:+ quoted "page" +:+ ":42},{" +:+
  member_text "component" "rear caliper BOLT" +:+ "," +:+ member_text "value" "35" +:+ "," +:+
  member_text "unit" "NM" +:+ "," +:+ quoted "page" +:+ ":43}]}".

(** A world whose model classifies as general and then answers the
    extraction prompt with [answer]; the index returns [neighbours]. *)
Definition world_answering (answer : string) : world :=
  mkWorld
    (fun _ prompt _ =>
       if Str.contains "Classify the following user query" prompt
       then Returned (Some "general")
       else Returned (Some answer))
    (fun _ _ _ => Returned neighbours).

Definition item_X : SpecItem := Spec.mkSpecItem "X" "1" "" None None.

Definition loaded : QueryProcessor := mkQueryProcessor "spec_index" (Some "spec_index") "".
Definition fresh : QueryProcessor := mkQueryProcessor "spec_index" None "".

End Samples.

(* ================================================================== *)
(** ** Further concrete inputs *)

Module Cases.

(** A PDF whose recognizer is not installed, and a file that cannot be
    opened. *)
Definition no_tesseract : string -> outcome OCREngine.pdf_handle :=
  fun _ => Returned (fun _ => Raised TesseractNotFoundError).

Definition unreadable : string -> outcome OCREngine.pdf_handle :=
  fun _ => Raised (OtherException "cannot open file").

(** Chunks as the retriever hands them over, two of them (pages 5 and 9)
    with different texts and the same score, and one whose [score] entry
    is -1. *)
Definition tied_chunks : list Document :=
  [mkDocument "Hose clamp" {["page" := VInt 3]};
   mkDocument "Caliper bolt torque" {["page" := VInt 5]};
   mkDocument "Torque for the caliper bolt" {["page" := VInt 9]};
   mkDocument "Front caliper bolt torque" {["page" := VInt 7]}].

Definition ranked_tied_chunks : list Document :=
  Eval vm_compute in
    match Reranker.rerank_documents Samples.plain_floats tied_chunks "bolt torque" "spec" with
    | Returned ranked => ranked
    | Raised _ => []
    end.

Definition minus_one_chunk : Document :=
  mkDocument "Caliper bolt torque" {["page" := VInt 5; "score" := VInt (-1)]}.

(** Eight candidates and the context built from them. *)
Definition eight_chunks : list Document := tied_chunks ++ tied_chunks.

Definition context_of_eight : string :=
  Eval vm_compute in
    match Processor.build_context Samples.plain_floats eight_chunks "bolt torque" "spec" with
    | Returned context => context
    | Raised _ => EmptyString
    end.

(** A model reply of three items: the first and the last differ by letter
    case only. *)
Definition mixed_reply : string :=
  "{" +:+ quoted "specs" +:+ ": [{" +:+
  Samples.member_text "component" "Rear caliper bolt" +:+ "," +:+
  Samples.member_text "value" "35" +:+ "," +:+
  Samples.member_text "unit" "Nm" +:+ "," +:+ quoted "page" +:+ ":42},{" +:+
  Samples.member_text "component" "Front axle nut" +:+ "," +:+
  Samples.member_text "value" "120" +:+ "," +:+
  Samples.member_text "unit" "Nm" +:+ "," +:+ quoted "page" +:+ ":12},{" +:+
  Samples.member_text "component" "rear caliper BOLT" +:+ "," +:+
  Samples.member_text "value" "35" +:+ "," +:+
  Samples.member_text "unit" "NM" +:+ "," +:+ quoted "page" +:+ ":43}]}".

(** A PDF of four pages whose third page cannot be read. *)
Definition damaged_pages : list (outcome string) :=
  [Returned ("SECTION 204:  Front Brakes" +:+ newline +:+ newline +:+ "Caliper bolt 	 35 Nm ");
   Returned " Fig. 3 ";
   Raised (OtherException "cannot read page");
   Returned "Rear caliper bolt: 35 Nm"].

Definition open_damaged : string -> outcome (list (outcome string)) :=
  fun _ => Returned damaged_pages.

(** Two pages as the structured parser's client returns them: the first
    reports page 12, the second page 0 and no text. *)
Definition two_parsed_pages : list LlamaParser.parsed :=
  [LlamaParser.mkParsed (Returned (Some "SECTION 310: Rear Brakes"))
                        (Returned {["page_number" := VInt 12]});
   LlamaParser.mkParsed (Returned None) (Returned {["page_number" := VInt 0]})].

Definition llama_two_pages : LlamaParser.client := fun _ => Returned two_parsed_pages.

(** The pages the plain-text parser makes of the damaged PDF, and the
    first of them. *)
Definition text_of_damaged : list Document :=
  Eval vm_compute in PyMuPDFParser.load_pages "manual.pdf" 0 damaged_pages.

Definition first_text_page : Document :=
  Eval vm_compute in default (mkDocument EmptyString ∅) (text_of_damaged !! 0).

(** A client of the structured parser that finds no page, and what the
    manager returns for the damaged PDF without a client. *)
Definition llama_no_pages : LlamaParser.client := fun _ => Returned [].

Definition parsed_damaged : list Document :=
  Eval vm_compute in
    match ParseManager.load None open_damaged Samples.open_scanned "manual.pdf" with
    | Returned docs => docs
    | Raised _ => []
    end.

(** The second page of that result, recognized from the scan. *)
Definition recognized_page : Document :=
  Eval vm_compute in default (mkDocument EmptyString ∅) (parsed_damaged !! 1).

(** An index library that keeps nothing on disk: the handle of an index
    tells how many chunks it was built from. *)
Definition memory_index : index_library :=
  mkIndexLibrary unit (Returned tt)
    (fun docs _ => Returned ("index of " +:+ Str.of_Z (Z.of_nat (length docs)) +:+ " chunks"))
    (fun _ => Returned tt)
    (fun _ _ _ => Returned tt)
    (fun _ => false)
    (fun _ _ index_name => Returned index_name).

(** The processor after the damaged PDF was indexed, without a key for
    the structured parser. *)
Definition indexed_damaged : QueryProcessor :=
  Eval vm_compute in
    match Indexing.build_index_from_pdf memory_index "indexes" None
            (fun _ => Raised (OtherException "no client"))
            open_damaged Samples.open_scanned Samples.by_lines Samples.fresh "manual.pdf" with
    | Returned self => self
    | Raised _ => Samples.fresh
    end.

End Cases.

(* ================================================================== *)
(** * Properties *)

(** ** Sanity checks of the string and pattern primitives *)

Example lower_ex : Str.lower "Rear Caliper BOLT 35 Nm" = "rear caliper bolt 35 nm".
Proof. reflexivity. Qed.

Example strip_ex : Str.strip (" " +:+ String "009" "ab  c" +:+ String "010" " ") = "ab  c".
Proof. reflexivity. Qed.

Example split_ex : Str.split "  what is   the torque " = ["what"; "is"; "the"; "torque"].
Proof. reflexivity. Qed.

Example split_on_ex : Str.split_on "/"%char "data/raw/manual.pdf" = ["data"; "raw"; "manual.pdf"].
Proof. reflexivity. Qed.

Example contains_ex : Str.contains "bolt" "caliper bolts" = true /\ Str.contains "nut" "bolt" = false.
Proof. split; reflexivity. Qed.

Example of_Z_ex : Str.of_Z 42 = "42" /\ Str.of_Z (-1) = "-1" /\ Str.of_Z 0 = "0".
Proof. repeat split; reflexivity. Qed.

Example re_sub_ex :
  Re.sub (Re.plus (Re.Cls (fun c => Ascii.eqb c " " || Ascii.eqb c "009")%char)) " "
         ("a  " +:+ String "009" " b c   ") = "a b c ".
Proof. reflexivity. Qed.

Example re_search_ex :
  Re.search (Re.seqs [Re.WordB; Re.plus Re.digit; Re.Star Re.space;
                      Re.alts (Re.lit "mm") [Re.lit "cm"]; Re.WordB])
            "gap 12mm, 3 cm" = Some (4, "12mm").
Proof. reflexivity. Qed.

Example re_greedy_ex :
  Re.search (Re.seqs [Re.Chr "{"; Re.Star Re.any; Re.Chr "}"]) "x {a} y {b} z" = Some (2, "{a} y {b}").
Proof. reflexivity. Qed.

(* ================================================================== *)
(** ** OCR fallback *)

Lemma lstrip_length (s : string) : String.length (Str.lstrip s) <= String.length s.
Proof.
  induction s as [|c s IH]; simpl; [lia|].
  destruct (Str.isspace c); simpl; lia.
Qed.

Lemma rstrip_length (s : string) : String.length (Str.rstrip s) <= String.length s.
Proof.
  induction s as [|c s IH]; simpl; [lia|].
  destruct (Str.rstrip s) eqn:E; simpl in *.
  - destruct (Str.isspace c); simpl; lia.
  - lia.
Qed.

Lemma strip_length (s : string) : String.length (Str.strip s) <= String.length s.
Proof.
  unfold Str.strip. etransitivity; [apply rstrip_length | apply lstrip_length].
Qed.

(** Position [i] of the result is the loop body run on position [i] of the
    input with the same index. *)
Lemma ocr_pages_lookup fitz_open file_path pdf (docs : list Document) i doc :
  fitz_open file_path = Returned pdf ->
  docs !! i = Some doc ->
  OCREngine.ocr_pages_if_empty fitz_open file_path docs !! i
  = Some (OCREngine.ocr_page file_path pdf i doc).
Proof.
  intros Hopen Hdoc. unfold OCREngine.ocr_pages_if_empty. rewrite Hopen.
  rewrite list_lookup_imap, Hdoc. reflexivity.
Qed.

Lemma ocr_page_enough_text file_path pdf i doc :
  OCREngine.MIN_TEXT_CHARS <= String.length (Str.strip (page_content doc)) ->
  OCREngine.ocr_page file_path pdf i doc = doc.
Proof.
  intros H. unfold OCREngine.ocr_page.
  destruct (Nat.leb_spec OCREngine.MIN_TEXT_CHARS (String.length (Str.strip (page_content doc))));
    [reflexivity | lia].
Qed.

(** The threshold is applied to the stripped text.  Called on its own
    with a page of thirty blanks, whose stripped text is empty, the
    fallback sends the page to recognition and replaces its content; the
    parsers never produce such a page, since they strip the text. *)
Example ocr_blank_page_is_replaced :
  25 <= String.length (page_content Samples.blank_page) /\
  OCREngine.ocr_pages_if_empty Samples.open_scanned "manual.pdf" [Samples.blank_page]
  <> [Samples.blank_page] /\
  page_content <$> OCREngine.ocr_pages_if_empty Samples.open_scanned "manual.pdf"
                     [Samples.blank_page]
  = ["Front axle nut torque: 120 Nm"].
Proof.
  split; [vm_compute; lia|].
  assert (E : page_content <$> OCREngine.ocr_pages_if_empty Samples.open_scanned "manual.pdf"
                     [Samples.blank_page] = ["Front axle nut torque: 120 Nm"])
    by (vm_compute; reflexivity).
  split; [|exact E].
  intros H. rewrite H in E. vm_compute in E. discriminate E.
Qed.

(** A page whose text, stripped of leading and trailing whitespace, has
    at least 25 characters comes back from the OCR fallback unchanged,
    content and metadata, at the same position; this holds whether or not
    the PDF can be opened. *)
Lemma ocr_keeps_pages_with_enough_text
    (fitz_open : string -> outcome OCREngine.pdf_handle) (file_path : string)
    (docs : list Document) (i : nat) (doc : Document) :
  docs !! i = Some doc ->
  25 <= String.length (Str.strip (page_content doc)) ->
  OCREngine.ocr_pages_if_empty fitz_open file_path docs !! i = Some doc.
Proof.
  intros Hdoc Hlen.
  destruct (fitz_open file_path) as [pdf|e] eqn:Hopen.
  - rewrite (ocr_pages_lookup _ _ pdf _ _ doc Hopen Hdoc).
    f_equal. apply ocr_page_enough_text. exact Hlen.
  - unfold OCREngine.ocr_pages_if_empty. rewrite Hopen. exact Hdoc.
Qed.

(** What the loop body does with a page that needs recognition, by the
    length of the cleaned text. *)
Lemma ocr_page_short file_path pdf i doc raw :
  String.length (Str.strip (page_content doc)) < OCREngine.MIN_TEXT_CHARS ->
  pdf i = Returned raw ->
  OCREngine.ocr_page file_path pdf i doc =
  if String.length (OCREngine.clean_ocr_text raw) <? 5 then doc
  else mkDocument (OCREngine.clean_ocr_text raw)
         (<["page" := dict_get (metadata doc) "page" (VInt (Z.of_nat i + 1))]>
          (<["section" := dict_get (metadata doc) "section" (VStr "")]>
           (<["source" := VStr file_path]>
            (<["file_name" := VStr (List.last (Str.split_on "/" file_path) "")]>
             (<["parser" := VStr "ocr"]>
              (<["ocr" := VBool true]> ∅)))))).
Proof.
  intros Hshort Hpdf. unfold OCREngine.ocr_page.
  destruct (Nat.leb_spec OCREngine.MIN_TEXT_CHARS (String.length (Str.strip (page_content doc))));
    [lia|].
  rewrite Hpdf. reflexivity.
Qed.

(** C6: for a page of fewer than 25 characters on which recognition
    succeeds, the result at the same position has the cleaned recognized
    text as content and [parser = "ocr"], [ocr = True] in its metadata when
    that text has at least 5 characters, and is the original page when it
    has fewer. *)
Theorem ocr_replaces_short_pages
    (fitz_open : string -> outcome OCREngine.pdf_handle) (file_path : string)
    (pdf : OCREngine.pdf_handle) (docs : list Document) (i : nat)
    (doc : Document) (raw : string) :
  fitz_open file_path = Returned pdf ->
  docs !! i = Some doc ->
  String.length (page_content doc) < 25 ->
  pdf i = Returned raw ->
  (5 <= String.length (OCREngine.clean_ocr_text raw) ->
   exists out,
     OCREngine.ocr_pages_if_empty fitz_open file_path docs !! i = Some out /\
     page_content out = OCREngine.clean_ocr_text raw /\
     metadata out !! "parser" = Some (VStr "ocr") /\
     metadata out !! "ocr" = Some (VBool true)) /\
  (String.length (OCREngine.clean_ocr_text raw) < 5 ->
   OCREngine.ocr_pages_if_empty fitz_open file_path docs !! i = Some doc).
Proof.
  intros Hopen Hdoc Hlen Hpdf.
  assert (Hshort : String.length (Str.strip (page_content doc)) < OCREngine.MIN_TEXT_CHARS).
  { pose proof (strip_length (page_content doc)). unfold OCREngine.MIN_TEXT_CHARS. lia. }
  rewrite (ocr_pages_lookup _ _ pdf _ _ doc Hopen Hdoc).
  rewrite (ocr_page_short _ _ _ _ raw Hshort Hpdf).
  split; intros Hclean.
  - destruct (Nat.ltb_spec (String.length (OCREngine.clean_ocr_text raw)) 5); [lia|].
    eexists. split; [reflexivity|]. simpl. split; [reflexivity|].
    split; by simplify_map_eq.
  - destruct (Nat.ltb_spec (String.length (OCREngine.clean_ocr_text raw)) 5); [|lia].
    reflexivity.
Qed.

Lemma ocr_replaces_short_pages_witness :
  (exists out,
     OCREngine.ocr_pages_if_empty Samples.open_scanned "manual.pdf"
       [Samples.full_page; Samples.short_page2] !! 1 = Some out /\
     page_content out = "Rear caliper bolt: 35 Nm" /\
     metadata out !! "parser" = Some (VStr "ocr") /\
     metadata out !! "ocr" = Some (VBool true)).
Proof.
  apply (ocr_replaces_short_pages Samples.open_scanned "manual.pdf" Samples.scanned_pdf
           [Samples.full_page; Samples.short_page2] 1 Samples.short_page2
           "Rear caliper bolt: 35 Nm").
  - reflexivity.
  - reflexivity.
  - vm_compute. lia.
  - reflexivity.
  - vm_compute. lia.
Defined.

Example ocr_trivial_recognition_keeps_page :
  OCREngine.ocr_pages_if_empty Samples.empty_scan "manual.pdf" [Samples.short_page2]
  = [Samples.short_page2].
Proof. vm_compute. reflexivity. Qed.

(** C10: the page sent to rendering and recognition is the one at the
    document's 0-based position [i] in the input list, whatever the
    document's [page] metadata says: a short document at position [i] gets
    the cleaned text recognized on PDF page [i], and is labelled with its
    own [page] metadata (position + 1 only when it has none). *)
Theorem ocr_renders_page_at_list_position
    (fitz_open : string -> outcome OCREngine.pdf_handle) (file_path : string)
    (pdf : OCREngine.pdf_handle) (docs : list Document) (i : nat)
    (doc : Document) (raw : string) :
  fitz_open file_path = Returned pdf ->
  docs !! i = Some doc ->
  String.length (Str.strip (page_content doc)) < 25 ->
  pdf i = Returned raw ->
  5 <= String.length (OCREngine.clean_ocr_text raw) ->
  exists out,
    OCREngine.ocr_pages_if_empty fitz_open file_path docs !! i = Some out /\
    page_content out = OCREngine.clean_ocr_text raw /\
    metadata out !! "page"
    = Some (dict_get (metadata doc) "page" (VInt (Z.of_nat i + 1))).
Proof.
  intros Hopen Hdoc Hshort Hpdf Hclean.
  rewrite (ocr_pages_lookup _ _ pdf _ _ doc Hopen Hdoc).
  rewrite (ocr_page_short _ _ _ _ raw Hshort Hpdf).
  destruct (Nat.ltb_spec (String.length (OCREngine.clean_ocr_text raw)) 5); [lia|].
  eexists. split; [reflexivity|]. simpl. split; [reflexivity|].
  by simplify_map_eq.
Qed.

(** A document labelled page 2 that stands first in the list receives the
    text of the first PDF page and keeps the label 2. *)
Lemma ocr_renders_page_at_list_position_witness :
  exists out,
    OCREngine.ocr_pages_if_empty Samples.open_scanned "manual.pdf"
      [Samples.short_page2] !! 0 = Some out /\
    page_content out = "Front axle nut torque: 120 Nm" /\
    metadata out !! "page" = Some (VInt 2).
Proof.
  apply (ocr_renders_page_at_list_position Samples.open_scanned "manual.pdf"
           Samples.scanned_pdf [Samples.short_page2] 0 Samples.short_page2
           "Front  axle nut 	 torque: 120 Nm").
  - reflexivity.
  - reflexivity.
  - vm_compute. lia.
  - reflexivity.
  - vm_compute. lia.
Defined.

(* ================================================================== *)
(** ** Chunker *)

Section ChunkerProps.

Variable split_text : string -> list string.

Lemma make_chunk_original_section doc sec page_num i chunk :
  metadata (Chunker.make_chunk doc sec page_num i chunk) !! "original_section" = Some sec.
Proof.
  unfold Chunker.make_chunk. simpl.
  destruct (negb (truthy sec)); [destruct (Re.search _ _) as [[? ?]|]|];
    by simplify_map_eq.
Qed.

Lemma make_chunk_section_truthy doc sec page_num i chunk :
  truthy sec = true ->
  metadata (Chunker.make_chunk doc sec page_num i chunk) !! "section"
  = metadata doc !! "section".
Proof.
  intros Ht. unfold Chunker.make_chunk. simpl. rewrite Ht. simpl.
  by simplify_map_eq.
Qed.

Lemma split_documents_elem (docs : list Document) c :
  c ∈ Chunker.split_documents split_text docs <->
  exists doc, c ∈ Chunker.split_page split_text doc /\ doc ∈ docs.
Proof. unfold Chunker.split_documents. apply list_elem_of_bind. Qed.

(** C7: every chunk made from a page of the input is part of the output
    and records the page's section as [original_section]; when the page's
    section is a non-empty string the chunk's [section] is that string;
    and a chunk's [section] differs from its page's only when the page's
    section is empty (or absent). *)
Theorem chunker_keeps_page_section (docs : list Document) (doc c : Document) :
  doc ∈ docs ->
  c ∈ Chunker.split_page split_text doc ->
  c ∈ Chunker.split_documents split_text docs /\
  metadata c !! "original_section" = Some (dict_get (metadata doc) "section" (VStr "")) /\
  (forall s, metadata doc !! "section" = Some (VStr s) -> s <> "" ->
             metadata c !! "section" = Some (VStr s) /\
             metadata c !! "original_section" = Some (VStr s)) /\
  (metadata c !! "section" <> metadata doc !! "section" ->
   truthy (dict_get (metadata doc) "section" (VStr "")) = false).
Proof.
  intros Hdoc Hc.
  split; [apply split_documents_elem; eauto|].
  unfold Chunker.split_page in Hc.
  apply elem_of_lookup_imap in Hc as (i & chunk & -> & _).
  split; [apply make_chunk_original_section|].
  split.
  - intros s Hs Hne.
    assert (Hsec : dict_get (metadata doc) "section" (VStr "") = VStr s)
      by (unfold dict_get; rewrite Hs; reflexivity).
    rewrite Hsec. split; [|apply make_chunk_original_section].
    rewrite make_chunk_section_truthy; [exact Hs|].
    simpl. destruct (String.eqb_spec s ""); [contradiction|reflexivity].
  - intros Hdiff.
    destruct (truthy (dict_get (metadata doc) "section" (VStr ""))) eqn:Ht; [|reflexivity].
    exfalso. apply Hdiff. by apply make_chunk_section_truthy.
Qed.

End ChunkerProps.

Lemma chunker_keeps_page_section_witness :
  let c := mkDocument "Caliper bolt torque 35 Nm"
             (<["original_section" := VStr "SECTION 204: Front Suspension"]>
              (<["parent_page" := VInt 7]>
               (<["chunk_index" := VInt 1]> (metadata Samples.page_with_section)))) in
  c ∈ Chunker.split_documents Samples.by_lines
        [Samples.page_without_section; Samples.page_with_section] /\
  metadata c !! "section" = Some (VStr "SECTION 204: Front Suspension").
Proof.
  intros c.
  pose proof (chunker_keeps_page_section Samples.by_lines
                [Samples.page_without_section; Samples.page_with_section]
                Samples.page_with_section c) as H.
  destruct H as (Hin & _ & Hkeep & _).
  - apply list_elem_of_In. simpl. right. left. reflexivity.
  - apply list_elem_of_In. vm_compute. right. left. reflexivity.
  - split; [exact Hin|].
    apply (Hkeep "SECTION 204: Front Suspension"); [reflexivity|discriminate].
Defined.

(** A page that already has a section keeps it even where a chunk shows
    another header; a page with an empty section takes the header found in
    the chunk. *)
Example chunker_sections_ex :
  (fun d => metadata d !! "section") <$>
    Chunker.split_documents Samples.by_lines
      [Samples.page_with_section; Samples.page_without_section]
  = [Some (VStr "SECTION 204: Front Suspension");
     Some (VStr "SECTION 204: Front Suspension");
     Some (VStr "");
     Some (VStr "section 310-A : Rear Brakes")].
Proof. vm_compute. reflexivity. Qed.

(* ================================================================== *)
(** ** Query classifier *)

(** C8: a query whose lower-cased text contains a term of the keyword
    vocabulary is classified SPEC by the first rule; the program is the
    plain result, with no call of the generative model in it. *)
Theorem classify_keyword_is_spec (query keyword : string) :
  keyword ∈ Classifier.SPEC_KEYWORDS ->
  Str.contains keyword (Str.lower query) = true ->
  Classifier.classify_query query = Ret SPEC /\
  ~ invokes_model (Classifier.classify_query query).
Proof.
  intros Hkw Hsub.
  assert (E : Classifier.classify_query query = Ret SPEC).
  { unfold Classifier.classify_query.
    assert (Hex : existsb (fun keyword => Str.contains keyword (Str.lower query))
                    Classifier.SPEC_KEYWORDS = true).
    { apply existsb_exists. exists keyword. split; [|exact Hsub].
      by apply list_elem_of_In. }
    rewrite Hex. reflexivity. }
  split; [exact E|]. rewrite E. intros Hinv. inversion Hinv.
Qed.

Lemma classify_keyword_is_spec_witness :
  Classifier.classify_query "What is the torque for the rear caliper bolt?" = Ret SPEC /\
  ~ invokes_model (Classifier.classify_query "What is the torque for the rear caliper bolt?").
Proof.
  apply (classify_keyword_is_spec "What is the torque for the rear caliper bolt?" "torque").
  - apply list_elem_of_In. simpl. left. reflexivity.
  - reflexivity.
Defined.

(** With no keyword and no number-unit pattern the model is asked. *)
Example classify_general_ex :
  Classifier.classify_query "How does the cooling system work?"
  = Classifier.classify_query_llm "How does the cooling system work?" /\
  run (mkWorld (fun _ _ _ => Returned (Some "general")) (fun _ _ _ => Returned []))
      (Classifier.classify_query "How does the cooling system work?") = GENERAL.
Proof. split; reflexivity. Qed.

Example classify_pattern_ex :
  Classifier.classify_query "Is 35 Nm right here?" = Ret SPEC.
Proof. reflexivity. Qed.

(* ================================================================== *)
(** ** Retriever *)

Lemma float_ltb_lt (a b : Q) : Float.ltb a b = true <-> (a < b)%Q.
Proof.
  unfold Float.ltb. rewrite negb_true_iff.
  split.
  - intros H. apply Qnot_le_lt. intros Hle. apply Qle_bool_iff in Hle. congruence.
  - intros H. destruct (Qle_bool b a) eqn:E; [|reflexivity].
    apply Qle_bool_iff in E. lra.
Qed.

Lemma float_min_spec (a b : Q) :
  (Float.min a b = a \/ Float.min a b = b) /\
  (Float.min a b <= a)%Q /\ (Float.min a b <= b)%Q.
Proof.
  unfold Float.min. destruct (Float.ltb b a) eqn:E.
  - apply float_ltb_lt in E. split; [by right|]. split; lra.
  - split; [by left|]. split; [lra|].
    destruct (Qlt_le_dec b a) as [Hlt|Hle]; [|exact Hle].
    apply float_ltb_lt in Hlt. congruence.
Qed.

Lemma float_max_spec (a b : Q) :
  (Float.max a b = a \/ Float.max a b = b) /\
  (a <= Float.max a b)%Q /\ (b <= Float.max a b)%Q.
Proof.
  unfold Float.max. destruct (Float.ltb a b) eqn:E.
  - apply float_ltb_lt in E. split; [by right|]. split; lra.
  - split; [by left|]. split; [lra|].
    destruct (Qlt_le_dec a b) as [Hlt|Hle]; [|exact Hle].
    apply float_ltb_lt in Hlt. congruence.
Qed.

Section FoldPick.

(** A fold that keeps one of its two arguments at each step ends on an
    element of the list that is below all the others. *)
Variable pick : Q -> Q -> Q.
Variable below : Q -> Q -> Prop.
Hypothesis below_refl : forall a, below a a.
Hypothesis below_trans : forall a b c, below a b -> below b c -> below a c.
Hypothesis pick_spec : forall a b,
  (pick a b = a \/ pick a b = b) /\ below (pick a b) a /\ below (pick a b) b.

Lemma fold_pick_spec (l : list Q) (x : Q) :
  fold_left pick l x ∈ x :: l /\
  forall y, y ∈ x :: l -> below (fold_left pick l x) y.
Proof.
  revert x. induction l as [|a l IH]; intros x; simpl.
  - split; [apply elem_of_cons; by left|].
    intros y Hy. apply list_elem_of_singleton in Hy as ->. apply below_refl.
  - destruct (IH (pick x a)) as [Hin Hle].
    destruct (pick_spec x a) as (Hsel & Hx & Ha).
    split.
    + apply elem_of_cons in Hin as [Hin|Hin].
      * rewrite Hin. rewrite !elem_of_cons. destruct Hsel as [->| ->]; auto.
      * rewrite !elem_of_cons. auto.
    + intros y Hy.
      assert (Hhead : below (fold_left pick l (pick x a)) (pick x a))
        by (apply Hle, elem_of_cons; by left).
      rewrite !elem_of_cons in Hy. destruct Hy as [->|[->|Hy]].
      * eapply below_trans; eauto.
      * eapply below_trans; eauto.
      * apply Hle, elem_of_cons. by right.
Qed.

End FoldPick.

Lemma list_min_spec (l : list Q) (x : Q) :
  Float.list_min x l ∈ x :: l /\
  forall y, y ∈ x :: l -> (Float.list_min x l <= y)%Q.
Proof.
  apply (fold_pick_spec Float.min Qle).
  - intros a. apply Qle_refl.
  - intros a b c. apply Qle_trans.
  - apply float_min_spec.
Qed.

Lemma list_max_spec (l : list Q) (x : Q) :
  Float.list_max x l ∈ x :: l /\
  forall y, y ∈ x :: l -> (y <= Float.list_max x l)%Q.
Proof.
  apply (fold_pick_spec Float.max (fun a b => (b <= a)%Q)).
  - intros a. apply Qle_refl.
  - intros a b c H1 H2. eapply Qle_trans; eauto.
  - apply float_max_spec.
Qed.

Lemma omapM_lookup {A B : Type} (f : A -> outcome B) (l : list A) :
  (forall x, x ∈ l -> exists y, f x = Returned y) ->
  exists ys, omapM f l = Returned ys /\ length ys = length l /\
    forall i x, l !! i = Some x -> exists y, ys !! i = Some y /\ f x = Returned y.
Proof.
  induction l as [|a l IH]; intros Hall; simpl.
  - exists []. split; [reflexivity|]. split; [reflexivity|]. intros i x Hi. discriminate.
  - destruct (Hall a) as [b Hb]; [apply elem_of_cons; by left|].
    destruct IH as (ys & Hys & Hlen & Hlook).
    { intros x Hx. apply Hall, elem_of_cons. by right. }
    exists (b :: ys). rewrite Hb, Hys. simpl.
    split; [reflexivity|]. split; [by rewrite Hlen|].
    intros [|i] x Hi; simpl in *.
    + injection Hi as <-. eauto.
    + eauto.
Qed.

Lemma omapM_Forall {A B : Type} (f : A -> outcome B) (P : A -> Prop) (Q : B -> Prop)
    (l : list A) :
  (forall x, P x -> exists y, f x = Returned y /\ Q y) ->
  Forall P l ->
  exists ys, omapM f l = Returned ys /\ Forall Q ys /\ length ys = length l.
Proof.
  intros Hf Hl. induction Hl as [|x l Hx Hl IH]; simpl.
  - exists []. split; [reflexivity|]. split; [constructor|reflexivity].
  - destruct (Hf x Hx) as (y & Hy & HQ). destruct IH as (ys & Hys & HQs & Hlen).
    exists (y :: ys). rewrite Hy, Hys. simpl.
    split; [reflexivity|]. split; [by constructor|by rewrite Hlen].
Qed.

Lemma float_div_nonzero (a b : Q) :
  ~ (b == 0)%Q -> Float.div a b = Returned (Qred (a / b)).
Proof.
  intros Hb. unfold Float.div.
  destruct (Qeq_bool b 0) eqn:E; [|reflexivity].
  apply Qeq_bool_iff in E. contradiction.
Qed.

Lemma annotate_similarity query (min_s range_s : Q) doc d :
  ~ (range_s == 0)%Q ->
  exists out,
    Retriever.annotate query min_s range_s (doc, d) = Returned out /\
    page_content out = page_content doc /\
    metadata out !! "faiss_distance" = Some (VFloat (Qred d)) /\
    metadata out !! "faiss_similarity"
    = Some (VFloat (Float.sub 1 (Qred (Float.sub (Qred d) min_s / range_s)))).
Proof.
  intros Hr. unfold Retriever.annotate.
  rewrite (float_div_nonzero _ _ Hr). simpl.
  eexists. split; [reflexivity|]. simpl. split; [reflexivity|].
  split; by simplify_map_eq.
Qed.

(** The guarded range is never zero, so the division in the loop never
    raises. *)
Lemma range_guard_nonzero (max_s min_s : Q) :
  ~ ((let d := Float.sub max_s min_s in if Qeq_bool d 0 then 1 else d) == 0)%Q.
Proof.
  simpl. destruct (Qeq_bool (Float.sub max_s min_s) 0) eqn:E.
  - intros H. discriminate H.
  - apply Qeq_bool_neq in E. exact E.
Qed.

Lemma similarity_at_min (d min_s range_s : Q) :
  (Qred d == min_s)%Q ->
  Float.sub 1 (Qred (Float.sub (Qred d) min_s / range_s)) = 1%Q.
Proof.
  intros H. unfold Float.sub.
  assert (E : Qred (Qred d - min_s) = 0%Q).
  { transitivity (Qred 0); [|reflexivity]. apply Qred_complete. rewrite H. ring. }
  rewrite E.
  assert (E2 : Qred (0 / range_s) = 0%Q).
  { transitivity (Qred 0); [|reflexivity]. apply Qred_complete. unfold Qdiv. ring. }
  rewrite E2. reflexivity.
Qed.

Lemma similarity_at_max (d min_s max_s : Q) :
  (Qred d == max_s)%Q ->
  ~ (Float.sub max_s min_s == 0)%Q ->
  Float.sub 1 (Qred (Float.sub (Qred d) min_s / Float.sub max_s min_s)) = 0%Q.
Proof.
  intros H Hne. unfold Float.sub in *.
  assert (E : Qred (Qred (Qred d - min_s) / Qred (max_s - min_s)) = 1%Q).
  { transitivity (Qred 1); [|reflexivity]. apply Qred_complete.
    rewrite Qred_correct in Hne. rewrite Qred_correct in H.
    rewrite !Qred_correct, H. field. exact Hne. }
  rewrite E. reflexivity.
Qed.

(** C3: when the index returns a non-empty result list, [retrieve] yields
    one annotated chunk per result, in order; a chunk whose distance is the
    minimum of the list has [faiss_similarity = 1.0]; a chunk whose
    distance is the maximum has [faiss_similarity = 0.0] when some distance
    differs from it; and when all distances are equal every chunk has
    [faiss_similarity = 1.0]. *)
Theorem retrieve_min_max_normalized (w : world) (vs query query_type : string)
    (top_k : nat) (results : list (Document * Q)) :
  index_reply w vs query top_k = Returned results ->
  results <> [] ->
  exists docs,
    run w (Retriever.retrieve vs query query_type top_k) = Returned docs /\
    length docs = length results /\
    forall i doc d, results !! i = Some (doc, d) ->
      exists out,
        docs !! i = Some out /\
        page_content out = page_content doc /\
        ((forall r, r ∈ results -> (d <= snd r)%Q) ->
         metadata out !! "faiss_similarity" = Some (VFloat 1)) /\
        ((forall r, r ∈ results -> (snd r <= d)%Q) ->
         (exists r, r ∈ results /\ ~ (snd r == d)%Q) ->
         metadata out !! "faiss_similarity" = Some (VFloat 0)) /\
        ((forall r r', r ∈ results -> r' ∈ results -> (snd r == snd r')%Q) ->
         metadata out !! "faiss_similarity" = Some (VFloat 1)).
Proof.
  intros Hreply Hne. simpl. rewrite Hreply.
  destruct results as [|r0 results']; [contradiction|]. clear Hne.
  set (results := r0 :: results') in *.
  unfold Retriever.normalize.
  change (map (fun r => Qred (snd r)) results)
    with (Qred (snd r0) :: map (fun r => Qred (snd r)) results').
  cbv iota.
  set (rest := map (fun r => Qred (snd r)) results').
  destruct (list_min_spec rest (Qred (snd r0))) as [Hmin_in Hmin_le].
  destruct (list_max_spec rest (Qred (snd r0))) as [Hmax_in Hmax_le].
  set (min_s := Float.list_min (Qred (snd r0)) rest) in *.
  set (max_s := Float.list_max (Qred (snd r0)) rest) in *.
  pose proof (range_guard_nonzero max_s min_s) as Hrange.
  set (range_s := let d := Float.sub max_s min_s in if Qeq_bool d 0 then 1%Q else d) in *.
  assert (Hall : forall r, r ∈ results -> Qred (snd r) ∈ Qred (snd r0) :: rest).
  { intros r Hr. change (Qred (snd r0) :: rest) with ((fun r => Qred (snd r)) <$> results).
    apply list_elem_of_fmap. eauto. }
  assert (Hback : forall q, q ∈ Qred (snd r0) :: rest ->
                            exists r, r ∈ results /\ q = Qred (snd r)).
  { intros q Hq. change (Qred (snd r0) :: rest) with ((fun r => Qred (snd r)) <$> results) in Hq.
    apply list_elem_of_fmap in Hq as (r & -> & Hr). eauto. }
  destruct (omapM_lookup (Retriever.annotate query min_s range_s) results)
    as (docs & Hdocs & Hlen & Hlook).
  { intros [doc d] _. destruct (annotate_similarity query min_s range_s doc d Hrange)
      as (out & Hout & _). eauto. }
  exists docs. split; [exact Hdocs|]. split; [exact Hlen|].
  intros i doc d Hi.
  destruct (Hlook i (doc, d) Hi) as (out & Hout_i & Hann).
  destruct (annotate_similarity query min_s range_s doc d Hrange)
    as (out' & Hann' & Hcontent & _ & Hsim).
  rewrite Hann in Hann'. injection Hann' as <-.
  exists out. split; [exact Hout_i|]. split; [exact Hcontent|].
  assert (Hi_in : (doc, d) ∈ results) by (eapply list_elem_of_lookup_2; eauto).
  assert (Hat_min : (forall r, r ∈ results -> (d <= snd r)%Q) ->
                    metadata out !! "faiss_similarity" = Some (VFloat 1)).
  { intros Hd. rewrite Hsim. do 2 f_equal. apply similarity_at_min.
    apply Qle_antisym.
    - destruct (Hback min_s Hmin_in) as (r & Hr & ->).
      rewrite !Qred_correct. apply (Hd r Hr).
    - apply Hmin_le. apply (Hall (doc, d) Hi_in). }
  split; [exact Hat_min|]. split.
  - intros Hd (r & Hr & Hdiff). rewrite Hsim.
    assert (Hdmax : (Qred d == max_s)%Q).
    { apply Qle_antisym.
      - apply Hmax_le. apply (Hall (doc, d) Hi_in).
      - destruct (Hback max_s Hmax_in) as (r' & Hr' & ->).
        rewrite !Qred_correct. apply (Hd r' Hr'). }
    assert (Hgap : ~ (Float.sub max_s min_s == 0)%Q).
    { unfold Float.sub. rewrite Qred_correct. intros Hz.
      assert (Hrmin : (min_s <= Qred (snd r))%Q) by (apply Hmin_le, Hall, Hr).
      rewrite Qred_correct in Hrmin. rewrite Qred_correct in Hdmax.
      pose proof (Hd r Hr) as Hrd. apply Hdiff. lra. }
    assert (Er : range_s = Float.sub max_s min_s).
    { subst range_s. simpl. destruct (Qeq_bool (Float.sub max_s min_s) 0) eqn:E; [|reflexivity].
      apply Qeq_bool_iff in E. contradiction. }
    rewrite Er. do 2 f_equal. apply similarity_at_max; assumption.
  - intros Heq. apply Hat_min. intros r Hr.
    rewrite (Heq (doc, d) r Hi_in Hr). simpl. apply Qle_refl.
Qed.

Lemma retrieve_min_max_normalized_witness :
  exists docs,
    run (Samples.world_answering Samples.wrapped_reply)
        (Retriever.retrieve "spec_index" "rear caliper bolt torque" "spec" 15)
    = Returned docs /\
    length docs = 3 /\
    forall i doc d, Samples.neighbours !! i = Some (doc, d) ->
      exists out,
        docs !! i = Some out /\
        page_content out = page_content doc /\
        ((forall r, r ∈ Samples.neighbours -> (d <= snd r)%Q) ->
         metadata out !! "faiss_similarity" = Some (VFloat 1)) /\
        ((forall r, r ∈ Samples.neighbours -> (snd r <= d)%Q) ->
         (exists r, r ∈ Samples.neighbours /\ ~ (snd r == d)%Q) ->
         metadata out !! "faiss_similarity" = Some (VFloat 0)) /\
        ((forall r r', r ∈ Samples.neighbours -> r' ∈ Samples.neighbours ->
                       (snd r == snd r')%Q) ->
         metadata out !! "faiss_similarity" = Some (VFloat 1)).
Proof.
  apply (retrieve_min_max_normalized (Samples.world_answering Samples.wrapped_reply)
           "spec_index" "rear caliper bolt torque" "spec" 15 Samples.neighbours).
  - reflexivity.
  - discriminate.
Defined.

Example retrieve_similarities_ex :
  (docs ← run (Samples.world_answering Samples.wrapped_reply)
          (Retriever.retrieve "spec_index" "rear caliper bolt torque" "spec" 15);
   Returned (map (fun d => metadata d !! "faiss_similarity") docs))
  = Returned [Some (VFloat 1); Some (VFloat 0); Some (VFloat (5 # 8))].
Proof. vm_compute. reflexivity. Qed.

(** The retriever never raises, and it leaves the text and the [score]
    entry of every chunk as the index returned them. *)
Lemma normalize_returns (query : string) (results : list (Document * Q))
    (P : Document -> Prop) :
  (forall doc out, P doc -> page_content out = page_content doc ->
                   metadata out !! "score" = metadata doc !! "score" -> P out) ->
  Forall (fun r => P r.1) results ->
  exists docs, Retriever.normalize query results = Returned docs /\ Forall P docs /\
               length docs = length results.
Proof.
  intros HP Hres. unfold Retriever.normalize.
  set (all_scores := map (fun r => Qred (snd r)) results).
  set (max_s := match all_scores with x :: l => Float.list_max x l | [] => 1%Q end).
  set (min_s := match all_scores with x :: l => Float.list_min x l | [] => 0%Q end).
  pose proof (range_guard_nonzero max_s min_s) as Hrange.
  set (range_s := let d := Float.sub max_s min_s in if Qeq_bool d 0 then 1%Q else d) in *.
  apply (omapM_Forall _ (fun r => P r.1)); [|exact Hres].
  intros [doc d] Hdoc. unfold Retriever.annotate.
  rewrite (float_div_nonzero _ _ Hrange). simpl.
  eexists. split; [reflexivity|].
  apply (HP doc); [exact Hdoc|reflexivity|]. simpl. by simplify_map_eq.
Qed.

(* ================================================================== *)
(** ** Reranker *)

Abbreviation no_score := (fun d : Document => metadata d !! "score" = None).
Abbreviation scored :=
  (fun d : Document => exists q, metadata d !! "hybrid_score" = Some (VFloat q)).

Section RerankerProps.

Variable py : float_text.

(** Without a [score] entry the semantic term is the one of the default
    1.0, whatever distance the retriever recorded. *)
Lemma score_document_default (doc : Document) (query query_type : string) :
  metadata doc !! "score" = None ->
  Reranker.score_document py doc query query_type
  = Returned (Float.add (7 # 20)
                (Float.mul (3 # 10) (Reranker.boost_of (page_content doc) query))).
Proof.
  intros Hnone. unfold Reranker.score_document, dict_get. rewrite Hnone. reflexivity.
Qed.

Lemma insert_desc_Forall (P : Document -> Prop) d l :
  P d -> Forall P l -> Forall P (Reranker.insert_desc d l).
Proof.
  intros Hd Hl. induction Hl as [|d' l Hd' Hl IH]; simpl.
  - by constructor.
  - destruct (Float.ltb _ _); repeat constructor; assumption.
Qed.

Lemma sorted_desc_Forall (P : Document -> Prop) l :
  Forall P l -> Forall P (Reranker.sorted_desc l).
Proof.
  intros Hl. unfold Reranker.sorted_desc.
  induction Hl as [|d l Hd Hl IH]; simpl; [constructor|].
  by apply insert_desc_Forall.
Qed.

Lemma rerank_returns (docs : list Document) (query query_type : string) :
  Forall no_score docs ->
  exists ranked, Reranker.rerank_documents py docs query query_type = Returned ranked /\
                 Forall scored ranked /\ length ranked <= length docs.
Proof.
  intros Hdocs. unfold Reranker.rerank_documents.
  destruct (omapM_Forall
              (fun d => score ← Reranker.score_document py d query query_type;
                        Returned (mkDocument (page_content d)
                                    (<["hybrid_score" := VFloat score]> (metadata d))))
              no_score scored docs) as (ys & Hys & Hsc & Hlen); [|exact Hdocs|].
  - intros d Hd. rewrite (score_document_default d query query_type Hd). simpl.
    eexists. split; [reflexivity|]. eexists. simpl. by simplify_map_eq.
  - rewrite Hys. simpl. eexists. split; [reflexivity|].
    split; [by apply sorted_desc_Forall|].
    rewrite <- Hlen. clear. unfold Reranker.sorted_desc.
    induction ys as [|d l IH]; simpl; [lia|].
    assert (Hins : forall d l, length (Reranker.insert_desc d l) = S (length l)).
    { clear. intros d l. induction l as [|d' l IH]; simpl; [reflexivity|].
      destruct (Float.ltb _ _); simpl; [by rewrite IH|reflexivity]. }
    rewrite Hins. lia.
Qed.

(** Every chunk that comes out of the retriever without a [score] entry is
    ranked with the semantic term of the default score 1.0: its
    [hybrid_score] is [0.35 + 0.3 * boost], whatever its distance. *)
Lemma hybrid_score_ignores_distance (query query_type : string)
    (results : list (Document * Q)) :
  Forall (fun r => metadata r.1 !! "score" = None) results ->
  exists docs ranked,
    Retriever.normalize query results = Returned docs /\
    Reranker.rerank_documents py docs query query_type = Returned ranked /\
    Forall (fun d => metadata d !! "hybrid_score"
                     = Some (VFloat (Float.add (7 # 20)
                               (Float.mul (3 # 10)
                                  (Reranker.boost_of (page_content d) query)))))
           ranked.
Proof.
  intros Hres.
  destruct (normalize_returns query results no_score) as (docs & Hdocs & Hns & _).
  { intros doc out Hdoc _ Hscore. simpl in *. congruence. }
  { exact Hres. }
  exists docs. unfold Reranker.rerank_documents.
  destruct (omapM_Forall
              (fun d => score ← Reranker.score_document py d query query_type;
                        Returned (mkDocument (page_content d)
                                    (<["hybrid_score" := VFloat score]> (metadata d))))
              no_score
              (fun d => metadata d !! "hybrid_score"
                        = Some (VFloat (Float.add (7 # 20)
                                  (Float.mul (3 # 10)
                                     (Reranker.boost_of (page_content d) query)))))
              docs) as (ys & Hys & Hsc & _); [|exact Hns|].
  - intros d Hd. rewrite (score_document_default d query query_type Hd). simpl.
    eexists. split; [reflexivity|]. simpl. by simplify_map_eq.
  - rewrite Hys. simpl. eexists. split; [exact Hdocs|]. split; [reflexivity|].
    by apply sorted_desc_Forall.
Qed.

End RerankerProps.

(** The boost is capped at 2.0. *)
Lemma boost_of_capped (page_content query : string) :
  (Reranker.boost_of page_content query <= 2)%Q.
Proof. unfold Reranker.boost_of. apply float_min_spec. Qed.

(** C1 on three candidates at distances 0.25, 1.0 and 2.25: the
    retriever records the distances, and the reranker scores each chunk
    with the semantic term of the default score 1.0, [0.7 * 0.5], because
    it reads the [score] entry, which nothing writes.  The nearest chunk
    gets [0.35 + 0.3 * 1.0 = 0.65]; the formula of the claim, on its
    distance 0.25, gives [0.7 * 0.8 + 0.3 * 1.0 = 0.86]. *)
Theorem rerank_scores_with_default_distance :
  exists docs ranked,
    run (Samples.world_answering Samples.wrapped_reply)
        (Retriever.retrieve "spec_index" "rear caliper bolt torque" "spec" 15)
    = Returned docs /\
    Reranker.rerank_documents Samples.plain_floats docs "rear caliper bolt torque" "spec"
    = Returned ranked /\
    map (fun d => (page_content d, metadata d !! "faiss_distance",
                   metadata d !! "hybrid_score")) ranked
    = [("Rear caliper bolt torque: 35 Nm",
        Some (VFloat (1 # 4)), Some (VFloat (13 # 20)));
       ("Front caliper bolt torque is 30 Nm.",
        Some (VFloat 1), Some (VFloat (121 # 200)));
       ("The cooling system circulates coolant through the radiator.",
        Some (VFloat (9 # 4)), Some (VFloat (7 # 20)))] /\
    Reranker.boost_of (page_content Samples.chunk_near) "rear caliper bolt torque" = 1%Q /\
    Float.add (Float.mul (7 # 10) (Qred (1 / (1 + (1 # 4)))))
              (Float.mul (3 # 10)
                 (Reranker.boost_of (page_content Samples.chunk_near)
                    "rear caliper bolt torque"))
    = 43 # 50.
Proof.
  eexists. eexists.
  split; [vm_compute; reflexivity|].
  split; [vm_compute; reflexivity|].
  vm_compute. repeat split; reflexivity.
Qed.

(* ================================================================== *)
(** ** Extraction engine *)

Example fixed_ex : Samples.fixed 2 (13 # 20) = "0.65" /\ Samples.fixed 3 1 = "1.000".
Proof. split; reflexivity. Qed.

Example json_parse_ex :
  JsonText.model_validate_json Samples.wrapped_reply
  = Returned [Spec.mkSpecItem "Rear caliper bolt" "35" "Nm" (Some 42%Z) None].
Proof. vm_compute. reflexivity. Qed.

Example json_wrap_ex :
  (parsed ← JsonText.loads Samples.bare_array;
   Returned (json_dumps_specs JsonText.library parsed))
  = Returned ("{" +:+ quoted "specs" +:+ ": [{" +:+ quoted "component" +:+ ": " +:+ quoted "X"
              +:+ ", " +:+ quoted "value" +:+ ": " +:+ quoted "1" +:+ ", " +:+ quoted "unit"
              +:+ ": " +:+ quoted "" +:+ "}]}").
Proof. vm_compute. reflexivity. Qed.

Example extract_block_ex :
  Extraction._extract_json_block Samples.narrative_array = Some Samples.object_X /\
  Extraction._extract_json_block "no specs here: []" = Some "[]" /\
  Extraction._extract_json_block "nothing" = None.
Proof. vm_compute. repeat split; reflexivity. Qed.

Section EngineProps.

Variable lib : json_library.

(** Whatever is raised while the reply is read and parsed ends as the empty
    list: a transport error, a failed wrap, a failed final validation. *)
Lemma extract_specs_absorbs_failures (w : world) (query context query_type : string) (e : exn) :
  Extraction.parse_response lib
    (model_reply w Extraction.GEMINI_MODEL
       (Extraction.extraction_prompt query context query_type)
       (Some Extraction.generation)) = Raised e ->
  run w (Extraction.extract_specs lib query context query_type) = [].
Proof. intros H. simpl. rewrite H. reflexivity. Qed.

Lemma extract_specs_transport_error (w : world) (query context query_type : string) (e : exn) :
  model_reply w Extraction.GEMINI_MODEL
    (Extraction.extraction_prompt query context query_type)
    (Some Extraction.generation) = Raised e ->
  run w (Extraction.extract_specs lib query context query_type) = [].
Proof. intros H. simpl. rewrite H. reflexivity. Qed.

(** When the block found in the reply does not start with a bracket, it is
    validated as it is: nothing is wrapped. *)
Lemma recover_validates_object_block (raw block : string) :
  Extraction._extract_json_block raw = Some block ->
  block <> "" ->
  Str.startswith "[" (Str.strip block) = false ->
  Extraction.recover lib raw = model_validate_json lib block.
Proof.
  intros Hblock Hne Hstart. unfold Extraction.recover. rewrite Hblock.
  destruct block as [|c block]; [contradiction|].
  rewrite Hstart. reflexivity.
Qed.

End EngineProps.

(** C2 at its own example: the model answers with narrative text whose
    only JSON content is a bare array of one spec object (component X,
    value 1, empty unit).  The object pattern is tried first and captures the
    object inside the array, that block has no [specs] member, its
    validation fails and the engine returns the empty list, although the
    array wrapped under a specs member validates to the one item.  The bare
    array without narrative ends the same way. *)
Theorem extract_specs_loses_bare_array :
  run (Samples.world_answering Samples.narrative_array)
      (Extraction.extract_specs JsonText.library "torque of X" "X: 1" "spec") = [] /\
  run (Samples.world_answering Samples.bare_array)
      (Extraction.extract_specs JsonText.library "torque of X" "X: 1" "spec") = [] /\
  Extraction._extract_json_block Samples.narrative_array = Some Samples.object_X /\
  (parsed ← json_loads JsonText.library Samples.bare_array;
   model_validate_json JsonText.library (json_dumps_specs JsonText.library parsed))
  = Returned [Samples.item_X].
Proof. vm_compute. repeat split; reflexivity. Qed.

Example extract_specs_direct_ex :
  run (Samples.world_answering Samples.wrapped_reply)
      (Extraction.extract_specs JsonText.library "rear caliper bolt torque" "..." "spec")
  = [Spec.mkSpecItem "Rear caliper bolt" "35" "Nm" (Some 42%Z) None].
Proof. vm_compute. reflexivity. Qed.

(** The array branch is reached when the reply has no brace pair at all. *)
Example extract_specs_empty_array_ex :
  Extraction.recover JsonText.library "No specifications found: []" = Returned [].
Proof. vm_compute. reflexivity. Qed.

(* ================================================================== *)
(** ** Query processor: deduplication *)

Lemma dict_set_keys (k : string * string * string) (s : SpecItem)
    (u : list (string * string * string * SpecItem)) :
  (Processor.dict_set k s u).*1 = if decide (k ∈ u.*1) then u.*1 else u.*1 ++ [k].
Proof.
  induction u as [|[k0 v0] u IH]; cbn.
  - destruct (decide (k ∈ [])) as [H|_]; [inversion H|reflexivity].
  - destruct (decide (k0 = k)) as [->|Hne]; cbn.
    + destruct (decide (k ∈ k :: u.*1)) as [_|H]; [reflexivity|].
      exfalso. apply H, elem_of_cons. by left.
    + rewrite IH.
      destruct (decide (k ∈ u.*1)) as [Hin|Hnin];
        destruct (decide (k ∈ k0 :: u.*1)) as [Hin'|Hnin']; try reflexivity.
      * exfalso. apply Hnin', elem_of_cons. by right.
      * exfalso. apply elem_of_cons in Hin' as [->|Hin']; [by apply Hne|by apply Hnin].
Qed.

Lemma dict_set_NoDup (k : string * string * string) (s : SpecItem) (u : list (string * string * string * SpecItem)) :
  NoDup u.*1 -> NoDup (Processor.dict_set k s u).*1.
Proof.
  intros Hnd. rewrite dict_set_keys.
  destruct (decide (k ∈ u.*1)) as [Hin|Hnin]; [exact Hnd|].
  apply NoDup_app. split; [exact Hnd|]. split.
  - intros x Hx Hx'. apply list_elem_of_singleton in Hx' as ->. contradiction.
  - apply NoDup_singleton.
Qed.

Lemma dict_set_elem (k : string * string * string) (s : SpecItem) (u : list (string * string * string * SpecItem)) k' v' :
  NoDup u.*1 ->
  (k', v') ∈ Processor.dict_set k s u <->
  (k' = k /\ v' = s) \/ (k' <> k /\ (k', v') ∈ u).
Proof.
  induction u as [|[k0 v0] u IH]; simpl; intros Hnd.
  - rewrite list_elem_of_singleton. split.
    + intros [= -> ->]. by left.
    + intros [[-> ->]|[_ H]]; [reflexivity|inversion H].
  - apply NoDup_cons in Hnd as [Hk0 Hnd].
    destruct (decide (k0 = k)) as [->|Hne].
    + rewrite !elem_of_cons. split.
      * intros [[= -> ->]|Hin]; [by left|].
        right. split; [|by right].
        intros ->. apply Hk0. apply list_elem_of_fmap. by exists (k, v').
      * intros [[-> ->]|[Hk [[= -> ->]|Hin]]]; [by left|done|by right].
    + rewrite !elem_of_cons, (IH Hnd). split.
      * intros [[= -> ->]|[[-> ->]|[Hk Hin]]].
        -- right. split; [exact Hne|by left].
        -- by left.
        -- right. split; [exact Hk|by right].
      * intros [[-> ->]|[Hk [[= -> ->]|Hin]]].
        -- right. by left.
        -- by left.
        -- right. right. by split.
Qed.

(** After the loop has gone through [seen ++ specs], started from a dict
    that holds the last item of each key of [seen], the dict holds the
    last item of each key of [seen ++ specs]. *)
Lemma dedup_loop_invariant (specs seen : list SpecItem)
    (u : list (string * string * string * SpecItem)) :
  NoDup u.*1 ->
  (forall k v, (k, v) ∈ u <->
     Processor.spec_key v = k /\
     exists l1 l2, seen = l1 ++ v :: l2 /\
       forall s, s ∈ l2 -> Processor.spec_key s <> k) ->
  let u' := fold_left (fun unique s => Processor.dict_set (Processor.spec_key s) s unique)
              specs u in
  NoDup u'.*1 /\
  (forall k v, (k, v) ∈ u' <->
     Processor.spec_key v = k /\
     exists l1 l2, seen ++ specs = l1 ++ v :: l2 /\
       forall s, s ∈ l2 -> Processor.spec_key s <> k).
Proof.
  revert seen u. induction specs as [|a specs IH]; intros seen u Hnd Hinv; simpl.
  - rewrite app_nil_r. split; assumption.
  - replace (seen ++ a :: specs) with ((seen ++ [a]) ++ specs)
      by (rewrite <- app_assoc; reflexivity).
    apply IH; [by apply dict_set_NoDup|].
    intros k v. rewrite (dict_set_elem _ _ _ _ _ Hnd), Hinv. split.
    + intros [[-> ->]|(Hk & Hv & l1 & l2 & -> & Hl2)].
      * split; [reflexivity|]. exists seen, []. split; [reflexivity|].
        intros s Hs. inversion Hs.
      * split; [exact Hv|]. exists l1, (l2 ++ [a]).
        split; [rewrite <- app_assoc; reflexivity|].
        intros s Hs. apply elem_of_app in Hs as [Hs|Hs]; [by apply Hl2|].
        apply list_elem_of_singleton in Hs as ->. congruence.
    + intros (Hv & l1 & l2 & Heq & Hl2).
      destruct l2 as [|x l2 _] using rev_ind.
      * apply app_inj_tail in Heq as [-> ->]. left. by split.
      * rewrite app_comm_cons, app_assoc in Heq.
        apply app_inj_tail in Heq as [-> ->].
        right. split.
        -- intros ->. apply (Hl2 x); [|reflexivity].
           apply elem_of_app. right. by apply list_elem_of_singleton.
        -- split; [exact Hv|]. exists l1, l2. split; [reflexivity|].
           intros s Hs. apply Hl2, elem_of_app. by left.
Qed.

Lemma keyed_values_keys (u : list (string * string * string * SpecItem)) :
  (forall k v, (k, v) ∈ u -> Processor.spec_key v = k) ->
  Processor.spec_key <$> u.*2 = u.*1.
Proof.
  induction u as [|[k v] u IH]; intros H; simpl; [reflexivity|].
  rewrite (H k v) by (apply elem_of_cons; by left).
  f_equal. apply IH. intros k' v' Hin. apply H, elem_of_cons. by right.
Qed.

(** The dedup step keeps one entry per key, and the entries are the last
    items of their keys. *)
Lemma dedup_spec (specs : list SpecItem) :
  NoDup (Processor.spec_key <$> Processor.dedup specs) /\
  forall v, v ∈ Processor.dedup specs <->
    exists l1 l2, specs = l1 ++ v :: l2 /\
      forall s, s ∈ l2 -> Processor.spec_key s <> Processor.spec_key v.
Proof.
  unfold Processor.dedup.
  destruct (dedup_loop_invariant specs [] []) as [Hnd Hinv].
  { apply NoDup_nil_2. }
  { intros k v. split.
    - intros H. inversion H.
    - intros (_ & l1 & l2 & Heq & _). destruct l1; discriminate Heq. }
  simpl in Hinv.
  set (u' := fold_left _ specs []) in *.
  split.
  - rewrite keyed_values_keys; [exact Hnd|]. intros k v Hin. by apply Hinv.
  - intros v. split.
    + intros Hv. apply list_elem_of_fmap in Hv as ([k v'] & -> & Hin).
      apply Hinv in Hin as (<- & Hlast). exact Hlast.
    + intros Hlast. apply list_elem_of_fmap.
      exists (Processor.spec_key v, v). split; [reflexivity|].
      apply Hinv. by split.
Qed.

(** Two items have the same component, value and unit up to letter
    case. *)
Abbreviation same_key a b :=
  (Str.lower (Spec.component a) = Str.lower (Spec.component b) /\
   Str.lower (Spec.value a) = Str.lower (Spec.value b) /\
   Str.lower (Spec.unit a) = Str.lower (Spec.unit b)).

Lemma spec_key_same (a b : SpecItem) :
  Processor.spec_key a = Processor.spec_key b <-> same_key a b.
Proof.
  unfold Processor.spec_key. split.
  - intros [= H1 H2 H3]. auto.
  - intros (-> & -> & ->). reflexivity.
Qed.

(** The dedup step in terms of the items: no two entries agree on
    component, value and unit up to letter case, and the entries are the
    items that no later item agrees with. *)
Lemma dedup_same_key (specs : list SpecItem) :
  (forall i j a b,
     Processor.dedup specs !! i = Some a -> Processor.dedup specs !! j = Some b ->
     same_key a b -> i = j) /\
  forall v, v ∈ Processor.dedup specs <->
    exists l1 l2, specs = l1 ++ v :: l2 /\
      forall s, s ∈ l2 -> ~ same_key s v.
Proof.
  destruct (dedup_spec specs) as [Hnd Hlast]. split.
  - intros i j a b Ha Hb Hsame. apply spec_key_same in Hsame.
    apply (proj1 (NoDup_alt _) Hnd i j (Processor.spec_key a)).
    + by rewrite list_lookup_fmap, Ha.
    + by rewrite list_lookup_fmap, Hb, Hsame.
  - intros v. rewrite Hlast. split.
    + intros (l1 & l2 & Heq & Hl2). exists l1, l2. split; [exact Heq|].
      intros s Hs Hsame. by apply (Hl2 s Hs), spec_key_same.
    + intros (l1 & l2 & Heq & Hl2). exists l1, l2. split; [exact Heq|].
      intros s Hs Hsame. by apply (Hl2 s Hs), spec_key_same.
Qed.

Example dedup_ex :
  Processor.dedup
    [Spec.mkSpecItem "Bolt" "35" "Nm" (Some 1%Z) None;
     Spec.mkSpecItem "Nut" "120" "Nm" None None;
     Spec.mkSpecItem "BOLT" "35" "nm" (Some 2%Z) None]
  = [Spec.mkSpecItem "BOLT" "35" "nm" (Some 2%Z) None;
     Spec.mkSpecItem "Nut" "120" "Nm" None None].
Proof. vm_compute. reflexivity. Qed.

(* ================================================================== *)
(** ** Query processor: the pipeline *)

Lemma run_bind {A B : Type} (w : world) (m : io A) (f : A -> io B) :
  run w (m ≫= f) = run w (f (run w m)).
Proof.
  unfold mbind, io_mbind.
  induction m as [a|model prompt config k IH|vs query top_k k IH]; simpl; auto.
Qed.

Section PipelineProps.

Variable py : float_text.
Variable lib : json_library.

Lemma context_block_returns (idx : nat) (d : Document) :
  scored d -> exists block, Processor.context_block py idx d = Returned block.
Proof.
  intros [q Hq]. unfold Processor.context_block, dict_get. rewrite Hq. simpl. eauto.
Qed.

Lemma build_context_returns (initial_docs : list Document) (query query_type_str : string) :
  Forall no_score initial_docs ->
  exists context, Processor.build_context py initial_docs query query_type_str
                  = Returned context.
Proof.
  intros Hdocs. unfold Processor.build_context.
  destruct (omapM_Forall
              (fun d => py_format_f py 3 (dict_get (metadata d) "score" (VFloat 1)))
              no_score (fun _ => True) initial_docs) as (l1 & -> & _); [|exact Hdocs|].
  { intros d Hd. unfold dict_get. rewrite Hd. simpl. eauto. }
  simpl.
  destruct (rerank_returns py initial_docs query query_type_str Hdocs)
    as (ranked & -> & Hscored & _).
  simpl.
  assert (Hfinal : Forall scored (take 6 ranked)) by (by apply Forall_take).
  destruct (omapM_Forall
              (fun d => py_format_f py 3 (dict_get (metadata d) "hybrid_score" (VFloat 0)))
              scored (fun _ => True) (take 6 ranked)) as (l2 & -> & _); [|exact Hfinal|].
  { intros d [q Hq]. unfold dict_get. rewrite Hq. simpl. eauto. }
  simpl.
  destruct (omapM_Forall (fun b : outcome string => b)
              (fun b => exists block, b = Returned block) (fun _ => True)
              (imap (fun i d => Processor.context_block py (i + 1) d) (take 6 ranked)))
    as (blocks & -> & _).
  { intros b [block ->]. eauto. }
  { apply Forall_lookup. intros i b Hb.
    rewrite list_lookup_imap in Hb.
    destruct (take 6 ranked !! i) as [d|] eqn:Hd; [|discriminate Hb].
    simpl in Hb. injection Hb as <-.
    apply context_block_returns.
    exact (Forall_lookup_1 _ _ _ _ Hfinal Hd). }
  simpl. eauto.
Qed.

(** C4: whenever [answer_query] returns a list, that list is the dedup of
    what the extraction engine returned.  No two of its entries have the
    same component, value and unit up to letter case; and its entries are
    exactly the extracted items that no later extracted item equals in
    component, value and unit up to letter case: of the items that share
    such a triple, the last one is kept and the others are dropped. *)
Theorem answer_query_deduplicates (w : world) (self : QueryProcessor) (query : string)
    (out : list SpecItem) :
  (run w (Processor.answer_query py lib self query)).2 = Returned out ->
  exists context query_type,
    let specs := run w (Extraction.extract_specs lib query context query_type) in
    out = Processor.dedup specs /\
    (forall i j a b, out !! i = Some a -> out !! j = Some b -> same_key a b -> i = j) /\
    forall v, v ∈ out <->
      exists l1 l2, specs = l1 ++ v :: l2 /\
        forall s, s ∈ l2 -> ~ same_key s v.
Proof.
  unfold Processor.answer_query. intros Hrun.
  destruct (vectorstore self) as [vs|]; [|discriminate Hrun].
  rewrite !run_bind in Hrun.
  set (query_type := run w (Classifier.classify_query query)) in *.
  set (retrieved := run w (Retriever.retrieve vs query (QueryType_value query_type) 15)) in *.
  destruct (initial_docs ← retrieved;
            Processor.build_context py initial_docs query (QueryType_value query_type))
    as [context|e]; [|discriminate Hrun].
  rewrite run_bind in Hrun. simpl in Hrun. injection Hrun as <-.
  exists context, (QueryType_value query_type). simpl.
  split; [reflexivity|]. apply dedup_same_key.
Qed.

(** C9 (amended): with no index built or loaded, [answer_query] raises
    [RuntimeError] for every query, before any collaborator is called.
    With an index loaded there is no check on the query: every query, the
    empty one included, is classified, the index is searched for it with
    the class found, the candidates are reranked and made into the
    context, the extraction is run on that context, and what is returned
    is the deduplicated extraction, the context being stored in the
    processor (for indexed chunks without a [score] entry, as the chunker
    builds them). *)
Theorem answer_query_precondition (self : QueryProcessor) (query : string) :
  (vectorstore self = None ->
   Processor.answer_query py lib self query
   = Ret (self, Raised (RuntimeError
                          "Vectorstore not initialized. Build or load index first."))) /\
  (forall w vs,
     vectorstore self = Some vs ->
     (forall results, index_reply w vs query 15 = Returned results ->
                      Forall (fun r => metadata r.1 !! "score" = None) results) ->
     exists initial_docs ranked_docs context,
       let query_type_str := QueryType_value (run w (Classifier.classify_query query)) in
       run w (Retriever.retrieve vs query query_type_str 15) = Returned initial_docs /\
       Reranker.rerank_documents py initial_docs query query_type_str
       = Returned ranked_docs /\
       Processor.build_context py initial_docs query query_type_str = Returned context /\
       run w (Processor.answer_query py lib self query)
       = (mkQueryProcessor (index_name self) (Some vs) context,
          Returned (Processor.dedup
                      (run w (Extraction.extract_specs lib query context
                                query_type_str))))).
Proof.
  split.
  - intros Hnone. unfold Processor.answer_query. rewrite Hnone. reflexivity.
  - intros w vs Hvs Hindex. cbv zeta.
    set (query_type := run w (Classifier.classify_query query)).
    assert (Hretrieved : exists docs,
               run w (Retriever.retrieve vs query (QueryType_value query_type) 15)
               = Returned docs /\ Forall no_score docs).
    { simpl. destruct (index_reply w vs query 15) as [results|e] eqn:Hreply.
      - destruct (normalize_returns query results no_score) as (docs & Hdocs & Hns & _).
        + intros doc out Hdoc _ Hscore. simpl in *. congruence.
        + by apply Hindex.
        + eauto.
      - exists []. split; [reflexivity|constructor]. }
    destruct Hretrieved as (docs & Hdocs & Hns).
    destruct (build_context_returns docs query (QueryType_value query_type) Hns)
      as (context & Hcontext).
    destruct (rerank_returns py docs query (QueryType_value query_type) Hns)
      as (ranked & Hranked & _).
    exists docs, ranked, context.
    split; [exact Hdocs|]. split; [exact Hranked|]. split; [exact Hcontext|].
    unfold Processor.answer_query. rewrite Hvs, !run_bind.
    fold query_type. rewrite Hdocs.
    change (initial_docs ← Returned docs;
            Processor.build_context py initial_docs query (QueryType_value query_type))
      with (Processor.build_context py docs query (QueryType_value query_type)).
    rewrite Hcontext, run_bind. reflexivity.
Qed.

End PipelineProps.

Lemma answer_query_deduplicates_witness :
  let out := [Spec.mkSpecItem "rear caliper BOLT" "35" "NM" (Some 43%Z) None;
              Spec.mkSpecItem "Front axle nut" "120" "Nm" (Some 12%Z) None] in
  exists context query_type,
    let specs := run (Samples.world_answering Cases.mixed_reply)
                   (Extraction.extract_specs JsonText.library "rear caliper bolt torque"
                      context query_type) in
    out = Processor.dedup specs /\
    (forall i j a b, out !! i = Some a -> out !! j = Some b -> same_key a b -> i = j) /\
    forall v, v ∈ out <->
      exists l1 l2, specs = l1 ++ v :: l2 /\
        forall s, s ∈ l2 -> ~ same_key s v.
Proof.
  intros out.
  apply (answer_query_deduplicates Samples.plain_floats JsonText.library
           (Samples.world_answering Cases.mixed_reply) Samples.loaded
           "rear caliper bolt torque" out).
  vm_compute. reflexivity.
Defined.

Example answer_query_collapses_by_case :
  (run (Samples.world_answering Cases.mixed_reply)
       (Extraction.extract_specs JsonText.library "rear caliper bolt torque"
          EmptyString "spec"),
   (run (Samples.world_answering Cases.mixed_reply)
        (Processor.answer_query Samples.plain_floats JsonText.library Samples.loaded
           "rear caliper bolt torque")).2)
  = ([Spec.mkSpecItem "Rear caliper bolt" "35" "Nm" (Some 42%Z) None;
      Spec.mkSpecItem "Front axle nut" "120" "Nm" (Some 12%Z) None;
      Spec.mkSpecItem "rear caliper BOLT" "35" "NM" (Some 43%Z) None],
     Returned [Spec.mkSpecItem "rear caliper BOLT" "35" "NM" (Some 43%Z) None;
               Spec.mkSpecItem "Front axle nut" "120" "Nm" (Some 12%Z) None]).
Proof. vm_compute. reflexivity. Qed.

(** C9, as stated, fails on its second half: with an index loaded, the
    empty query is answered with a list. *)
Lemma answer_query_accepts_empty_query :
  vectorstore Samples.loaded = Some "spec_index" /\
  (run (Samples.world_answering Samples.wrapped_reply)
       (Processor.answer_query Samples.plain_floats JsonText.library Samples.loaded "")).2
  = Returned [Spec.mkSpecItem "Rear caliper bolt" "35" "Nm" (Some 42%Z) None].
Proof. split; [reflexivity|]. vm_compute. reflexivity. Qed.

Lemma answer_query_precondition_witness :
  Processor.answer_query Samples.plain_floats JsonText.library Samples.fresh ""
  = Ret (Samples.fresh,
         Raised (RuntimeError "Vectorstore not initialized. Build or load index first.")) /\
  exists initial_docs ranked_docs context,
    let w := Samples.world_answering Samples.wrapped_reply in
    let query_type_str := QueryType_value (run w (Classifier.classify_query "")) in
    run w (Retriever.retrieve "spec_index" "" query_type_str 15) = Returned initial_docs /\
    Reranker.rerank_documents Samples.plain_floats initial_docs "" query_type_str
    = Returned ranked_docs /\
    Processor.build_context Samples.plain_floats initial_docs "" query_type_str
    = Returned context /\
    run w (Processor.answer_query Samples.plain_floats JsonText.library Samples.loaded "")
    = (mkQueryProcessor (index_name Samples.loaded) (Some "spec_index") context,
       Returned (Processor.dedup
                   (run w (Extraction.extract_specs JsonText.library "" context
                             query_type_str)))).
Proof.
  split.
  - apply (proj1 (answer_query_precondition Samples.plain_floats JsonText.library
                    Samples.fresh "")).
    reflexivity.
  - apply (proj2 (answer_query_precondition Samples.plain_floats JsonText.library
                    Samples.loaded "")
             (Samples.world_answering Samples.wrapped_reply) "spec_index").
    + reflexivity.
    + intros results Hreply. injection Hreply as <-.
      repeat constructor.
Defined.

Example answer_query_without_index_ex :
  Processor.answer_query Samples.plain_floats JsonText.library Samples.fresh
    "rear caliper bolt torque"
  = Ret (Samples.fresh,
         Raised (RuntimeError "Vectorstore not initialized. Build or load index first.")).
Proof. reflexivity. Qed.

(* ================================================================== *)
(** * Further properties of the pipeline *)

(* ================================================================== *)
(** ** OCR fallback: shape of the result *)

(** X1: the OCR fallback returns one document per input document, in
    order; each is either the input document itself or a recognized page,
    tagged [parser = "ocr"], [ocr = True], that has at least 5 characters
    of content, replaces a page whose stripped text had fewer than 25, and
    carries the input's [page] (position + 1 when absent) and [section]
    (empty when absent). *)
Theorem ocr_pages_shape
    (fitz_open : string -> outcome OCREngine.pdf_handle) (file_path : string)
    (docs : list Document) :
  length (OCREngine.ocr_pages_if_empty fitz_open file_path docs) = length docs /\
  forall i doc, docs !! i = Some doc ->
    exists out,
      OCREngine.ocr_pages_if_empty fitz_open file_path docs !! i = Some out /\
      (out = doc \/
       (String.length (Str.strip (page_content doc)) < 25 /\
        5 <= String.length (page_content out) /\
        metadata out !! "parser" = Some (VStr "ocr") /\
        metadata out !! "ocr" = Some (VBool true) /\
        metadata out !! "page"
        = Some (dict_get (metadata doc) "page" (VInt (Z.of_nat i + 1))) /\
        metadata out !! "section"
        = Some (dict_get (metadata doc) "section" (VStr "")))).
Proof.
  unfold OCREngine.ocr_pages_if_empty.
  destruct (fitz_open file_path) as [pdf|e].
  - split; [apply length_imap|].
    intros i doc Hdoc. rewrite list_lookup_imap, Hdoc. simpl.
    eexists. split; [reflexivity|].
    unfold OCREngine.ocr_page.
    destruct (Nat.leb_spec OCREngine.MIN_TEXT_CHARS
                (String.length (Str.strip (page_content doc)))) as [Hlong|Hshort];
      [by left|].
    destruct (pdf i) as [raw|e]; [|destruct e; by left].
    destruct (Nat.ltb_spec (String.length (OCREngine.clean_ocr_text raw)) 5) as [Hfew|Hmany];
      [by left|].
    right. simpl. split; [exact Hshort|]. split; [exact Hmany|].
    repeat split; by simplify_map_eq.
  - split; [reflexivity|]. intros i doc Hdoc. eauto.
Qed.

(** X2: failures of the OCR collaborators are absorbed.  When the file
    cannot be opened the input list is returned as it is; when rendering or
    recognition of the page at position [i] raises, whatever the
    exception, the document at position [i] is returned unchanged. *)
Theorem ocr_failures_keep_pages
    (fitz_open : string -> outcome OCREngine.pdf_handle) (file_path : string)
    (docs : list Document) :
  (forall e, fitz_open file_path = Raised e ->
             OCREngine.ocr_pages_if_empty fitz_open file_path docs = docs) /\
  (forall pdf i doc e,
      fitz_open file_path = Returned pdf -> docs !! i = Some doc -> pdf i = Raised e ->
      OCREngine.ocr_pages_if_empty fitz_open file_path docs !! i = Some doc).
Proof.
  split.
  - intros e He. unfold OCREngine.ocr_pages_if_empty. rewrite He. reflexivity.
  - intros pdf i doc e Hopen Hdoc Hpage.
    rewrite (ocr_pages_lookup _ _ pdf _ _ doc Hopen Hdoc). f_equal.
    unfold OCREngine.ocr_page. rewrite Hpage.
    destruct (OCREngine.MIN_TEXT_CHARS <=? _); [reflexivity|]. by destruct e.
Qed.

Lemma ocr_failures_keep_pages_witness :
  OCREngine.ocr_pages_if_empty Cases.unreadable "manual.pdf"
    [Samples.short_page2; Samples.blank_page] = [Samples.short_page2; Samples.blank_page] /\
  OCREngine.ocr_pages_if_empty Cases.no_tesseract "manual.pdf"
    [Samples.short_page2; Samples.blank_page] !! 1 = Some Samples.blank_page.
Proof.
  split.
  - apply (proj1 (ocr_failures_keep_pages Cases.unreadable "manual.pdf"
                    [Samples.short_page2; Samples.blank_page])
             (OtherException "cannot open file")).
    reflexivity.
  - apply (proj2 (ocr_failures_keep_pages Cases.no_tesseract "manual.pdf"
                    [Samples.short_page2; Samples.blank_page])
             (fun _ => Raised TesseractNotFoundError) 1 Samples.blank_page
             TesseractNotFoundError); reflexivity.
Defined.

(** The last component of [s.split(sep)]. *)
Lemma split_on_nonempty (sep : ascii) (s : string) : Str.split_on sep s <> [].
Proof.
  destruct s as [|c s]; simpl; [discriminate|].
  destruct (Ascii.eqb c sep); [discriminate|].
  destruct (Str.split_on sep s); discriminate.
Qed.

Lemma split_on_single (sep : ascii) (s t : string) :
  Str.split_on sep s = [t] -> t = s.
Proof.
  revert t. induction s as [|c s IH]; intros t; simpl.
  - intros [= <-]. reflexivity.
  - destruct (Ascii.eqb c sep).
    + intros [= <- H]. by apply split_on_nonempty in H.
    + destruct (Str.split_on sep s) as [|t' ts] eqn:E; [intros [= <-]|].
      * by apply split_on_nonempty in E.
      * intros [= <- ->]. f_equal. by apply IH.
Qed.

Lemma last_cons_nonempty {A : Type} (x d : A) (l : list A) :
  l <> [] -> List.last (x :: l) d = List.last l d.
Proof. destruct l; [contradiction|reflexivity]. Qed.

Lemma split_on_last_step (sep c : ascii) (s : string) :
  List.last (Str.split_on sep (String c s)) EmptyString
  = if Ascii.eqb c sep then List.last (Str.split_on sep s) EmptyString
    else match Str.split_on sep s with
         | [t] => String c t
         | _ => List.last (Str.split_on sep s) EmptyString
         end.
Proof.
  simpl. destruct (Ascii.eqb c sep).
  - apply last_cons_nonempty, split_on_nonempty.
  - destruct (Str.split_on sep s) as [|t [|t' ts]] eqn:E; try reflexivity.
    by apply split_on_nonempty in E.
Qed.

Lemma split_on_last_suffix (sep : ascii) (s : string) :
  Str.endswith (List.last (Str.split_on sep s) EmptyString) s = true.
Proof.
  induction s as [|c s IH]; [reflexivity|].
  rewrite split_on_last_step. cbn [Str.endswith].
  destruct (Ascii.eqb c sep); [by rewrite IH, orb_true_r|].
  destruct (Str.split_on sep s) as [|t [|t' ts]] eqn:E.
  - by rewrite IH, orb_true_r.
  - apply split_on_single in E as ->. by rewrite String.eqb_refl.
  - by rewrite IH, orb_true_r.
Qed.

Lemma split_on_last_no_sep (sep : ascii) (s : string) :
  Str.contains (String sep EmptyString) (List.last (Str.split_on sep s) EmptyString) = false.
Proof.
  induction s as [|c s IH]; [reflexivity|].
  rewrite split_on_last_step.
  destruct (Ascii.eqb c sep) eqn:Ec; [exact IH|].
  destruct (Str.split_on sep s) as [|t [|t' ts]] eqn:E; try exact IH.
  simpl in IH. cbn [Str.contains String.prefix].
  rewrite IH, orb_false_r.
  destruct (ascii_dec sep c) as [->|Hne]; [|reflexivity].
  by rewrite Ascii.eqb_refl in Ec.
Qed.

(** X3: a recognized page gets a fresh metadata dict of exactly six
    entries: no other key of the input page survives; [source] is the file
    path and [file_name] is its last component (a suffix of the path with
    no slash in it). *)
Theorem ocr_page_metadata
    (fitz_open : string -> outcome OCREngine.pdf_handle) (file_path : string)
    (pdf : OCREngine.pdf_handle) (docs : list Document) (i : nat)
    (doc : Document) (raw : string) :
  fitz_open file_path = Returned pdf ->
  docs !! i = Some doc ->
  String.length (Str.strip (page_content doc)) < 25 ->
  pdf i = Returned raw ->
  5 <= String.length (OCREngine.clean_ocr_text raw) ->
  exists out file_name,
    OCREngine.ocr_pages_if_empty fitz_open file_path docs !! i = Some out /\
    dom (metadata out)
    = ({["page"; "section"; "source"; "file_name"; "parser"; "ocr"]} : gset string) /\
    metadata out !! "source" = Some (VStr file_path) /\
    metadata out !! "file_name" = Some (VStr file_name) /\
    Str.endswith file_name file_path = true /\
    Str.contains "/" file_name = false.
Proof.
  intros Hopen Hdoc Hshort Hpdf Hclean.
  rewrite (ocr_pages_lookup _ _ pdf _ _ doc Hopen Hdoc).
  rewrite (ocr_page_short _ _ _ _ raw Hshort Hpdf).
  destruct (Nat.ltb_spec (String.length (OCREngine.clean_ocr_text raw)) 5); [lia|].
  eexists. exists (List.last (Str.split_on "/" file_path) EmptyString).
  split; [reflexivity|]. simpl.
  split; [rewrite !dom_insert_L, dom_empty_L; set_solver|].
  split; [by simplify_map_eq|]. split; [by simplify_map_eq|].
  split; [apply split_on_last_suffix|apply (split_on_last_no_sep "/")].
Qed.

Lemma ocr_page_metadata_witness :
  exists out file_name,
    OCREngine.ocr_pages_if_empty Samples.open_scanned "data/raw/manual.pdf"
      [Samples.short_page2] !! 0 = Some out /\
    dom (metadata out)
    = ({["page"; "section"; "source"; "file_name"; "parser"; "ocr"]} : gset string) /\
    metadata out !! "source" = Some (VStr "data/raw/manual.pdf") /\
    metadata out !! "file_name" = Some (VStr file_name) /\
    Str.endswith file_name "data/raw/manual.pdf" = true /\
    Str.contains "/" file_name = false.
Proof.
  apply (ocr_page_metadata Samples.open_scanned "data/raw/manual.pdf" Samples.scanned_pdf
           [Samples.short_page2] 0 Samples.short_page2 "Front  axle nut 	 torque: 120 Nm").
  - reflexivity.
  - reflexivity.
  - vm_compute. lia.
  - reflexivity.
  - vm_compute. lia.
Defined.

(* ================================================================== *)
(** ** Chunker: provenance of the chunks *)

Section ChunkProvenance.

Variable split_text : string -> list string.

Lemma split_page_length (doc : Document) :
  length (Chunker.split_page split_text doc) = length (split_text (page_content doc)).
Proof. apply length_imap. Qed.

(** X4: a page yields one chunk per piece of its text, in order.  The
    chunk at position [i] has the stripped piece as content,
    [chunk_index = i] and [parent_page] equal to the page's [page] (the
    string "?" when absent), and it inherits every other metadata entry of
    the page; only [chunk_index], [parent_page], [original_section] and
    [section] can differ from the page's. *)
Theorem chunk_provenance (doc : Document) :
  length (Chunker.split_page split_text doc) = length (split_text (page_content doc)) /\
  forall i piece, split_text (page_content doc) !! i = Some piece ->
    exists c,
      Chunker.split_page split_text doc !! i = Some c /\
      page_content c = Str.strip piece /\
      metadata c !! "chunk_index" = Some (VInt (Z.of_nat i)) /\
      metadata c !! "parent_page" = Some (dict_get (metadata doc) "page" (VStr "?")) /\
      forall k, k <> "chunk_index" -> k <> "parent_page" -> k <> "original_section" ->
                k <> "section" -> metadata c !! k = metadata doc !! k.
Proof.
  unfold Chunker.split_page. split; [apply length_imap|].
  intros i piece Hpiece. rewrite list_lookup_imap, Hpiece. simpl.
  eexists. split; [reflexivity|]. unfold Chunker.make_chunk. simpl.
  split; [reflexivity|].
  destruct (negb (truthy _)); [destruct (Re.search _ _) as [[? ?]|]|];
    (split; [by simplify_map_eq|]); (split; [by simplify_map_eq|]);
    intros k ? ? ? ?; by simplify_map_eq.
Qed.

(** X5: no piece is dropped, even one that is empty once stripped: the
    chunker returns as many chunks as the splitter returns pieces over all
    pages, and the chunks of a list of pages followed by another are the
    chunks of the first followed by the chunks of the second. *)
Theorem split_documents_count (docs1 docs2 : list Document) :
  Chunker.split_documents split_text (docs1 ++ docs2)
  = Chunker.split_documents split_text docs1 ++ Chunker.split_documents split_text docs2 /\
  length (Chunker.split_documents split_text docs1)
  = sum_list ((fun d => length (split_text (page_content d))) <$> docs1).
Proof.
  unfold Chunker.split_documents. split; [apply bind_app|].
  induction docs1 as [|d docs IH]; [reflexivity|].
  cbn [mbind list_bind fmap list_fmap sum_list sum_list_with].
  rewrite length_app. f_equal; [|exact IH].
  apply split_page_length.
Qed.

End ChunkProvenance.

Example chunk_blank_piece_kept :
  page_content <$>
    Chunker.split_documents Samples.by_lines
      [mkDocument ("Torque table" +:+ newline +:+ "   " +:+ newline +:+ "35 Nm") ∅]
  = ["Torque table"; EmptyString; "35 Nm"].
Proof. vm_compute. reflexivity. Qed.

(* ================================================================== *)
(** ** Query classifier: the three tiers *)

(** X7: the class of a query is SPEC exactly when a vocabulary term occurs
    in the lower-cased query, or the number-unit pattern is found in it, or
    the model's answer, stripped and lower-cased, contains "spec".  A
    failing model call or an answer without text gives GENERAL. *)
Theorem classify_query_decision (w : world) (query : string) :
  run w (Classifier.classify_query query) = SPEC <->
  (exists keyword, keyword ∈ Classifier.SPEC_KEYWORDS /\
                   Str.contains keyword (Str.lower query) = true) \/
  Re.found Classifier.SPEC_PATTERN (Str.lower query) = true \/
  (exists text,
      model_reply w "gemini-2.5-flash" (Classifier.classify_prompt query) None
      = Returned (Some text) /\
      Str.contains "spec" (Str.lower (Str.strip text)) = true).
Proof.
  unfold Classifier.classify_query.
  destruct (existsb _ Classifier.SPEC_KEYWORDS) eqn:Hkw.
  - split; [|reflexivity]. intros _. left.
    apply existsb_exists in Hkw as (keyword & Hin & Hsub).
    exists keyword. split; [by apply list_elem_of_In|exact Hsub].
  - assert (Hnokw : ~ exists keyword, keyword ∈ Classifier.SPEC_KEYWORDS /\
                                      Str.contains keyword (Str.lower query) = true).
    { intros (keyword & Hin & Hsub).
      assert (existsb (fun keyword => Str.contains keyword (Str.lower query))
                Classifier.SPEC_KEYWORDS = true); [|congruence].
      apply existsb_exists. exists keyword. split; [by apply list_elem_of_In|exact Hsub]. }
    destruct (Re.found Classifier.SPEC_PATTERN (Str.lower query)) eqn:Hpat.
    + split; [|reflexivity]. intros _. right. by left.
    + simpl.
      destruct (model_reply w "gemini-2.5-flash" (Classifier.classify_prompt query) None)
        as [[text|]|e] eqn:Hreply.
      * destruct (Str.contains "spec" (Str.lower (Str.strip text))) eqn:Hspec.
        -- split; [|reflexivity]. intros _. right. right. eauto.
        -- split; [discriminate|].
           intros [H|[H|(text' & [= <-] & H)]]; [contradiction|discriminate|congruence].
      * split; [discriminate|].
        intros [H|[H|(text' & [=] & H)]]; [contradiction|discriminate].
      * split; [discriminate|].
        intros [H|[H|(text' & [=] & H)]]; [contradiction|discriminate].
Qed.

(** An answer that names the other class in passing still counts. *)
Example classify_answer_mentions_spec :
  run (mkWorld (fun _ _ _ => Returned (Some "General, not a specification."))
               (fun _ _ _ => Returned []))
      (Classifier.classify_query "How does the cooling system work?") = SPEC.
Proof. reflexivity. Qed.

(* ================================================================== *)
(** ** Retriever: scores and annotations *)

Lemma float_add_value (a b : Q) : (Float.add a b == a + b)%Q.
Proof. unfold Float.add. apply Qred_correct. Qed.

Lemma fold_left_invariant {A B : Type} (P : A -> Prop) (f : A -> B -> A) (l : list B) (a : A) :
  P a -> (forall x y, P x -> P (f x y)) -> P (fold_left f l a).
Proof.
  intros Ha Hf. revert a Ha. induction l as [|y l IH]; intros a Ha; simpl; auto.
Qed.

(** X9: the keyword score of any chunk for any query lies between 0 and
    the cap 2.0. *)
Theorem keyword_score_bounds (text query : string) :
  (0 <= Retriever.keyword_score text query <= 2)%Q.
Proof.
  unfold Retriever.keyword_score.
  match goal with |- (0 <= Float.min ?s 2 <= 2)%Q => set (score := s) end.
  assert (Hpos : (0 <= score)%Q).
  { subst score.
    apply (fold_left_invariant (fun s => (0 <= s)%Q)).
    - apply (fold_left_invariant (fun s => (0 <= s)%Q)); [lra|].
      intros s kw Hs.
      assert (Hs' : (0 <= (if Str.contains kw (Str.lower text)
                           then Float.add s (3 # 10) else s))%Q).
      { destruct (Str.contains kw (Str.lower text)); [|exact Hs].
        rewrite float_add_value. lra. }
      destruct (_ && _); [|exact Hs']. rewrite float_add_value. lra.
    - intros s token Hs. destruct (_ && _); [|exact Hs]. rewrite float_add_value. lra. }
  destruct (float_min_spec score 2) as ([E|E] & Hle1 & Hle2).
  - rewrite E in *. split; assumption.
  - rewrite E. split; lra.
Qed.

(** The minimum and the guarded range used by the loop. *)
Lemma normalize_scale (query : string) (results : list (Document * Q)) :
  exists min_s range_s,
    (0 < range_s)%Q /\
    (forall r, r ∈ results -> (min_s <= snd r)%Q /\ (snd r - min_s <= range_s)%Q) /\
    Retriever.normalize query results
    = omapM (Retriever.annotate query min_s range_s) results.
Proof.
  destruct results as [|r0 results'].
  - exists 0%Q, 1%Q. split; [lra|]. split; [|reflexivity]. intros r Hr. inversion Hr.
  - set (results := r0 :: results').
    unfold Retriever.normalize.
    change (map (fun r => Qred (snd r)) results)
      with (Qred (snd r0) :: map (fun r => Qred (snd r)) results').
    cbv iota.
    set (rest := map (fun r => Qred (snd r)) results').
    destruct (list_min_spec rest (Qred (snd r0))) as [_ Hmin_le].
    destruct (list_max_spec rest (Qred (snd r0))) as [_ Hmax_le].
    set (min_s := Float.list_min (Qred (snd r0)) rest) in *.
    set (max_s := Float.list_max (Qred (snd r0)) rest) in *.
    assert (Hall : forall r, r ∈ results -> Qred (snd r) ∈ Qred (snd r0) :: rest).
    { intros r Hr. change (Qred (snd r0) :: rest) with ((fun r => Qred (snd r)) <$> results).
      apply list_elem_of_fmap. eauto. }
    assert (Hbetween : forall r, r ∈ results -> (min_s <= snd r)%Q /\ (snd r <= max_s)%Q).
    { intros r Hr. pose proof (Hmin_le _ (Hall r Hr)) as H1.
      pose proof (Hmax_le _ (Hall r Hr)) as H2.
      rewrite Qred_correct in H1, H2. by split. }
    exists min_s.
    eexists. split; [|split; [|reflexivity]].
    + simpl. destruct (Qeq_bool (Float.sub max_s min_s) 0) eqn:E; [lra|].
      apply Qeq_bool_neq in E. unfold Float.sub in *. rewrite Qred_correct in *.
      destruct (Hbetween r0) as [H1 H2]; [apply elem_of_cons; by left|]. lra.
    + intros r Hr. destruct (Hbetween r Hr) as [H1 H2]. split; [exact H1|].
      simpl. destruct (Qeq_bool (Float.sub max_s min_s) 0) eqn:E.
      * apply Qeq_bool_iff in E. unfold Float.sub in E. rewrite Qred_correct in E. lra.
      * unfold Float.sub. rewrite Qred_correct. lra.
Qed.

Lemma similarity_bounds (d min_s range_s : Q) :
  (0 < range_s)%Q -> (min_s <= d)%Q -> (d - min_s <= range_s)%Q ->
  (0 <= Float.sub 1 (Qred (Float.sub (Qred d) min_s / range_s)) <= 1)%Q.
Proof.
  intros Hr Hmin Hmax. unfold Float.sub. rewrite !Qred_correct.
  assert (H0 : (0 <= (d - min_s) / range_s)%Q).
  { apply Qle_shift_div_l; [exact Hr|]. lra. }
  assert (H1 : ((d - min_s) / range_s <= 1)%Q).
  { apply Qle_shift_div_r; [exact Hr|]. lra. }
  split; lra.
Qed.

Lemma similarity_antitone (d1 d2 min_s range_s : Q) :
  (0 < range_s)%Q -> (d1 <= d2)%Q ->
  (Float.sub 1 (Qred (Float.sub (Qred d2) min_s / range_s))
   <= Float.sub 1 (Qred (Float.sub (Qred d1) min_s / range_s)))%Q.
Proof.
  intros Hr Hd. unfold Float.sub. rewrite !Qred_correct.
  assert (H : ((d1 - min_s) / range_s <= (d2 - min_s) / range_s)%Q).
  { unfold Qdiv. apply Qmult_le_compat_r; [lra|].
    apply Qlt_le_weak, Qinv_lt_0_compat, Hr. }
  lra.
Qed.

Lemma annotate_explicit (query : string) (min_s range_s : Q) (doc : Document) (d : Q) :
  (0 < range_s)%Q ->
  Retriever.annotate query min_s range_s (doc, d)
  = let sim := Float.sub 1 (Qred (Float.sub (Qred d) min_s / range_s)) in
    let kw := Retriever.keyword_score (page_content doc) query in
    Returned
      (mkDocument (page_content doc)
         (<["retrieval_type" := VStr "hybrid"]>
          (<["retrieval_score" := VFloat (Float.add sim kw)]>
           (<["keyword_score" := VFloat kw]>
            (<["faiss_similarity" := VFloat sim]>
             (<["faiss_distance" := VFloat (Qred d)]> (metadata doc))))))).
Proof.
  intros Hr. unfold Retriever.annotate.
  rewrite float_div_nonzero; [reflexivity|]. intros H. rewrite H in Hr. lra.
Qed.

(** X10: for every result list of the index, [retrieve] returns one
    annotated chunk per result, in order, with the text unchanged.  Each
    carries the distance, a similarity between 0 and 1, the keyword score
    of its text, their sum as [retrieval_score] and the type tag; every
    other metadata entry is the one the index returned. *)
Theorem retrieve_annotates (w : world) (vs query query_type : string) (top_k : nat)
    (results : list (Document * Q)) :
  index_reply w vs query top_k = Returned results ->
  exists docs,
    run w (Retriever.retrieve vs query query_type top_k) = Returned docs /\
    length docs = length results /\
    forall i doc d, results !! i = Some (doc, d) ->
      exists out sim,
        docs !! i = Some out /\
        page_content out = page_content doc /\
        metadata out !! "faiss_distance" = Some (VFloat (Qred d)) /\
        metadata out !! "faiss_similarity" = Some (VFloat sim) /\
        (0 <= sim <= 1)%Q /\
        metadata out !! "keyword_score"
        = Some (VFloat (Retriever.keyword_score (page_content doc) query)) /\
        metadata out !! "retrieval_score"
        = Some (VFloat (Float.add sim (Retriever.keyword_score (page_content doc) query))) /\
        metadata out !! "retrieval_type" = Some (VStr "hybrid") /\
        forall k, k <> "faiss_distance" -> k <> "faiss_similarity" ->
                  k <> "keyword_score" -> k <> "retrieval_score" ->
                  k <> "retrieval_type" -> metadata out !! k = metadata doc !! k.
Proof.
  intros Hreply. simpl. rewrite Hreply.
  destruct (normalize_scale query results) as (min_s & range_s & Hr & Hbetween & ->).
  destruct (omapM_lookup (Retriever.annotate query min_s range_s) results)
    as (docs & Hdocs & Hlen & Hlook).
  { intros [doc d] _. rewrite (annotate_explicit _ _ _ _ _ Hr). eauto. }
  exists docs. split; [exact Hdocs|]. split; [exact Hlen|].
  intros i doc d Hi.
  destruct (Hlook i (doc, d) Hi) as (out & Hout & Hann).
  rewrite (annotate_explicit _ _ _ _ _ Hr) in Hann. simpl in Hann. injection Hann as <-.
  destruct (Hbetween (doc, d)) as [Hmin Hmax]; [eapply list_elem_of_lookup_2; eauto|].
  eexists. exists (Float.sub 1 (Qred (Float.sub (Qred d) min_s / range_s))).
  split; [exact Hout|]. simpl. split; [reflexivity|].
  split; [by simplify_map_eq|]. split; [by simplify_map_eq|].
  split; [by apply similarity_bounds|].
  split; [by simplify_map_eq|]. split; [by simplify_map_eq|].
  split; [by simplify_map_eq|].
  intros k ? ? ? ? ?. by simplify_map_eq.
Qed.

Lemma retrieve_annotates_witness :
  exists docs,
    run (Samples.world_answering Samples.wrapped_reply)
        (Retriever.retrieve "spec_index" "rear caliper bolt torque" "spec" 15)
    = Returned docs /\
    length docs = 3.
Proof.
  destruct (retrieve_annotates (Samples.world_answering Samples.wrapped_reply)
              "spec_index" "rear caliper bolt torque" "spec" 15 Samples.neighbours)
    as (docs & Hrun & Hlen & _).
  - reflexivity.
  - exists docs. split; [exact Hrun|exact Hlen].
Defined.

(** X11: [retrieve] never raises: a failure of the index gives the empty
    list, and so does an empty result list. *)
Theorem retrieve_absorbs_index_failure (w : world) (vs query query_type : string)
    (top_k : nat) :
  exists docs,
    run w (Retriever.retrieve vs query query_type top_k) = Returned docs /\
    (forall e, index_reply w vs query top_k = Raised e -> docs = []) /\
    (index_reply w vs query top_k = Returned [] -> docs = []).
Proof.
  simpl. destruct (index_reply w vs query top_k) as [results|e].
  - destruct (normalize_returns query results (fun _ => True)) as (docs & Hdocs & _ & Hlen).
    + auto.
    + apply Forall_forall. auto.
    + exists docs. split; [exact Hdocs|]. split; [discriminate|].
      intros [= ->]. by destruct docs.
  - exists []. split; [reflexivity|]. split; [auto|intros H; discriminate H].
Qed.

(** X12: within one result list similarity runs against distance: a chunk
    at a smaller or equal distance gets a larger or equal similarity. *)
Theorem retrieve_similarity_antitone (w : world) (vs query query_type : string)
    (top_k : nat) (results : list (Document * Q)) (i j : nat)
    (doc_i doc_j : Document) (d_i d_j : Q) :
  index_reply w vs query top_k = Returned results ->
  results !! i = Some (doc_i, d_i) ->
  results !! j = Some (doc_j, d_j) ->
  (d_i <= d_j)%Q ->
  exists docs out_i out_j sim_i sim_j,
    run w (Retriever.retrieve vs query query_type top_k) = Returned docs /\
    docs !! i = Some out_i /\ docs !! j = Some out_j /\
    metadata out_i !! "faiss_similarity" = Some (VFloat sim_i) /\
    metadata out_j !! "faiss_similarity" = Some (VFloat sim_j) /\
    (sim_j <= sim_i)%Q.
Proof.
  intros Hreply Hi Hj Hd. simpl. rewrite Hreply.
  destruct (normalize_scale query results) as (min_s & range_s & Hr & _ & ->).
  destruct (omapM_lookup (Retriever.annotate query min_s range_s) results)
    as (docs & Hdocs & _ & Hlook).
  { intros [doc d] _. rewrite (annotate_explicit _ _ _ _ _ Hr). eauto. }
  destruct (Hlook i _ Hi) as (out_i & Hout_i & Hann_i).
  destruct (Hlook j _ Hj) as (out_j & Hout_j & Hann_j).
  rewrite (annotate_explicit _ _ _ _ _ Hr) in Hann_i.
  rewrite (annotate_explicit _ _ _ _ _ Hr) in Hann_j.
  simpl in Hann_i, Hann_j. injection Hann_i as <-. injection Hann_j as <-.
  exists docs. do 2 eexists.
  exists (Float.sub 1 (Qred (Float.sub (Qred d_i) min_s / range_s))),
         (Float.sub 1 (Qred (Float.sub (Qred d_j) min_s / range_s))).
  split; [exact Hdocs|]. split; [exact Hout_i|]. split; [exact Hout_j|].
  simpl. split; [by simplify_map_eq|]. split; [by simplify_map_eq|].
  by apply similarity_antitone.
Qed.

Lemma retrieve_similarity_antitone_witness :
  exists docs out_i out_j sim_i sim_j,
    run (Samples.world_answering Samples.wrapped_reply)
        (Retriever.retrieve "spec_index" "rear caliper bolt torque" "spec" 15)
    = Returned docs /\
    docs !! 2 = Some out_i /\ docs !! 1 = Some out_j /\
    metadata out_i !! "faiss_similarity" = Some (VFloat sim_i) /\
    metadata out_j !! "faiss_similarity" = Some (VFloat sim_j) /\
    (sim_j <= sim_i)%Q.
Proof.
  apply (retrieve_similarity_antitone (Samples.world_answering Samples.wrapped_reply)
           "spec_index" "rear caliper bolt torque" "spec" 15 Samples.neighbours 2 1
           Samples.chunk_mid Samples.chunk_far 1 (9 # 4)).
  - reflexivity.
  - reflexivity.
  - reflexivity.
  - vm_compute. discriminate.
Defined.

(* ================================================================== *)
(** ** Reranker: order and range of the scores *)

Lemma omapM_Forall2 {A B : Type} (f : A -> outcome B) (l : list A) (ys : list B) :
  omapM f l = Returned ys -> Forall2 (fun x y => f x = Returned y) l ys.
Proof.
  revert ys. induction l as [|x l IH]; intros ys; simpl.
  - intros [= <-]. constructor.
  - destruct (f x) as [y|e] eqn:Hx; [|discriminate].
    simpl. destruct (omapM f l) as [ys'|e]; [|discriminate].
    simpl. intros [= <-]. constructor; [exact Hx|by apply IH].
Qed.

Lemma omapM_raises {A B : Type} (f : A -> outcome B) (l1 l2 : list A) (x : A) (e : exn) :
  (forall x', x' ∈ l1 -> exists y, f x' = Returned y) ->
  f x = Raised e ->
  omapM f (l1 ++ x :: l2) = Raised e.
Proof.
  intros Hl1 Hx. induction l1 as [|a l1 IH]; simpl.
  - by rewrite Hx.
  - destruct (Hl1 a) as [y ->]; [apply elem_of_cons; by left|]. simpl.
    rewrite IH; [reflexivity|]. intros x' Hx'. apply Hl1, elem_of_cons. by right.
Qed.

Lemma insert_desc_perm (d : Document) (l : list Document) :
  Reranker.insert_desc d l ≡ₚ d :: l.
Proof.
  induction l as [|d' l IH]; simpl; [reflexivity|].
  destruct (Float.ltb _ _); [|reflexivity].
  rewrite IH. apply Permutation_swap.
Qed.

Lemma sorted_desc_perm (l : list Document) : Reranker.sorted_desc l ≡ₚ l.
Proof.
  unfold Reranker.sorted_desc. induction l as [|d l IH]; simpl; [reflexivity|].
  rewrite insert_desc_perm. by constructor.
Qed.

Lemma insert_desc_sorted (d : Document) (l : list Document) :
  StronglySorted (fun a b => (Reranker.hybrid_score b <= Reranker.hybrid_score a)%Q) l ->
  StronglySorted (fun a b => (Reranker.hybrid_score b <= Reranker.hybrid_score a)%Q)
    (Reranker.insert_desc d l).
Proof.
  intros Hl. induction Hl as [|d' l Hl IH Hd']; simpl.
  - repeat constructor.
  - destruct (Float.ltb (Reranker.hybrid_score d) (Reranker.hybrid_score d')) eqn:E.
    + apply float_ltb_lt in E. constructor; [exact IH|].
      rewrite insert_desc_perm. constructor; [lra|exact Hd'].
    + assert (Hle : (Reranker.hybrid_score d' <= Reranker.hybrid_score d)%Q).
      { destruct (Qlt_le_dec (Reranker.hybrid_score d) (Reranker.hybrid_score d'))
          as [Hlt|Hle]; [|exact Hle].
        apply float_ltb_lt in Hlt. congruence. }
      constructor; [by constructor|].
      constructor; [exact Hle|].
      eapply Forall_impl; [exact Hd'|]. intros b Hb. simpl in Hb. lra.
Qed.

Lemma sorted_desc_sorted (l : list Document) :
  StronglySorted (fun a b => (Reranker.hybrid_score b <= Reranker.hybrid_score a)%Q)
    (Reranker.sorted_desc l).
Proof.
  unfold Reranker.sorted_desc. induction l as [|d l IH]; simpl; [constructor|].
  by apply insert_desc_sorted.
Qed.

Lemma insert_desc_filter (q : Q) (d : Document) (l : list Document) :
  List.filter (fun x => Qeq_bool (Reranker.hybrid_score x) q) (Reranker.insert_desc d l)
  = List.filter (fun x => Qeq_bool (Reranker.hybrid_score x) q) (d :: l).
Proof.
  induction l as [|d' l IH]; [reflexivity|].
  cbn [Reranker.insert_desc].
  destruct (Float.ltb (Reranker.hybrid_score d) (Reranker.hybrid_score d')) eqn:E;
    [|reflexivity].
  apply float_ltb_lt in E.
  cbn [List.filter] in *. rewrite IH.
  destruct (Qeq_bool (Reranker.hybrid_score d) q) eqn:Ed;
    destruct (Qeq_bool (Reranker.hybrid_score d') q) eqn:Ed'; try reflexivity.
  apply Qeq_bool_iff in Ed, Ed'. rewrite Ed, Ed' in E. lra.
Qed.

Lemma sorted_desc_filter (q : Q) (l : list Document) :
  List.filter (fun x => Qeq_bool (Reranker.hybrid_score x) q) (Reranker.sorted_desc l)
  = List.filter (fun x => Qeq_bool (Reranker.hybrid_score x) q) l.
Proof.
  unfold Reranker.sorted_desc. induction l as [|d l IH]; [reflexivity|].
  cbn [foldr]. rewrite insert_desc_filter. cbn [List.filter]. by rewrite IH.
Qed.

Section RerankOrder.

Variable py : float_text.

Lemma rerank_unfold (docs ranked : list Document) (query query_type : string) :
  Reranker.rerank_documents py docs query query_type = Returned ranked ->
  exists scored,
    Forall2 (fun d d' => exists s,
               Reranker.score_document py d query query_type = Returned s /\
               d' = mkDocument (page_content d)
                      (<["hybrid_score" := VFloat s]> (metadata d)))
            docs scored /\
    ranked = Reranker.sorted_desc scored.
Proof.
  unfold Reranker.rerank_documents. intros H.
  destruct (omapM _ docs) as [scored|e] eqn:E; [|discriminate H].
  simpl in H. injection H as <-. exists scored. split; [|reflexivity].
  apply omapM_Forall2 in E. eapply Forall2_impl; [exact E|].
  intros d d' Hd. simpl in Hd.
  destruct (Reranker.score_document py d query query_type) as [s|e]; [|discriminate Hd].
  simpl in Hd. injection Hd as <-. eauto.
Qed.

(** X13: when [rerank_documents] returns, its result holds the input
    chunks, each with its [score_document] value stored as
    [hybrid_score] and nothing else changed, rearranged in descending
    order of that score. *)
Theorem rerank_sorts (docs ranked : list Document) (query query_type : string) :
  Reranker.rerank_documents py docs query query_type = Returned ranked ->
  exists scored,
    Forall2 (fun d d' => exists s,
               Reranker.score_document py d query query_type = Returned s /\
               d' = mkDocument (page_content d)
                      (<["hybrid_score" := VFloat s]> (metadata d)))
            docs scored /\
    ranked ≡ₚ scored /\
    StronglySorted (fun a b => (Reranker.hybrid_score b <= Reranker.hybrid_score a)%Q)
      ranked.
Proof.
  intros H. destruct (rerank_unfold _ _ _ _ H) as (scored & Hscored & ->).
  exists scored. split; [exact Hscored|].
  split; [apply sorted_desc_perm|apply sorted_desc_sorted].
Qed.

(** X14: the rerank is stable: for every score, the ranked chunks that
    have it as their hybrid score are the input chunks with that score,
    each with its [hybrid_score] entry added, in the order in which they
    came in. *)
Theorem rerank_stable (docs ranked : list Document) (query query_type : string) (q : Q) :
  Reranker.rerank_documents py docs query query_type = Returned ranked ->
  List.filter (fun d => Qeq_bool (Reranker.hybrid_score d) q) ranked
  = (fun d =>
       match Reranker.score_document py d query query_type with
       | Returned s =>
           mkDocument (page_content d) (<["hybrid_score" := VFloat s]> (metadata d))
       | Raised _ => d
       end) <$>
    List.filter (fun d =>
        match Reranker.score_document py d query query_type with
        | Returned s => Qeq_bool s q
        | Raised _ => false
        end) docs.
Proof.
  intros H. destruct (rerank_unfold _ _ _ _ H) as (scored & Hscored & ->).
  rewrite sorted_desc_filter. clear H.
  induction Hscored as [|d d' docs scored (s & Hs & ->) Hrest IH]; [reflexivity|].
  cbn [List.filter]. rewrite Hs.
  unfold Reranker.hybrid_score at 1. cbn [metadata]. rewrite lookup_insert_eq.
  destruct (Qeq_bool s q); cbn [fmap list_fmap]; rewrite IH; [|reflexivity].
  by rewrite Hs.
Qed.

End RerankOrder.

Lemma rerank_sorts_witness :
  exists scored,
    Forall2 (fun d d' => exists s,
               Reranker.score_document Samples.plain_floats d "bolt torque" "spec"
               = Returned s /\
               d' = mkDocument (page_content d)
                      (<["hybrid_score" := VFloat s]> (metadata d)))
            Cases.tied_chunks scored /\
    Cases.ranked_tied_chunks ≡ₚ scored /\
    StronglySorted (fun a b => (Reranker.hybrid_score b <= Reranker.hybrid_score a)%Q)
      Cases.ranked_tied_chunks.
Proof.
  apply (rerank_sorts Samples.plain_floats Cases.tied_chunks Cases.ranked_tied_chunks
           "bolt torque" "spec").
  vm_compute. reflexivity.
Defined.

Lemma rerank_stable_witness :
  List.filter (fun d => Qeq_bool (Reranker.hybrid_score d) (53 # 100))
    Cases.ranked_tied_chunks
  = (fun d =>
       match Reranker.score_document Samples.plain_floats d "bolt torque" "spec" with
       | Returned s =>
           mkDocument (page_content d) (<["hybrid_score" := VFloat s]> (metadata d))
       | Raised _ => d
       end) <$>
    List.filter (fun d =>
        match Reranker.score_document Samples.plain_floats d "bolt torque" "spec" with
        | Returned s => Qeq_bool s (53 # 100)
        | Raised _ => false
        end) Cases.tied_chunks.
Proof.
  apply (rerank_stable Samples.plain_floats Cases.tied_chunks Cases.ranked_tied_chunks
           "bolt torque" "spec" (53 # 100)).
  vm_compute. reflexivity.
Defined.

Example rerank_tied_order :
  (fun d => (page_content d, metadata d !! "page", metadata d !! "hybrid_score"))
    <$> Cases.ranked_tied_chunks
  = [("Front caliper bolt torque", Some (VInt 7), Some (VFloat (14 # 25)));
     ("Caliper bolt torque", Some (VInt 5), Some (VFloat (53 # 100)));
     ("Torque for the caliper bolt", Some (VInt 9), Some (VFloat (53 # 100)));
     ("Hose clamp", Some (VInt 3), Some (VFloat (7 # 20)))].
Proof. vm_compute. reflexivity. Qed.

Lemma boost_of_nonneg (page_content query : string) :
  (0 <= Reranker.boost_of page_content query)%Q.
Proof.
  unfold Reranker.boost_of.
  match goal with |- (0 <= Float.min ?b 2)%Q => set (boost := b) end.
  assert (Hpos : (0 <= boost)%Q).
  { subst boost.
    apply (fold_left_invariant (fun b => (0 <= b)%Q)).
    - apply (fold_left_invariant (fun b => (0 <= b)%Q)).
      + destruct (Reranker.contains_real_spec _); [rewrite float_add_value|]; lra.
      + intros b k Hb. destruct (Str.contains _ _); [rewrite float_add_value|]; lra.
    - intros b token Hb. destruct (_ && _); [rewrite float_add_value|]; lra. }
  destruct (float_min_spec boost 2) as ([E|E] & _ & _); rewrite E; lra.
Qed.

Section ScoreRange.

Variable py : float_text.

(** X15: for a chunk whose [score] entry converts to a number [x >= 0]
    (1.0 when the entry is absent), [score_document] returns
    [0.7 / (1 + x) + 0.3 * boost], a value above 0 and at most 1.3. *)
Theorem score_document_range (doc : Document) (query query_type : string) (x : Q) :
  py_float py (dict_get (metadata doc) "score" (VFloat 1)) = Returned x ->
  (0 <= x)%Q ->
  exists s,
    Reranker.score_document py doc query query_type = Returned s /\
    (s == (7 # 10) * (1 / (1 + x))
          + (3 # 10) * Reranker.boost_of (page_content doc) query)%Q /\
    (0 < s <= 13 # 10)%Q.
Proof.
  intros Hx Hpos. unfold Reranker.score_document. rewrite Hx. simpl.
  assert (Hden : ~ (Float.add 1 x == 0)%Q) by (rewrite float_add_value; lra).
  rewrite (float_div_nonzero _ _ Hden). simpl.
  eexists. split; [reflexivity|].
  assert (Hval : (Float.add (Float.mul (7 # 10) (Qred (1 / Float.add 1 x)))
                    (Float.mul (3 # 10) (Reranker.boost_of (page_content doc) query))
                  == (7 # 10) * (1 / (1 + x))
                     + (3 # 10) * Reranker.boost_of (page_content doc) query)%Q).
  { unfold Float.add, Float.mul. rewrite !Qred_correct. reflexivity. }
  split; [exact Hval|]. rewrite Hval.
  pose proof (boost_of_nonneg (page_content doc) query) as Hb0.
  pose proof (boost_of_capped (page_content doc) query) as Hb2.
  assert (H0 : (0 < 1 / (1 + x))%Q).
  { apply Qlt_shift_div_l; lra. }
  assert (H1 : (1 / (1 + x) <= 1)%Q).
  { apply Qle_shift_div_r; lra. }
  split; lra.
Qed.

(** X16: a [score] entry equal to -1 makes [score_document] raise
    [ZeroDivisionError], and an exception raised for one chunk, all earlier
    ones being scored, is raised by [rerank_documents]: no partial ranking
    is returned. *)
Theorem rerank_raises_on_score_minus_one
    (before after : list Document) (doc : Document) (query query_type : string) (x : Q) :
  (forall d, d ∈ before ->
             exists s, Reranker.score_document py d query query_type = Returned s) ->
  py_float py (dict_get (metadata doc) "score" (VFloat 1)) = Returned x ->
  (x == -1)%Q ->
  Reranker.score_document py doc query query_type = Raised ZeroDivisionError /\
  Reranker.rerank_documents py (before ++ doc :: after) query query_type
  = Raised ZeroDivisionError.
Proof.
  intros Hbefore Hx Hminus.
  assert (Hdoc : Reranker.score_document py doc query query_type = Raised ZeroDivisionError).
  { unfold Reranker.score_document. rewrite Hx. simpl. unfold Float.div.
    assert (E : Qeq_bool (Float.add 1 x) 0 = true).
    { apply Qeq_bool_iff. rewrite float_add_value, Hminus. reflexivity. }
    rewrite E. reflexivity. }
  split; [exact Hdoc|].
  unfold Reranker.rerank_documents.
  rewrite (omapM_raises _ before after doc ZeroDivisionError); [reflexivity| |].
  - intros d Hd. destruct (Hbefore d Hd) as [s ->]. simpl. eauto.
  - rewrite Hdoc. reflexivity.
Qed.

End ScoreRange.

Lemma score_document_range_witness :
  exists s,
    Reranker.score_document Samples.plain_floats Samples.chunk_near
      "rear caliper bolt torque" "spec" = Returned s /\
    (s == (7 # 10) * (1 / (1 + 1))
          + (3 # 10) * Reranker.boost_of (page_content Samples.chunk_near)
                         "rear caliper bolt torque")%Q /\
    (0 < s <= 13 # 10)%Q.
Proof.
  apply (score_document_range Samples.plain_floats Samples.chunk_near
           "rear caliper bolt torque" "spec" 1).
  - reflexivity.
  - vm_compute. discriminate.
Defined.

Lemma rerank_raises_on_score_minus_one_witness :
  Reranker.score_document Samples.plain_floats Cases.minus_one_chunk "bolt torque" "spec"
  = Raised ZeroDivisionError /\
  Reranker.rerank_documents Samples.plain_floats
    ([Samples.chunk_near] ++ Cases.minus_one_chunk :: [Samples.chunk_far])
    "bolt torque" "spec"
  = Raised ZeroDivisionError.
Proof.
  apply (rerank_raises_on_score_minus_one Samples.plain_floats [Samples.chunk_near]
           [Samples.chunk_far] Cases.minus_one_chunk "bolt torque" "spec" (-1)).
  - intros d Hd. apply list_elem_of_singleton in Hd as ->. eexists. vm_compute. reflexivity.
  - reflexivity.
  - reflexivity.
Defined.

(* ================================================================== *)
(** ** Facts about the pattern matcher *)

Section MatcherFacts.

Context {R : Type}.

(** A match succeeds only through its continuation. *)
Lemma go_fails (r : Re.regex) :
  forall (prev : option ascii) (s : string) (k : option ascii -> string -> option R),
    (forall p s', k p s' = None) -> Re.go r prev s k = None.
Proof.
  induction r as [|c|p|r1 IH1 r2 IH2|r1 IH1 r2 IH2|r IH|]; intros prev s k Hk; cbn [Re.go].
  - apply Hk.
  - destruct s as [|a s]; [reflexivity|]. destruct (Ascii.eqb a c); [apply Hk|reflexivity].
  - destruct s as [|a s]; [reflexivity|]. destruct (p a); [apply Hk|reflexivity].
  - apply IH1. intros p s'. by apply IH2.
  - rewrite IH1 by exact Hk. by apply IH2.
  - generalize (String.length s). intros n. revert prev s.
    induction n as [|n IHn]; intros prev s; [apply Hk|].
    rewrite IH; [apply Hk|].
    intros p s'. destruct (String.length s' <? String.length s); [apply IHn|reflexivity].
  - destruct (Re.at_boundary prev s); [apply Hk|reflexivity].
Qed.

(** Continuations that agree on the texts satisfying a predicate kept by
    every tail give the same match on such a text. *)
Lemma go_ext (P : string -> Prop) (r : Re.regex) :
  (forall c s, P (String c s) -> P s) ->
  forall (prev : option ascii) (s : string) (k1 k2 : option ascii -> string -> option R),
    P s ->
    (forall p s', P s' -> k1 p s' = k2 p s') ->
    Re.go r prev s k1 = Re.go r prev s k2.
Proof.
  intros Htail.
  induction r as [|c|p|r1 IH1 r2 IH2|r1 IH1 r2 IH2|r IH|];
    intros prev s k1 k2 Hs Hk; cbn [Re.go].
  - by apply Hk.
  - destruct s as [|a s]; [reflexivity|].
    destruct (Ascii.eqb a c); [|reflexivity]. apply Hk. by apply (Htail a).
  - destruct s as [|a s]; [reflexivity|].
    destruct (p a); [|reflexivity]. apply Hk. by apply (Htail a).
  - apply IH1; [exact Hs|]. intros p s' Hs'. by apply IH2.
  - rewrite (IH1 prev s k1 k2 Hs Hk), (IH2 prev s k1 k2 Hs Hk). reflexivity.
  - generalize (String.length s). intros n. revert prev s Hs.
    induction n as [|n IHn]; intros prev s Hs; [by apply Hk|].
    rewrite (IH prev s _
               (fun prev' s' =>
                  if String.length s' <? String.length s
                  then (fix loop (n : nat) (prev : option ascii) (s : string) : option R :=
                          match n with
                          | 0 => k2 prev s
                          | S n' =>
                              match Re.go r prev s (fun prev' s' =>
                                      if String.length s' <? String.length s
                                      then loop n' prev' s' else None) with
                              | Some x => Some x
                              | None => k2 prev s
                              end
                          end) n prev' s'
                  else None) Hs).
    + rewrite (Hk prev s Hs). reflexivity.
    + intros p s' Hs'. destruct (String.length s' <? String.length s); [|reflexivity].
      by apply IHn.
  - destruct (Re.at_boundary prev s); [|reflexivity]. by apply Hk.
Qed.

End MatcherFacts.

Lemma all_chars_tail (p : ascii -> bool) (c : ascii) (s : string) :
  Text.all_chars p (String c s) = true -> Text.all_chars p s = true.
Proof. simpl. intros H. by apply andb_true_iff in H as [_ H]. Qed.

Lemma search_from_ext (P : string -> Prop) (r1 r2 : Re.regex) :
  (forall c s, P (String c s) -> P s) ->
  (forall p s, P s -> Re.match_at r1 p s = Re.match_at r2 p s) ->
  forall s prev i, P s -> Re.search_from r1 prev s i = Re.search_from r2 prev s i.
Proof.
  intros Htail Hm. induction s as [|c s IH]; intros prev i Hs; cbn [Re.search_from].
  - by rewrite (Hm _ _ Hs).
  - rewrite (Hm _ _ Hs). destruct (Re.match_at r2 prev (String c s)); [reflexivity|].
    apply IH. by apply (Htail c).
Qed.

(** A pattern that starts with a literal character is not found in a text
    that lacks this character. *)
Lemma search_from_lacks (c : ascii) (r : Re.regex) (s : string) :
  Text.lacks c s = true ->
  forall prev i, Re.search_from (Re.Seq (Re.Chr c) r) prev s i = None.
Proof.
  induction s as [|a s IH]; intros Hs prev i; [reflexivity|].
  unfold Text.lacks in Hs. simpl in Hs. apply andb_true_iff in Hs as [Ha Hs].
  apply negb_true_iff in Ha.
  cbn [Re.search_from Re.match_at Re.go]. rewrite Ha. by apply IH.
Qed.

Lemma lower_char_not_N (c : ascii) : Ascii.eqb (Str.lower_char c) "N" = false.
Proof. destruct c as [[] [] [] [] [] [] [] []]; reflexivity. Qed.

Lemma lower_lacks_N (s : string) : Text.lacks "N" (Str.lower s) = true.
Proof.
  induction s as [|c s IH]; [reflexivity|].
  unfold Text.lacks in *. simpl. by rewrite lower_char_not_N, IH.
Qed.

Lemma lit_N_fails {R : Type} (rest : string) (prev : option ascii) (s : string)
    (k : option ascii -> string -> option R) :
  Text.lacks "N" s = true -> Re.go (Re.lit (String "N" rest)) prev s k = None.
Proof.
  intros Hs. cbn [Re.lit Re.go]. destruct s as [|a s]; [reflexivity|].
  unfold Text.lacks in Hs. simpl in Hs. apply andb_true_iff in Hs as [Ha _].
  apply negb_true_iff in Ha. by rewrite Ha.
Qed.

Lemma go_alt {R : Type} (r1 r2 : Re.regex) (prev : option ascii) (s : string)
    (k : option ascii -> string -> option R) :
  Re.go (Re.Alt r1 r2) prev s k
  = match Re.go r1 prev s k with Some x => Some x | None => Re.go r2 prev s k end.
Proof. reflexivity. Qed.

Lemma go_seq_cong_r {R : Type} (P : string -> Prop) (a x x' : Re.regex) :
  (forall c s, P (String c s) -> P s) ->
  (forall p s (k : option ascii -> string -> option R),
      P s -> Re.go x p s k = Re.go x' p s k) ->
  forall p s (k : option ascii -> string -> option R),
    P s -> Re.go (Re.Seq a x) p s k = Re.go (Re.Seq a x') p s k.
Proof.
  intros Htail Hx p s k Hs. cbn [Re.go].
  apply (go_ext P); [exact Htail|exact Hs|]. intros p' s' Hs'. by apply Hx.
Qed.

Lemma go_seq_cong_l {R : Type} (P : string -> Prop) (a a' x : Re.regex) :
  (forall p s (k : option ascii -> string -> option R),
      P s -> Re.go a p s k = Re.go a' p s k) ->
  forall p s (k : option ascii -> string -> option R),
    P s -> Re.go (Re.Seq a x) p s k = Re.go (Re.Seq a' x) p s k.
Proof. intros Ha p s k Hs. cbn [Re.go]. by apply Ha. Qed.

(** X17: the texts are lower-cased before the patterns are applied, and
    the patterns are case-sensitive, so the alternatives [Nm] and [N·m] of
    the first pattern never match: [contains_real_spec] answers as the
    three patterns would without them. *)
Theorem contains_real_spec_ignores_Nm (text : string) :
  Reranker.contains_real_spec text
  = existsb (fun pattern => Re.found pattern (Str.lower text))
      (Re.seqs [Re.WordB; Re.plus Re.digit; Re.Star Re.space;
                Reranker.units "lb-ft" ["ft-lb"; "in-lb"; "psi"; "bar"]; Re.WordB]
       :: List.tl Reranker.SPEC_NUMBER_PATTERNS).
Proof.
  unfold Reranker.contains_real_spec, Reranker.SPEC_NUMBER_PATTERNS.
  cbn [existsb List.tl]. f_equal.
  unfold Re.found, Re.search.
  rewrite (search_from_ext (fun s => Text.lacks "N" s = true)
             _ (Re.seqs [Re.WordB; Re.plus Re.digit; Re.Star Re.space;
                         Reranker.units "lb-ft" ["ft-lb"; "in-lb"; "psi"; "bar"]; Re.WordB]));
    [reflexivity| | |apply lower_lacks_N].
  - intros c s. apply all_chars_tail.
  - intros p s Hs. unfold Re.match_at. cbn [Re.seqs].
    revert p s Hs. generalize (fun (_ : option ascii) (rest : string) => Some rest).
    intros k p s Hs. revert p s k Hs.
    do 3 (apply go_seq_cong_r; [apply all_chars_tail|]).
    apply go_seq_cong_l.
    intros p s k Hs. unfold Reranker.units. cbn [Re.alts map].
    rewrite !go_alt.
    change (Re.lit "Nm") with (Re.lit (String "N" "m")).
    change (Re.lit Reranker.N_dot_m)
      with (Re.lit (String "N" (String "194" (String "183" "m")))).
    rewrite !(lit_N_fails _ _ _ _ Hs). reflexivity.
Qed.

Example contains_real_spec_units :
  Reranker.contains_real_spec "Torque: 35 Nm" = false /\
  Reranker.contains_real_spec "Torque: 26 lb-ft" = true /\
  Reranker.contains_real_spec "Pressure 32 PSI" = true.
Proof. vm_compute. repeat split; reflexivity. Qed.

(* ================================================================== *)
(** ** Extraction engine: which block is taken from the reply *)

Section StarFacts.

Context {R : Type}.
Variable r : Re.regex.
Variable k : option ascii -> string -> option R.

(** The repetition has fuel to spare: any amount at least the length of
    the text gives the same match. *)
Lemma star_loop_fuel :
  let loop :=
    fix loop (n : nat) (prev : option ascii) (s : string) : option R :=
      match n with
      | 0 => k prev s
      | S n' =>
          match Re.go r prev s (fun prev' s' =>
                  if String.length s' <? String.length s
                  then loop n' prev' s' else None) with
          | Some x => Some x
          | None => k prev s
          end
      end in
  forall n m prev s, String.length s <= n -> String.length s <= m ->
                     loop n prev s = loop m prev s.
Proof.
  intros loop.
  assert (Hzero : forall m prev s, String.length s = 0 -> loop m prev s = k prev s).
  { intros [|m] prev s Hs; [reflexivity|]. cbn [loop].
    rewrite go_fails; [reflexivity|].
    intros p s'. rewrite Hs. reflexivity. }
  induction n as [|n IH]; intros m prev s Hn Hm.
  - rewrite (Hzero m) by lia. reflexivity.
  - destruct m as [|m]; [rewrite (Hzero (S n)) by lia; reflexivity|].
    cbn [loop].
    rewrite (go_ext (fun _ => True) r (fun _ _ _ => I) prev s _
               (fun prev' s' =>
                  if String.length s' <? String.length s then loop m prev' s' else None) I);
      [reflexivity|].
    intros p s' _.
    destruct (Nat.ltb_spec (String.length s') (String.length s)); [|reflexivity].
    apply IH; lia.
Qed.

(** One step of a repetition: try the body and repeat on what is left,
    provided it is shorter; otherwise stop here. *)
Lemma go_star_step (prev : option ascii) (s : string) :
  Re.go (Re.Star r) prev s k
  = match Re.go r prev s (fun prev' s' =>
            if String.length s' <? String.length s
            then Re.go (Re.Star r) prev' s' k else None) with
    | Some x => Some x
    | None => k prev s
    end.
Proof.
  destruct s as [|c s].
  - cbn [Re.go String.length]. rewrite go_fails; reflexivity.
  - cbn [Re.go].
    change (String.length (String c s)) with (S (String.length s)).
    lazy beta iota.
    match goal with
    | |- match Re.go r prev _ ?k1 with _ => _ end = match Re.go r prev _ ?k2 with _ => _ end =>
        rewrite (go_ext (fun _ => True) r (fun _ _ _ => I) prev (String c s) k1 k2 I);
          [reflexivity|]
    end.
    intros p s' _.
    change (String.length (String c s)) with (S (String.length s)).
    destruct (Nat.ltb_spec (String.length s') (S (String.length s))); [|reflexivity].
    apply (star_loop_fuel (String.length s) (String.length s')); lia.
Qed.

End StarFacts.

(** [[\s\S]*] followed by [k]: the longest run first. *)
Lemma go_star_any {R : Type} (k : option ascii -> string -> option R)
    (prev : option ascii) (s : string) :
  Re.go (Re.Star Re.any) prev s k
  = match s with
    | EmptyString => k prev s
    | String c s' =>
        match Re.go (Re.Star Re.any) (Some c) s' k with
        | Some x => Some x
        | None => k prev s
        end
    end.
Proof.
  rewrite go_star_step. destruct s as [|c s]; [reflexivity|].
  cbn [Re.go Re.any String.length].
  destruct (Nat.ltb_spec (String.length s) (S (String.length s))); [reflexivity|lia].
Qed.

Lemma append_length (x y : string) :
  String.length (x +:+ y) = String.length x + String.length y.
Proof.
  induction x as [|a x IH]; [reflexivity|].
  change (S (String.length (x +:+ y)) = S (String.length x + String.length y)).
  by rewrite IH.
Qed.

Lemma append_assoc (x y z : string) : (x +:+ y) +:+ z = x +:+ (y +:+ z).
Proof.
  induction x as [|a x IH]; [reflexivity|].
  change (String a ((x +:+ y) +:+ z) = String a (x +:+ (y +:+ z))). by rewrite IH.
Qed.

Lemma take_append (x y : string) :
  Str.take (String.length (x +:+ y) - String.length y) (x +:+ y) = x.
Proof.
  rewrite append_length. replace (String.length x + String.length y - String.length y)
    with (String.length x) by lia.
  induction x as [|a x IH]; simpl; [by destruct y|by rewrite IH].
Qed.

Section Blocks.

(** The opening and the closing character of a block. *)
Variable opening closing : ascii.

Abbreviation block_pattern :=
  (Re.seqs [Re.Chr opening; Re.Star Re.any; Re.Chr closing]).

Abbreviation close_then_stop :=
  (fun (p : option ascii) (s : string) =>
     Re.go (Re.seqs [Re.Chr closing]) p s (fun _ rest => Some rest)).

Lemma star_any_no_closing (s : string) (p : option ascii) :
  Text.lacks closing s = true ->
  Re.go (Re.Star Re.any) p s close_then_stop = None.
Proof.
  revert p. induction s as [|a s IH]; intros p Hs; rewrite go_star_any; [reflexivity|].
  unfold Text.lacks in Hs. simpl in Hs. apply andb_true_iff in Hs as [Ha Hs].
  apply negb_true_iff in Ha.
  rewrite (IH _ Hs). cbn [Re.seqs Re.go]. by rewrite Ha.
Qed.

Lemma star_any_last_closing (b c : string) (p : option ascii) :
  Text.lacks closing c = true ->
  Re.go (Re.Star Re.any) p (b +:+ String closing c) close_then_stop = Some c.
Proof.
  intros Hc. revert p. induction b as [|x b IH]; intros p.
  - change (EmptyString +:+ String closing c) with (String closing c).
    rewrite go_star_any, (star_any_no_closing _ _ Hc). cbn [Re.seqs Re.go].
    by rewrite Ascii.eqb_refl.
  - change (String x b +:+ String closing c) with (String x (b +:+ String closing c)).
    by rewrite go_star_any, IH.
Qed.

Lemma match_block_step (prev : option ascii) (a : ascii) (s : string) :
  Re.match_at block_pattern prev (String a s)
  = if Ascii.eqb a opening
    then Re.go (Re.Star Re.any) (Some a) s close_then_stop else None.
Proof. reflexivity. Qed.

Lemma search_block_none (s : string) (prev : option ascii) (i : nat) :
  Text.lacks opening s = true \/ Text.lacks closing s = true ->
  Re.search_from block_pattern prev s i = None.
Proof.
  intros [Hs|Hs]; [by apply search_from_lacks|].
  revert prev i. induction s as [|a s IH]; intros prev i; [reflexivity|].
  pose proof (all_chars_tail _ _ _ Hs) as Hs'.
  cbn [Re.search_from]. rewrite match_block_step.
  rewrite (star_any_no_closing _ _ Hs').
  destruct (Ascii.eqb a opening); by apply IH.
Qed.

Lemma search_block_found (a b c : string) (prev : option ascii) (i : nat) :
  Text.lacks opening a = true ->
  Text.lacks closing c = true ->
  Re.search_from block_pattern prev (a +:+ String opening (b +:+ String closing c)) i
  = Some (i + String.length a, String opening (b +:+ String closing EmptyString)).
Proof.
  intros Ha Hc. revert prev i. induction a as [|x a IH]; intros prev i.
  - change (EmptyString +:+ String opening (b +:+ String closing c))
      with (String opening (b +:+ String closing c)).
    cbn [Re.search_from]. rewrite match_block_step, Ascii.eqb_refl.
    rewrite (star_any_last_closing _ _ _ Hc).
    replace (String opening (b +:+ String closing c))
      with (String opening (b +:+ String closing EmptyString) +:+ c).
    + rewrite take_append. cbn [String.length]. do 2 f_equal. lia.
    + change (String opening ((b +:+ String closing EmptyString) +:+ c)
              = String opening (b +:+ String closing c)).
      by rewrite append_assoc.
  - unfold Text.lacks in Ha. cbn [Text.all_chars] in Ha.
    apply andb_true_iff in Ha as [Hx Ha]. apply negb_true_iff in Hx.
    change (String x a +:+ String opening (b +:+ String closing c))
      with (String x (a +:+ String opening (b +:+ String closing c))).
    cbn [Re.search_from]. rewrite match_block_step, Hx.
    rewrite (IH Ha). cbn [String.length]. do 2 f_equal. lia.
Qed.

End Blocks.

Lemma rstrip_keeps_last (x : string) (z : ascii) :
  Str.isspace z = false ->
  Str.rstrip (x +:+ String z EmptyString) = x +:+ String z EmptyString.
Proof.
  intros Hz. induction x as [|a x IH].
  - change (EmptyString +:+ String z EmptyString) with (String z EmptyString).
    cbn [Str.rstrip]. by rewrite Hz.
  - change (String a x +:+ String z EmptyString)
      with (String a (x +:+ String z EmptyString)).
    cbn [Str.rstrip]. rewrite IH.
    destruct x; reflexivity.
Qed.

Lemma strip_delimited (o z : ascii) (b : string) :
  Str.isspace o = false -> Str.isspace z = false ->
  Str.strip (String o (b +:+ String z EmptyString)) = String o (b +:+ String z EmptyString).
Proof.
  intros Ho Hz. unfold Str.strip. cbn [Str.lstrip]. rewrite Ho.
  apply (rstrip_keeps_last (String o b) z Hz).
Qed.

Lemma endswith_last (x : string) (z : ascii) :
  Str.endswith (String z EmptyString) (x +:+ String z EmptyString) = true.
Proof.
  induction x as [|a x IH].
  - change (EmptyString +:+ String z EmptyString) with (String z EmptyString).
    cbn [Str.endswith]. by rewrite String.eqb_refl.
  - change (String a x +:+ String z EmptyString)
      with (String a (x +:+ String z EmptyString)).
    cbn [Str.endswith]. by rewrite IH, orb_true_r.
Qed.

Section BlockChoice.

Variable lib : json_library.

(** X18: a reply that lacks an opening or a closing brace, and lacks an
    opening or a closing bracket, holds no block: once the direct
    validation has failed, the result is the empty list, without any
    further call of the libraries. *)
Theorem recover_without_block (raw : string) :
  Text.lacks "{" raw = true \/ Text.lacks "}" raw = true ->
  Text.lacks "[" raw = true \/ Text.lacks "]" raw = true ->
  Extraction._extract_json_block raw = None /\
  Extraction.recover lib raw = Returned [].
Proof.
  intros Hobj Harr.
  assert (E : Extraction._extract_json_block raw = None).
  { unfold Extraction._extract_json_block, Re.search,
      Extraction.object_block, Extraction.array_block.
    rewrite (search_block_none "{" "}" raw None 0 Hobj).
    by rewrite (search_block_none "[" "]" raw None 0 Harr). }
  split; [exact E|]. unfold Extraction.recover. by rewrite E.
Qed.

(** X19: when the reply has an opening brace and, after it, a closing
    brace, the block is the text from the first opening brace to the last
    closing brace, whatever stands around or inside it; it is validated as
    it is and the array wrapping is never applied. *)
Theorem recover_takes_outermost_braces (a b c : string) :
  Text.lacks "{" a = true ->
  Text.lacks "}" c = true ->
  let raw := a +:+ String "{" (b +:+ String "}" c) in
  let block := String "{" (b +:+ "}") in
  Extraction._extract_json_block raw = Some block /\
  Extraction.recover lib raw = model_validate_json lib block.
Proof.
  intros Ha Hc raw block.
  assert (E : Extraction._extract_json_block raw = Some block).
  { unfold Extraction._extract_json_block, Re.search, Extraction.object_block.
    subst raw. by rewrite (search_block_found "{" "}" a b c None 0 Ha Hc). }
  split; [exact E|].
  unfold Extraction.recover. rewrite E. subst block. cbv zeta.
  rewrite (strip_delimited "{" "}" b) by reflexivity. reflexivity.
Qed.

(** X20: the array wrapping is applied when the reply lacks an opening or
    a closing brace:
    the block from the first opening bracket to the last closing bracket
    is parsed, wrapped under [specs], and validated; a failure to parse it
    is raised (and absorbed by the caller). *)
Theorem recover_wraps_array (a b c : string) :
  let raw := a +:+ String "[" (b +:+ String "]" c) in
  let block := String "[" (b +:+ "]") in
  Text.lacks "{" raw = true \/ Text.lacks "}" raw = true ->
  Text.lacks "[" a = true ->
  Text.lacks "]" c = true ->
  Extraction._extract_json_block raw = Some block /\
  Extraction.recover lib raw
  = (parsed ← json_loads lib block;
     model_validate_json lib (json_dumps_specs lib parsed)).
Proof.
  intros raw block Hobj Ha Hc.
  assert (E : Extraction._extract_json_block raw = Some block).
  { unfold Extraction._extract_json_block, Re.search,
      Extraction.object_block, Extraction.array_block.
    rewrite (search_block_none "{" "}" raw None 0 Hobj).
    subst raw. by rewrite (search_block_found "[" "]" a b c None 0 Ha Hc). }
  split; [exact E|].
  unfold Extraction.recover. rewrite E. subst block. cbv zeta.
  rewrite (strip_delimited "[" "]" b) by reflexivity.
  assert (Hstart : Str.startswith "[" (String "[" (b +:+ "]")) = true).
  { unfold Str.startswith.
    change (String.prefix "[" (String "[" (b +:+ "]")))
      with (String.prefix EmptyString (b +:+ "]")).
    by destruct (b +:+ "]"). }
  rewrite Hstart.
  pose proof (endswith_last (String "[" b) "]") as Hend.
  change (String "[" b +:+ "]") with (String "[" (b +:+ "]")) in Hend.
  rewrite Hend.
  cbn [andb]. destruct (json_loads lib _); reflexivity.
Qed.

End BlockChoice.

Lemma recover_without_block_witness :
  Extraction._extract_json_block "I found no specifications ]." = None /\
  Extraction.recover JsonText.library "I found no specifications ]." = Returned [].
Proof.
  apply (recover_without_block JsonText.library "I found no specifications ].").
  - left. reflexivity.
  - left. reflexivity.
Defined.

Lemma recover_takes_outermost_braces_witness :
  Extraction._extract_json_block Samples.narrative_array = Some Samples.object_X /\
  Extraction.recover JsonText.library Samples.narrative_array
  = model_validate_json JsonText.library Samples.object_X.
Proof.
  apply (recover_takes_outermost_braces JsonText.library
           "Here are the specifications I found: ["
           (Samples.member_text "component" "X" +:+ "," +:+
            Samples.member_text "value" "1" +:+ "," +:+ Samples.member_text "unit" "")
           "] Let me know if you need more.").
  - reflexivity.
  - reflexivity.
Defined.

Lemma recover_wraps_array_witness :
  Extraction._extract_json_block "No specifications found: [] (checked 3 pages)"
  = Some "[]" /\
  Extraction.recover JsonText.library "No specifications found: [] (checked 3 pages)"
  = (parsed ← json_loads JsonText.library "[]";
     model_validate_json JsonText.library (json_dumps_specs JsonText.library parsed)).
Proof.
  apply (recover_wraps_array JsonText.library "No specifications found: " ""
           " (checked 3 pages)").
  - left. reflexivity.
  - reflexivity.
  - reflexivity.
Defined.

(* ================================================================== *)
(** ** Query processor: order and stability of the deduplication *)

Lemma dedup_fold_keys (specs : list SpecItem)
    (u : list (string * string * string * SpecItem)) :
  (fold_left (fun unique s => Processor.dict_set (Processor.spec_key s) s unique) specs u).*1
  = fold_left (fun ks k => if decide (k ∈ ks) then ks else ks ++ [k])
      (Processor.spec_key <$> specs) u.*1.
Proof.
  revert u. induction specs as [|s specs IH]; intros u; [reflexivity|].
  cbn [fold_left fmap list_fmap]. rewrite IH, dict_set_keys. reflexivity.
Qed.

Lemma first_occurrences_fold {A : Type} `{EqDecision A} (ks : list A) :
  fold_left (fun ks k => if decide (k ∈ ks) then ks else ks ++ [k]) ks []
  = reverse (remove_dups (reverse ks)).
Proof.
  induction ks as [|k ks IH] using rev_ind; [reflexivity|].
  rewrite fold_left_app. cbn [fold_left]. rewrite IH.
  rewrite reverse_app. cbn [reverse rev_append remove_dups].
  change (rev_append [] [k]) with [k]. cbn [app remove_dups].
  destruct (decide (k ∈ reverse (remove_dups (reverse ks)))) as [Hin|Hnin];
    destruct (decide_rel elem_of k (reverse ks)) as [Hin'|Hnin']; try reflexivity.
  - exfalso. apply Hnin'.
    by rewrite elem_of_reverse, elem_of_remove_dups in Hin.
  - exfalso. apply Hnin. by rewrite elem_of_reverse, elem_of_remove_dups.
  - by rewrite reverse_cons.
Qed.

Lemma dedup_keyed (specs : list SpecItem) :
  forall k v,
    (k, v) ∈ fold_left (fun unique s => Processor.dict_set (Processor.spec_key s) s unique)
               specs [] ->
    Processor.spec_key v = k.
Proof.
  destruct (dedup_loop_invariant specs [] []) as [_ Hinv].
  { apply NoDup_nil_2. }
  { intros k v. split.
    - intros H. inversion H.
    - intros (_ & l1 & l2 & Heq & _). destruct l1; discriminate Heq. }
  intros k v Hin. by apply Hinv in Hin as [? _].
Qed.

(** X21: the entries of the deduplicated list stand in the order in which
    their keys first occur in the input (while each entry is the last item
    of its key): the keys of the result are the keys of the input with
    every repeated occurrence removed. *)
Theorem dedup_first_occurrence_order (specs : list SpecItem) :
  Processor.spec_key <$> Processor.dedup specs
  = reverse (remove_dups (reverse (Processor.spec_key <$> specs))).
Proof.
  unfold Processor.dedup.
  rewrite keyed_values_keys by apply dedup_keyed.
  rewrite dedup_fold_keys. apply first_occurrences_fold.
Qed.

Lemma dict_set_fresh (k : string * string * string) (s : SpecItem)
    (u : list (string * string * string * SpecItem)) :
  k ∉ u.*1 -> Processor.dict_set k s u = u ++ [(k, s)].
Proof.
  induction u as [|[k0 v0] u IH]; intros Hk; [reflexivity|].
  cbn [Processor.dict_set]. cbn [fmap list_fmap fst] in Hk.
  destruct (decide (k0 = k)) as [->|Hne].
  - exfalso. apply Hk, elem_of_cons. by left.
  - cbn [app]. f_equal. apply IH. intros Hin. apply Hk, elem_of_cons. by right.
Qed.

Lemma dedup_fold_distinct (specs : list SpecItem)
    (u : list (string * string * string * SpecItem)) :
  NoDup (u.*1 ++ (Processor.spec_key <$> specs)) ->
  fold_left (fun unique s => Processor.dict_set (Processor.spec_key s) s unique) specs u
  = u ++ ((fun s => (Processor.spec_key s, s)) <$> specs).
Proof.
  revert u. induction specs as [|s specs IH]; intros u Hnd.
  - by rewrite app_nil_r.
  - cbn [fold_left fmap list_fmap] in *.
    apply NoDup_app in Hnd as (Hu & Hdisj & Hspecs).
    apply NoDup_cons in Hspecs as [Hs Hspecs].
    rewrite dict_set_fresh.
    + rewrite IH.
      * by rewrite <- app_assoc.
      * rewrite fmap_app. cbn [fmap list_fmap fst]. rewrite <- app_assoc. cbn [app].
        apply NoDup_app. split; [exact Hu|]. split.
        -- intros x Hx Hx'. by apply (Hdisj x).
        -- by apply NoDup_cons.
    + intros Hin. apply (Hdisj _ Hin), elem_of_cons. by left.
Qed.

Lemma keyed_values (specs : list SpecItem) :
  ((fun s => (Processor.spec_key s, s)) <$> specs).*2 = specs.
Proof.
  induction specs as [|s specs IH]; [reflexivity|].
  cbn [fmap list_fmap snd]. by rewrite IH.
Qed.

(** X22: a list whose items have pairwise different keys passes through
    the deduplication unchanged. *)
Theorem dedup_distinct_keys (specs : list SpecItem) :
  NoDup (Processor.spec_key <$> specs) ->
  Processor.dedup specs = specs.
Proof.
  intros Hnd. unfold Processor.dedup.
  rewrite (dedup_fold_distinct specs []) by exact Hnd.
  apply keyed_values.
Qed.

Lemma remove_dups_length {A : Type} `{EqDecision A} (l : list A) :
  length (remove_dups l) <= length l.
Proof.
  induction l as [|x l IH]; [reflexivity|].
  cbn [remove_dups]. destruct (decide_rel elem_of x l); cbn [length]; lia.
Qed.

(** X23: deduplicating twice changes nothing more, and the result is never
    longer than the input. *)
Theorem dedup_idempotent (specs : list SpecItem) :
  Processor.dedup (Processor.dedup specs) = Processor.dedup specs /\
  length (Processor.dedup specs) <= length specs.
Proof.
  split.
  - unfold Processor.dedup at 1.
    rewrite (dedup_fold_distinct (Processor.dedup specs) []) by apply dedup_spec.
    apply keyed_values.
  - assert (Hlen : length (Processor.spec_key <$> Processor.dedup specs)
                   <= length (Processor.spec_key <$> specs)).
    { assert (Hkeys : Processor.spec_key <$> Processor.dedup specs
                      = reverse (remove_dups (reverse (Processor.spec_key <$> specs)))).
      { unfold Processor.dedup. rewrite keyed_values_keys by apply dedup_keyed.
        rewrite dedup_fold_keys. apply first_occurrences_fold. }
      rewrite Hkeys, length_reverse.
      etransitivity; [apply remove_dups_length|].
      by rewrite length_reverse. }
    by rewrite !length_fmap in Hlen.
Qed.

Lemma dedup_distinct_keys_witness :
  Processor.dedup
    [Spec.mkSpecItem "Bolt" "35" "Nm" None None; Spec.mkSpecItem "Bolt" "35" "lb-ft" None None]
  = [Spec.mkSpecItem "Bolt" "35" "Nm" None None; Spec.mkSpecItem "Bolt" "35" "lb-ft" None None].
Proof.
  apply (dedup_distinct_keys
           [Spec.mkSpecItem "Bolt" "35" "Nm" None None;
            Spec.mkSpecItem "Bolt" "35" "lb-ft" None None]).
  vm_compute. apply NoDup_cons. split; [|apply NoDup_singleton].
  intros H. apply list_elem_of_singleton in H. discriminate H.
Defined.

(* ================================================================== *)
(** ** Query processor: context and failures *)

Section ContextProps.

Variable py : float_text.
Variable lib : json_library.

(** X24: a failure of the vector index does not stop the query: the
    retriever returns no candidates, the context is empty, and the model is
    still asked; the answer is the deduplicated extraction from the empty
    context. *)
Theorem answer_query_survives_index_failure (w : world) (self : QueryProcessor)
    (vs query : string) (e : exn) :
  vectorstore self = Some vs ->
  index_reply w vs query 15 = Raised e ->
  run w (Processor.answer_query py lib self query)
  = (mkQueryProcessor (index_name self) (Some vs) EmptyString,
     Returned (Processor.dedup
                 (run w (Extraction.extract_specs lib query EmptyString
                           (QueryType_value (run w (Classifier.classify_query query))))))).
Proof.
  intros Hvs Hreply. unfold Processor.answer_query. rewrite Hvs.
  rewrite !run_bind.
  set (query_type := run w (Classifier.classify_query query)).
  assert (Hretrieved :
            run w (Retriever.retrieve vs query (QueryType_value query_type) 15) = Returned []).
  { simpl. by rewrite Hreply. }
  rewrite Hretrieved.
  change (initial_docs ← Returned [];
          Processor.build_context py initial_docs query (QueryType_value query_type))
    with (Returned (A := string) EmptyString).
  cbv iota beta. rewrite run_bind. reflexivity.
Qed.

(** X25: the context is built from the six best chunks at most: it is the
    blocks of the first six chunks of the ranking, numbered from 1 and
    joined by a newline. *)
Theorem build_context_top_six (initial_docs : list Document)
    (query query_type_str context : string) :
  Processor.build_context py initial_docs query query_type_str = Returned context ->
  exists ranked blocks,
    Reranker.rerank_documents py initial_docs query query_type_str = Returned ranked /\
    length blocks = length initial_docs `min` 6 /\
    context = Str.join newline blocks /\
    forall i d, i < 6 -> ranked !! i = Some d ->
      exists block, blocks !! i = Some block /\
                    Processor.context_block py (i + 1) d = Returned block.
Proof.
  unfold Processor.build_context. intros H.
  destruct (omapM _ initial_docs) as [l1|?]; [|discriminate H]. cbn [mbind outcome_bind] in H.
  destruct (Reranker.rerank_documents py initial_docs query query_type_str)
    as [ranked|?] eqn:Hrank; [|discriminate H]. cbn [mbind outcome_bind] in H.
  destruct (omapM _ (take 6 ranked)) as [l2|?]; [|discriminate H].
  cbn [mbind outcome_bind] in H.
  destruct (omapM _ (imap _ (take 6 ranked))) as [blocks|?] eqn:Hblocks; [|discriminate H].
  cbn [mbind outcome_bind] in H. injection H as <-.
  apply omapM_Forall2 in Hblocks.
  exists ranked, blocks. split; [reflexivity|].
  assert (Hlen : length ranked = length initial_docs).
  { destruct (rerank_unfold py _ _ _ _ Hrank) as (scored & Hscored & Heq).
    rewrite Heq, sorted_desc_perm. symmetry. by eapply Forall2_length. }
  split.
  { rewrite <- (Forall2_length _ _ _ Hblocks), length_imap, length_take. lia. }
  split; [reflexivity|].
  intros i d Hi Hd.
  assert (Himap : imap (fun i d => Processor.context_block py (i + 1) d) (take 6 ranked) !! i
                  = Some (Processor.context_block py (i + 1) d)).
  { rewrite list_lookup_imap, lookup_take_lt by exact Hi. by rewrite Hd. }
  destruct (Forall2_lookup_l _ _ _ _ _ Hblocks Himap) as (block & Hblock & Heq).
  eauto.
Qed.

End ContextProps.

Lemma answer_query_survives_index_failure_witness :
  run (mkWorld (model_reply (Samples.world_answering Samples.wrapped_reply))
               (fun _ _ _ => Raised (OtherException "index unavailable")))
      (Processor.answer_query Samples.plain_floats JsonText.library Samples.loaded
         "rear caliper bolt torque")
  = (mkQueryProcessor "spec_index" (Some "spec_index") EmptyString,
     Returned [Spec.mkSpecItem "Rear caliper bolt" "35" "Nm" (Some 42%Z) None]).
Proof.
  rewrite (answer_query_survives_index_failure Samples.plain_floats JsonText.library
             (mkWorld (model_reply (Samples.world_answering Samples.wrapped_reply))
                      (fun _ _ _ => Raised (OtherException "index unavailable")))
             Samples.loaded "spec_index" "rear caliper bolt torque"
             (OtherException "index unavailable")); [|reflexivity|reflexivity].
  vm_compute. reflexivity.
Defined.

Lemma build_context_top_six_witness :
  exists ranked blocks,
    Reranker.rerank_documents Samples.plain_floats Cases.eight_chunks "bolt torque" "spec"
    = Returned ranked /\
    length blocks = length Cases.eight_chunks `min` 6 /\
    Cases.context_of_eight = Str.join newline blocks /\
    forall i d, i < 6 -> ranked !! i = Some d ->
      exists block, blocks !! i = Some block /\
                    Processor.context_block Samples.plain_floats (i + 1) d = Returned block.
Proof.
  apply (build_context_top_six Samples.plain_floats Cases.eight_chunks "bolt torque" "spec"
           Cases.context_of_eight).
  vm_compute. reflexivity.
Defined.

(* ================================================================== *)
(** ** Plain-text parser: the pages before the first failure *)

Lemma load_pages_lookup (file_path : string) (pages : list (outcome string)) :
  forall i j d,
    PyMuPDFParser.load_pages file_path i pages !! j = Some d ->
    exists raw_text,
      pages !! j = Some (Returned raw_text) /\
      d = PyMuPDFParser.page_document file_path (i + j) raw_text.
Proof.
  induction pages as [|[raw|e] rest IH]; intros i j d Hd; simpl in Hd.
  - discriminate.
  - destruct j as [|j]; simpl in Hd.
    + injection Hd as <-. exists raw. split; [reflexivity|]. by rewrite Nat.add_0_r.
    + destruct (IH _ _ _ Hd) as (raw' & Hraw & ->). exists raw'.
      split; [exact Hraw|]. f_equal. lia.
  - discriminate.
Qed.

Lemma load_pages_length (file_path : string) (pages : list (outcome string)) :
  forall i j,
    j < length (PyMuPDFParser.load_pages file_path i pages) <->
    forall k, k <= j -> exists raw_text, pages !! k = Some (Returned raw_text).
Proof.
  induction pages as [|[raw|e] rest IH]; intros i j; simpl.
  - split; [lia|]. intros H. destruct (H 0) as [? ?]; [lia|discriminate].
  - destruct j as [|j].
    + split; [|lia]. intros _ k Hk. assert (k = 0) as -> by lia. by exists raw.
    + rewrite <- Nat.succ_lt_mono, (IH (S i) j). split.
      * intros H [|k] Hk; [by exists raw|]. apply H. lia.
      * intros H k Hk. apply (H (S k)). lia.
  - split; [lia|]. intros H. destruct (H 0) as [? ?]; [lia|discriminate].
Qed.

(** X6: once the file is open the plain-text parser does not raise.  It
    returns the pages that come before the first page whose text cannot be
    read, and nothing of what follows it: position [j] is in the result
    exactly when the pages 0 to [j] were all read.  The document at
    position [j] holds the normalized text of page [j], is numbered
    [j + 1], tagged [parser = "pymupdf"] and names the file as its source. *)
Theorem pymupdf_pages_until_failure
    (fitz_open : string -> outcome (list (outcome string))) (file_path : string)
    (pages : list (outcome string)) :
  fitz_open file_path = Returned pages ->
  exists docs,
    PyMuPDFParser.load fitz_open file_path = Returned docs /\
    (forall j, j < length docs <->
               forall k, k <= j -> exists raw_text, pages !! k = Some (Returned raw_text)) /\
    forall j d, docs !! j = Some d ->
      exists raw_text,
        pages !! j = Some (Returned raw_text) /\
        page_content d = PyMuPDFParser.normalize_whitespace raw_text /\
        metadata d !! "page" = Some (VInt (Z.of_nat j + 1)) /\
        metadata d !! "parser" = Some (VStr "pymupdf") /\
        metadata d !! "source" = Some (VStr file_path).
Proof.
  intros Hopen. unfold PyMuPDFParser.load. rewrite Hopen. simpl.
  eexists. split; [reflexivity|]. split; [apply load_pages_length|].
  intros j d Hd. destruct (load_pages_lookup _ _ _ _ _ Hd) as (raw & Hraw & ->).
  exists raw. split; [exact Hraw|]. split; [reflexivity|].
  unfold PyMuPDFParser.page_document. simpl. repeat split; by simplify_map_eq.
Qed.

Lemma pymupdf_pages_until_failure_witness :
  exists docs,
    PyMuPDFParser.load Cases.open_damaged "manual.pdf" = Returned docs /\
    (forall j, j < length docs <->
               forall k, k <= j ->
                 exists raw_text, Cases.damaged_pages !! k = Some (Returned raw_text)) /\
    forall j d, docs !! j = Some d ->
      exists raw_text,
        Cases.damaged_pages !! j = Some (Returned raw_text) /\
        page_content d = PyMuPDFParser.normalize_whitespace raw_text /\
        metadata d !! "page" = Some (VInt (Z.of_nat j + 1)) /\
        metadata d !! "parser" = Some (VStr "pymupdf") /\
        metadata d !! "source" = Some (VStr "manual.pdf").
Proof.
  apply (pymupdf_pages_until_failure Cases.open_damaged "manual.pdf" Cases.damaged_pages).
  reflexivity.
Defined.

Example pymupdf_stops_at_damaged_page :
  (page_content <$> PyMuPDFParser.load_pages "manual.pdf" 0 Cases.damaged_pages,
   (fun d => metadata d !! "section") <$>
     PyMuPDFParser.load_pages "manual.pdf" 0 Cases.damaged_pages)
  = (["SECTION 204: Front Brakes" +:+ newline +:+ "Caliper bolt 35 Nm"; "Fig. 3"],
     [Some (VStr "SECTION 204: Front Brakes"); Some (VStr EmptyString)]).
Proof. vm_compute. reflexivity. Qed.

(* ================================================================== *)
(** ** Structured parser: all pages or none *)

(** Both attributes of the element can be read. *)
Abbreviation readable p :=
  ((exists content, LlamaParser.parsed_page_content p = Returned content) /\
   (exists meta, LlamaParser.parsed_metadata p = Returned meta)).

Lemma llama_page_document_returns (file_path : string) (idx : nat) (p : LlamaParser.parsed) :
  (exists d, LlamaParser.page_document file_path idx p = Returned d) <-> readable p.
Proof.
  unfold LlamaParser.page_document.
  destruct (LlamaParser.parsed_page_content p) as [content|e]; simpl.
  - destruct (LlamaParser.parsed_metadata p) as [meta|e]; simpl.
    + split; eauto.
    + split; [intros [? ?]; discriminate|intros [_ [? ?]]; discriminate].
  - split; [intros [? ?]; discriminate|intros [[? ?] _]; discriminate].
Qed.

Lemma load_results_returns (file_path : string) (results : list LlamaParser.parsed) :
  forall idx,
    (exists docs, LlamaParser.load_results file_path idx results = Returned docs) <->
    Forall (fun p => readable p) results.
Proof.
  induction results as [|p rest IH]; intros idx; simpl.
  - split; eauto.
  - rewrite Forall_cons, <- (IH (S idx)), <- (llama_page_document_returns file_path idx p).
    destruct (LlamaParser.page_document file_path idx p) as [d|e]; simpl.
    + destruct (LlamaParser.load_results file_path (S idx) rest) as [docs|e]; simpl.
      * split; eauto.
      * split; [intros [? ?]; discriminate|intros [_ [? ?]]; discriminate].
    + split; [intros [? ?]; discriminate|intros [[? ?] _]; discriminate].
Qed.

Lemma load_results_lookup (file_path : string) (results : list LlamaParser.parsed) :
  forall idx docs,
    LlamaParser.load_results file_path idx results = Returned docs ->
    length docs = length results /\
    forall j d, docs !! j = Some d ->
      exists p, results !! j = Some p /\
                LlamaParser.page_document file_path (idx + j) p = Returned d.
Proof.
  induction results as [|p rest IH]; intros idx docs Hdocs; simpl in Hdocs.
  - injection Hdocs as <-. split; [reflexivity|]. intros j d Hd. discriminate.
  - destruct (LlamaParser.page_document file_path idx p) as [d0|e] eqn:Hp; [|discriminate].
    simpl in Hdocs.
    destruct (LlamaParser.load_results file_path (S idx) rest) as [ds|e] eqn:Hrest;
      [|discriminate].
    simpl in Hdocs. injection Hdocs as <-.
    destruct (IH _ _ Hrest) as [Hlen Hlook]. split; [simpl; by rewrite Hlen|].
    intros [|j] d Hd; simpl in Hd.
    + injection Hd as <-. exists p. split; [reflexivity|]. by rewrite Nat.add_0_r.
    + destruct (Hlook _ _ Hd) as (p' & Hp' & Hdoc). exists p'. split; [exact Hp'|].
      by replace (idx + S j) with (S idx + j) by lia.
Qed.

(** X8: the structured parser returns all pages or none.  For the list
    that [load_data] returns, [load] returns documents exactly when both
    attributes of every element can be read; it then returns one document
    per element, in order, tagged [parser = "llamaparse"], whose [page] is
    the element's [page_number] when that is present and truthy, and its
    position + 1 otherwise (so a reported page number 0 is replaced). *)
Theorem llama_load_all_or_nothing
    (load_data : LlamaParser.client) (file_path : string)
    (results : list LlamaParser.parsed) :
  load_data file_path = Returned results ->
  ((exists docs, LlamaParser.load (Some load_data) file_path = Returned docs) <->
   Forall (fun p => readable p) results) /\
  forall docs, LlamaParser.load (Some load_data) file_path = Returned docs ->
    length docs = length results /\
    forall idx d, docs !! idx = Some d ->
      exists p meta,
        results !! idx = Some p /\
        LlamaParser.parsed_metadata p = Returned meta /\
        metadata d !! "parser" = Some (VStr "llamaparse") /\
        (forall v, meta !! "page_number" = Some v -> truthy v = true ->
                   metadata d !! "page" = Some v) /\
        (forall v, meta !! "page_number" = Some v -> truthy v = false ->
                   metadata d !! "page" = Some (VInt (Z.of_nat idx + 1))) /\
        (meta !! "page_number" = None ->
         metadata d !! "page" = Some (VInt (Z.of_nat idx + 1))).
Proof.
  intros Hdata. unfold LlamaParser.load. rewrite Hdata. simpl.
  split; [apply load_results_returns|].
  intros docs Hdocs. destruct (load_results_lookup _ _ _ _ Hdocs) as [Hlen Hlook].
  split; [exact Hlen|]. intros idx d Hd.
  destruct (Hlook _ _ Hd) as (p & Hp & Hdoc). simpl in Hdoc.
  unfold LlamaParser.page_document in Hdoc.
  destruct (LlamaParser.parsed_page_content p) as [content|e]; [|discriminate].
  simpl in Hdoc.
  destruct (LlamaParser.parsed_metadata p) as [meta|e] eqn:Hmeta; [|discriminate].
  simpl in Hdoc. injection Hdoc as <-.
  exists p, meta. split; [exact Hp|]. split; [exact Hmeta|]. simpl.
  split; [by simplify_map_eq|].
  rewrite lookup_insert_eq.
  split; [|split].
  - intros v Hv Ht. by rewrite Hv, Ht.
  - intros v Hv Ht. by rewrite Hv, Ht.
  - intros Hv. by rewrite Hv.
Qed.

Lemma llama_load_all_or_nothing_witness :
  ((exists docs, LlamaParser.load (Some Cases.llama_two_pages) "manual.pdf" = Returned docs) <->
   Forall (fun p => readable p) Cases.two_parsed_pages) /\
  forall docs, LlamaParser.load (Some Cases.llama_two_pages) "manual.pdf" = Returned docs ->
    length docs = length Cases.two_parsed_pages /\
    forall idx d, docs !! idx = Some d ->
      exists p meta,
        Cases.two_parsed_pages !! idx = Some p /\
        LlamaParser.parsed_metadata p = Returned meta /\
        metadata d !! "parser" = Some (VStr "llamaparse") /\
        (forall v, meta !! "page_number" = Some v -> truthy v = true ->
                   metadata d !! "page" = Some v) /\
        (forall v, meta !! "page_number" = Some v -> truthy v = false ->
                   metadata d !! "page" = Some (VInt (Z.of_nat idx + 1))) /\
        (meta !! "page_number" = None ->
         metadata d !! "page" = Some (VInt (Z.of_nat idx + 1))).
Proof.
  apply (llama_load_all_or_nothing Cases.llama_two_pages "manual.pdf" Cases.two_parsed_pages).
  reflexivity.
Defined.

Example llama_page_number_zero :
  match LlamaParser.load (Some Cases.llama_two_pages) "manual.pdf" with
  | Returned docs => (fun d : Document => metadata d !! "page") <$> docs
  | Raised _ => []
  end = [Some (VInt 12); Some (VInt 2)].
Proof. vm_compute. reflexivity. Qed.

(* ================================================================== *)
(** ** Parse manager *)

(** The document names its page, its section, the file as its source and
    one of the three producers as its parser. *)
Abbreviation provenance file_path d :=
  (is_Some (metadata d !! "page") /\
   is_Some (metadata d !! "section") /\
   metadata d !! "source" = Some (VStr file_path) /\
   (metadata d !! "parser" = Some (VStr "llamaparse") \/
    metadata d !! "parser" = Some (VStr "pymupdf") \/
    metadata d !! "parser" = Some (VStr "ocr"))).

Lemma pymupdf_page_provenance (file_path : string) (i : nat) (raw_text : string) :
  provenance file_path (PyMuPDFParser.page_document file_path i raw_text).
Proof.
  unfold PyMuPDFParser.page_document. simpl.
  split; [by simplify_map_eq|]. split; [by simplify_map_eq|].
  split; [by simplify_map_eq|]. right. left. by simplify_map_eq.
Qed.

Lemma load_pages_provenance (file_path : string) (pages : list (outcome string)) (i : nat) :
  Forall (fun d => provenance file_path d) (PyMuPDFParser.load_pages file_path i pages).
Proof.
  apply Forall_lookup. intros j d Hd.
  destruct (load_pages_lookup _ _ _ _ _ Hd) as (raw & _ & ->).
  apply pymupdf_page_provenance.
Qed.

Lemma llama_page_provenance (file_path : string) (idx : nat) (p : LlamaParser.parsed)
    (d : Document) :
  LlamaParser.page_document file_path idx p = Returned d -> provenance file_path d.
Proof.
  unfold LlamaParser.page_document.
  destruct (LlamaParser.parsed_page_content p) as [content|e]; [|discriminate]. simpl.
  destruct (LlamaParser.parsed_metadata p) as [meta|e]; [|discriminate]. simpl.
  intros [= <-]. simpl.
  split; [by simplify_map_eq|]. split; [by simplify_map_eq|].
  split; [by simplify_map_eq|]. left. by simplify_map_eq.
Qed.

Lemma load_results_provenance (file_path : string) (results : list LlamaParser.parsed)
    (idx : nat) (docs : list Document) :
  LlamaParser.load_results file_path idx results = Returned docs ->
  Forall (fun d => provenance file_path d) docs.
Proof.
  intros Hdocs. apply Forall_lookup. intros j d Hd.
  destruct (proj2 (load_results_lookup _ _ _ _ Hdocs) _ _ Hd) as (p & _ & Hdoc).
  exact (llama_page_provenance _ _ _ _ Hdoc).
Qed.

Lemma pymupdf_load_provenance
    (fitz_open_text : string -> outcome (list (outcome string))) (file_path : string)
    (docs : list Document) :
  PyMuPDFParser.load fitz_open_text file_path = Returned docs ->
  Forall (fun d => provenance file_path d) docs.
Proof.
  unfold PyMuPDFParser.load. destruct (fitz_open_text file_path) as [pages|e]; [|discriminate].
  simpl. intros [= <-]. apply load_pages_provenance.
Qed.

(** The outcome of step 1 in terms of the two parsers. *)
Lemma parse_cases (llama : option LlamaParser.client)
    (fitz_open_text : string -> outcome (list (outcome string))) (file_path : string) :
  (exists d ds, LlamaParser.load llama file_path = Returned (d :: ds) /\
                ParseManager.parse llama fitz_open_text file_path = Returned (d :: ds)) \/
  (((exists e, LlamaParser.load llama file_path = Raised e) \/
    LlamaParser.load llama file_path = Returned []) /\
   ParseManager.parse llama fitz_open_text file_path
   = PyMuPDFParser.load fitz_open_text file_path).
Proof.
  unfold ParseManager.parse. destruct llama as [c|].
  - destruct (LlamaParser.load (Some c) file_path) as [[|d ds]|e]; simpl.
    + right. split; [by right|reflexivity].
    + left. by exists d, ds.
    + right. split; [left; by exists e|reflexivity].
  - right. split; [left; by eexists|reflexivity].
Qed.

Lemma parse_provenance (llama : option LlamaParser.client)
    (fitz_open_text : string -> outcome (list (outcome string))) (file_path : string)
    (docs : list Document) :
  ParseManager.parse llama fitz_open_text file_path = Returned docs ->
  Forall (fun d => provenance file_path d) docs.
Proof.
  intros Hparse.
  destruct (parse_cases llama fitz_open_text file_path)
    as [(d & ds & Hload & Heq)|[_ Heq]]; rewrite Heq in Hparse.
  - injection Hparse as <-. destruct llama as [c|]; [|discriminate].
    unfold LlamaParser.load in Hload.
    destruct (c file_path) as [results|e]; [|discriminate]. simpl in Hload.
    exact (load_results_provenance _ _ _ _ Hload).
  - exact (pymupdf_load_provenance _ _ _ Hparse).
Qed.

Lemma ocr_page_provenance (file_path : string) (pdf : OCREngine.pdf_handle) (idx : nat)
    (doc : Document) :
  provenance file_path doc -> provenance file_path (OCREngine.ocr_page file_path pdf idx doc).
Proof.
  intros Hdoc. unfold OCREngine.ocr_page.
  destruct (OCREngine.MIN_TEXT_CHARS <=? _); [exact Hdoc|].
  destruct (pdf idx) as [raw|e]; [|by destruct e].
  destruct (String.length (OCREngine.clean_ocr_text raw) <? 5); [exact Hdoc|].
  simpl. split; [by simplify_map_eq|]. split; [by simplify_map_eq|].
  split; [by simplify_map_eq|]. right. right. by simplify_map_eq.
Qed.

Lemma ocr_pages_provenance (fitz_open : string -> outcome OCREngine.pdf_handle)
    (file_path : string) (docs : list Document) :
  Forall (fun d => provenance file_path d) docs ->
  Forall (fun d => provenance file_path d)
         (OCREngine.ocr_pages_if_empty fitz_open file_path docs).
Proof.
  intros Hdocs. unfold OCREngine.ocr_pages_if_empty.
  destruct (fitz_open file_path) as [pdf|e]; [|exact Hdocs].
  apply Forall_lookup. intros i d Hd. rewrite list_lookup_imap in Hd.
  destruct (docs !! i) as [doc|] eqn:Hdoc; [|discriminate].
  simpl in Hd. injection Hd as <-. apply ocr_page_provenance.
  exact (proj1 (Forall_lookup _ _) Hdocs _ _ Hdoc).
Qed.

Lemma setdefault_present (k : string) (v x : pyval) (d : gmap string pyval) :
  d !! k = Some x -> ParseManager.setdefault k v d = d.
Proof. intros H. unfold ParseManager.setdefault. by rewrite H. Qed.

Lemma fix_metadata_provenance (llama : option LlamaParser.client) (file_path : string)
    (d : Document) :
  provenance file_path d -> ParseManager.fix_metadata llama file_path d = d.
Proof.
  intros ([page Hpage] & [section Hsection] & Hsource & Hparser).
  assert (exists parser, metadata d !! "parser" = Some parser) as [parser Hp]
    by (destruct Hparser as [?|[?|?]]; eauto).
  unfold ParseManager.fix_metadata.
  rewrite (setdefault_present _ _ _ _ Hpage), (setdefault_present _ _ _ _ Hsection),
    (setdefault_present _ _ _ _ Hsource), (setdefault_present _ _ _ _ Hp).
  by destruct d.
Qed.

Lemma fix_metadata_all (llama : option LlamaParser.client) (file_path : string)
    (docs : list Document) :
  Forall (fun d => provenance file_path d) docs ->
  ParseManager.fix_metadata llama file_path <$> docs = docs.
Proof.
  induction 1 as [|d docs Hd _ IH]; [reflexivity|].
  cbn [fmap list_fmap]. f_equal; [by apply fix_metadata_provenance|exact IH].
Qed.

Lemma load_after_parse (llama : option LlamaParser.client)
    (fitz_open_text : string -> outcome (list (outcome string)))
    (fitz_open : string -> outcome OCREngine.pdf_handle) (file_path : string)
    (parsed : list Document) :
  ParseManager.parse llama fitz_open_text file_path = Returned parsed ->
  ParseManager.load llama fitz_open_text fitz_open file_path
  = Returned (OCREngine.ocr_pages_if_empty fitz_open file_path parsed).
Proof.
  intros Hparse. unfold ParseManager.load. rewrite Hparse. simpl. f_equal.
  apply fix_metadata_all, ocr_pages_provenance.
  exact (parse_provenance _ _ _ _ Hparse).
Qed.

Lemma load_parse_raises (llama : option LlamaParser.client)
    (fitz_open_text : string -> outcome (list (outcome string)))
    (fitz_open : string -> outcome OCREngine.pdf_handle) (file_path : string) (e : exn) :
  ParseManager.parse llama fitz_open_text file_path = Raised e ->
  ParseManager.load llama fitz_open_text fitz_open file_path = Raised e.
Proof. intros Hparse. unfold ParseManager.load. by rewrite Hparse. Qed.

(** X26: the defaults of the last step are never used.  Every document
    that either parser or the OCR fallback produces already has [page],
    [section], [source] and [parser], so what [load] returns is exactly
    the output of the OCR fallback on the parsed pages. *)
Theorem parse_manager_defaults_unused (llama : option LlamaParser.client)
    (fitz_open_text : string -> outcome (list (outcome string)))
    (fitz_open : string -> outcome OCREngine.pdf_handle) (file_path : string) :
  ParseManager.load llama fitz_open_text fitz_open file_path
  = (docs ← ParseManager.parse llama fitz_open_text file_path;
     Returned (OCREngine.ocr_pages_if_empty fitz_open file_path docs)).
Proof.
  destruct (ParseManager.parse llama fitz_open_text file_path) as [parsed|e] eqn:Hparse.
  - by apply load_after_parse.
  - by apply load_parse_raises.
Qed.

(** X27: every document that [load] returns names its page and its
    section, has the path given to [load] as its [source], and has one of
    "llamaparse", "pymupdf" and "ocr" as its [parser]; the tag "llama" of
    the last step never occurs. *)
Theorem parse_manager_metadata_complete (llama : option LlamaParser.client)
    (fitz_open_text : string -> outcome (list (outcome string)))
    (fitz_open : string -> outcome OCREngine.pdf_handle) (file_path : string)
    (docs : list Document) :
  ParseManager.load llama fitz_open_text fitz_open file_path = Returned docs ->
  forall d, d ∈ docs ->
    is_Some (metadata d !! "page") /\
    is_Some (metadata d !! "section") /\
    metadata d !! "source" = Some (VStr file_path) /\
    (metadata d !! "parser" = Some (VStr "llamaparse") \/
     metadata d !! "parser" = Some (VStr "pymupdf") \/
     metadata d !! "parser" = Some (VStr "ocr")).
Proof.
  intros Hload.
  destruct (ParseManager.parse llama fitz_open_text file_path) as [parsed|e] eqn:Hparse.
  - rewrite (load_after_parse _ _ fitz_open _ _ Hparse) in Hload. injection Hload as <-.
    apply Forall_forall, ocr_pages_provenance.
    exact (parse_provenance _ _ _ _ Hparse).
  - rewrite (load_parse_raises _ _ fitz_open _ _ Hparse) in Hload. discriminate.
Qed.

(** X28: a structured parser that raises, or returns no page, is the same
    as none: [load] then returns, or raises, what it does without a
    client. *)
Theorem parse_manager_fallback (load_data : LlamaParser.client)
    (fitz_open_text : string -> outcome (list (outcome string)))
    (fitz_open : string -> outcome OCREngine.pdf_handle) (file_path : string) :
  (exists e, LlamaParser.load (Some load_data) file_path = Raised e) \/
  LlamaParser.load (Some load_data) file_path = Returned [] ->
  ParseManager.load (Some load_data) fitz_open_text fitz_open file_path
  = ParseManager.load None fitz_open_text fitz_open file_path.
Proof.
  intros Hllama.
  assert (ParseManager.parse (Some load_data) fitz_open_text file_path
          = ParseManager.parse None fitz_open_text file_path) as Heq.
  { unfold ParseManager.parse. destruct Hllama as [[e ->]| ->]; reflexivity. }
  destruct (ParseManager.parse None fitz_open_text file_path) as [parsed|e] eqn:Hparse.
  - by rewrite (load_after_parse _ _ fitz_open _ _ Heq),
      (load_after_parse _ _ fitz_open _ _ Hparse).
  - by rewrite (load_parse_raises _ _ fitz_open _ _ Heq),
      (load_parse_raises _ _ fitz_open _ _ Hparse).
Qed.

(** X29: [load] raises only when the plain-text parser was needed and the
    file could not be opened for it: it raises [e] exactly when opening
    the file for text extraction raises [e] and the structured parser is
    absent, raised, or returned no page.  No failure of the structured
    parser, of a page, or of the OCR fallback reaches the caller. *)
Theorem parse_manager_raises_iff (llama : option LlamaParser.client)
    (fitz_open_text : string -> outcome (list (outcome string)))
    (fitz_open : string -> outcome OCREngine.pdf_handle) (file_path : string) (e : exn) :
  ParseManager.load llama fitz_open_text fitz_open file_path = Raised e <->
  fitz_open_text file_path = Raised e /\
  ((exists e', LlamaParser.load llama file_path = Raised e') \/
   LlamaParser.load llama file_path = Returned []).
Proof.
  destruct (parse_cases llama fitz_open_text file_path)
    as [(d & ds & Hload & Hparse)|[Hllama Hparse]].
  - rewrite (load_after_parse _ _ fitz_open _ _ Hparse). split; [discriminate|].
    intros [_ [[e' He']|He']]; rewrite Hload in He'; discriminate.
  - unfold PyMuPDFParser.load in Hparse.
    destruct (fitz_open_text file_path) as [pages|e0] eqn:Hopen; simpl in Hparse.
    + rewrite (load_after_parse _ _ fitz_open _ _ Hparse). split; [discriminate|].
      intros [? _]. discriminate.
    + rewrite (load_parse_raises _ _ fitz_open _ _ Hparse). split.
      * intros [= ->]. by split.
      * by intros [[= ->] _].
Qed.

Lemma parse_manager_metadata_complete_witness :
  is_Some (metadata Cases.recognized_page !! "page") /\
  is_Some (metadata Cases.recognized_page !! "section") /\
  metadata Cases.recognized_page !! "source" = Some (VStr "manual.pdf") /\
  (metadata Cases.recognized_page !! "parser" = Some (VStr "llamaparse") \/
   metadata Cases.recognized_page !! "parser" = Some (VStr "pymupdf") \/
   metadata Cases.recognized_page !! "parser" = Some (VStr "ocr")).
Proof.
  apply (parse_manager_metadata_complete None Cases.open_damaged Samples.open_scanned
           "manual.pdf" Cases.parsed_damaged).
  - vm_compute. reflexivity.
  - apply (list_elem_of_lookup_2 _ 1). reflexivity.
Defined.

Lemma parse_manager_fallback_witness :
  ParseManager.load (Some Cases.llama_no_pages) Cases.open_damaged Samples.open_scanned
    "manual.pdf"
  = ParseManager.load None Cases.open_damaged Samples.open_scanned "manual.pdf".
Proof.
  apply (parse_manager_fallback Cases.llama_no_pages Cases.open_damaged Samples.open_scanned
           "manual.pdf").
  right. reflexivity.
Defined.

Example parse_manager_recognizes_short_page :
  (fun d : Document => (page_content d, metadata d !! "parser")) <$> Cases.parsed_damaged
  = [("SECTION 204: Front Brakes" +:+ newline +:+ "Caliper bolt 35 Nm",
      Some (VStr "pymupdf"));
     ("Rear caliper bolt: 35 Nm", Some (VStr "ocr"))].
Proof. vm_compute. reflexivity. Qed.

(* ================================================================== *)
(** ** Building the index: what is handed to the index library *)

Section BuildIndex.

Variable lib : index_library.
Variable INDEX_DIR : string.
Variable LLAMA_CLOUD_API_KEY : option string.
Variable LlamaParse : string -> outcome LlamaParser.client.
Variable fitz_open_text : string -> outcome (list (outcome string)).
Variable fitz_open : string -> outcome OCREngine.pdf_handle.
Variable split_text : string -> list string.

(** The chunk names its source file, its page (twice), its section, its
    position in the page and the producer of the page. *)
Abbreviation carries_provenance file_path c :=
  (metadata c !! "source" = Some (VStr file_path) /\
   (exists page, metadata c !! "page" = Some page /\
                 metadata c !! "parent_page" = Some page) /\
   is_Some (metadata c !! "section") /\
   is_Some (metadata c !! "original_section") /\
   (exists i : nat, metadata c !! "chunk_index" = Some (VInt (Z.of_nat i))) /\
   (metadata c !! "parser" = Some (VStr "llamaparse") \/
    metadata c !! "parser" = Some (VStr "pymupdf") \/
    metadata c !! "parser" = Some (VStr "ocr"))).

Lemma make_chunk_provenance (file_path : string) (doc : Document) (i : nat) (piece : string) :
  provenance file_path doc ->
  carries_provenance file_path
    (Chunker.make_chunk doc (dict_get (metadata doc) "section" (VStr ""))
       (dict_get (metadata doc) "page" (VStr "?")) i piece).
Proof.
  intros ([page Hpage] & [section Hsection] & Hsource & Hparser).
  unfold Chunker.make_chunk, dict_get. rewrite Hpage, Hsection. simpl.
  destruct (negb (truthy section)); [destruct (Re.search _ _) as [[? ?]|]|];
    (split; [by simplify_map_eq|]);
    (split; [exists page; split; by simplify_map_eq|]);
    (split; [by simplify_map_eq|]);
    (split; [by simplify_map_eq|]);
    (split; [exists i; by simplify_map_eq|]);
    (destruct Hparser as [H|[H|H]]; [left|right; left|right; right]; by simplify_map_eq).
Qed.

Lemma split_documents_provenance (file_path : string) (docs : list Document) :
  Forall (fun d => provenance file_path d) docs ->
  forall c, c ∈ Chunker.split_documents split_text docs -> carries_provenance file_path c.
Proof.
  intros Hdocs c Hc. unfold Chunker.split_documents in Hc.
  apply list_elem_of_bind in Hc as (doc & Hc & Hdoc).
  unfold Chunker.split_page in Hc.
  apply list_elem_of_lookup in Hc as [i Hc]. rewrite list_lookup_imap in Hc.
  destruct (split_text (page_content doc) !! i) as [piece|]; [|discriminate].
  simpl in Hc. injection Hc as <-. apply make_chunk_provenance.
  exact (proj1 (Forall_forall _ _) Hdocs _ Hdoc).
Qed.

(** X30: when [build_index_from_pdf] succeeds, the index it stores in the
    processor was built by the index library from chunks that all carry
    their provenance: the path of the PDF as [source], the page of origin
    as both [page] and [parent_page] (never the placeholder "?"), a
    [section], an [original_section], a [chunk_index] and the parser that
    produced the page.  The name of the index and the last context are
    left as they were. *)
Theorem build_index_chunks_carry_provenance (self self' : QueryProcessor)
    (file_path : string) :
  Indexing.build_index_from_pdf lib INDEX_DIR LLAMA_CLOUD_API_KEY LlamaParse
    fitz_open_text fitz_open split_text self file_path = Returned self' ->
  exists chunks embedding_model db,
    HuggingFaceEmbeddings lib = Returned embedding_model /\
    from_documents lib chunks embedding_model = Returned db /\
    vectorstore self' = Some db /\
    index_name self' = index_name self /\
    last_context self' = last_context self /\
    forall c, c ∈ chunks ->
      metadata c !! "source" = Some (VStr file_path) /\
      (exists page, metadata c !! "page" = Some page /\
                    metadata c !! "parent_page" = Some page) /\
      is_Some (metadata c !! "section") /\
      is_Some (metadata c !! "original_section") /\
      (exists i : nat, metadata c !! "chunk_index" = Some (VInt (Z.of_nat i))) /\
      (metadata c !! "parser" = Some (VStr "llamaparse") \/
       metadata c !! "parser" = Some (VStr "pymupdf") \/
       metadata c !! "parser" = Some (VStr "ocr")).
Proof.
  unfold Indexing.build_index_from_pdf.
  set (llama := LlamaParser.init LLAMA_CLOUD_API_KEY LlamaParse).
  destruct (ParseManager.parse llama fitz_open_text file_path) as [parsed|e] eqn:Hparse.
  2: { rewrite (load_parse_raises _ _ fitz_open _ _ Hparse). discriminate. }
  rewrite (load_after_parse _ _ fitz_open _ _ Hparse). simpl.
  unfold EmbedIndex.build_faiss_index, EmbedIndex.get_embedding_model.
  destruct (HuggingFaceEmbeddings lib) as [em|e]; [|discriminate]. simpl.
  destruct (from_documents lib _ em) as [db|e] eqn:Hdb; [|discriminate]. simpl.
  destruct (makedirs lib INDEX_DIR) as [[]|e]; [|discriminate]. simpl.
  destruct (save_local lib db INDEX_DIR (index_name self)) as [[]|e]; [|discriminate].
  simpl. intros [= <-]. eexists _, em, db.
  split; [reflexivity|]. split; [exact Hdb|]. do 3 (split; [reflexivity|]).
  apply (split_documents_provenance file_path), ocr_pages_provenance.
  exact (parse_provenance _ _ _ _ Hparse).
Qed.

End BuildIndex.

Lemma build_index_chunks_carry_provenance_witness :
  exists chunks embedding_model db,
    HuggingFaceEmbeddings Cases.memory_index = Returned embedding_model /\
    from_documents Cases.memory_index chunks embedding_model = Returned db /\
    vectorstore Cases.indexed_damaged = Some db /\
    index_name Cases.indexed_damaged = index_name Samples.fresh /\
    last_context Cases.indexed_damaged = last_context Samples.fresh /\
    forall c, c ∈ chunks ->
      metadata c !! "source" = Some (VStr "manual.pdf") /\
      (exists page, metadata c !! "page" = Some page /\
                    metadata c !! "parent_page" = Some page) /\
      is_Some (metadata c !! "section") /\
      is_Some (metadata c !! "original_section") /\
      (exists i : nat, metadata c !! "chunk_index" = Some (VInt (Z.of_nat i))) /\
      (metadata c !! "parser" = Some (VStr "llamaparse") \/
       metadata c !! "parser" = Some (VStr "pymupdf") \/
       metadata c !! "parser" = Some (VStr "ocr")).
Proof.
  apply (build_index_chunks_carry_provenance Cases.memory_index "indexes" None
           (fun _ => Raised (OtherException "no client"))
           Cases.open_damaged Samples.open_scanned Samples.by_lines
           Samples.fresh Cases.indexed_damaged "manual.pdf").
  vm_compute. reflexivity.
Defined.

Example build_index_counts_chunks :
  vectorstore Cases.indexed_damaged = Some "index of 3 chunks".
Proof. reflexivity. Qed.

Example load_existing_index_missing_files :
  Indexing.load_existing_index Cases.memory_index "indexes" Samples.fresh
  = Raised (FileNotFoundError
              ("[FAISS] Missing index files:" +:+ newline +:+
               " - indexes/spec_index.faiss" +:+ newline +:+
               " - indexes/spec_index.pkl" +:+ newline +:+
               "Index cannot be loaded.")).
Proof. vm_compute. reflexivity. Qed.

(* ================================================================== *)
(** ** OCR fallback on the pages of the parsers *)

Lemma rstrip_idempotent (s : string) : Str.rstrip (Str.rstrip s) = Str.rstrip s.
Proof.
  induction s as [|c s IH]; [reflexivity|].
  cbn [Str.rstrip]. destruct (Str.rstrip s) as [|a r] eqn:E.
  - destruct (Str.isspace c) eqn:Hc; [reflexivity|].
    cbn [Str.rstrip]. by rewrite Hc.
  - change (Str.rstrip (String c (String a r)))
      with (match Str.rstrip (String a r) with
            | EmptyString => if Str.isspace c then EmptyString else String c EmptyString
            | String a' r' => String c (String a' r')
            end).
    by rewrite IH.
Qed.

Lemma lstrip_head (s : string) :
  Str.lstrip s = EmptyString \/
  exists c t, Str.lstrip s = String c t /\ Str.isspace c = false.
Proof.
  induction s as [|c s IH]; [by left|].
  cbn [Str.lstrip]. destruct (Str.isspace c) eqn:Hc; [exact IH|].
  right. by exists c, s.
Qed.

Lemma rstrip_head (c : ascii) (t : string) :
  Str.isspace c = false -> exists r, Str.rstrip (String c t) = String c r.
Proof.
  intros Hc. cbn [Str.rstrip]. destruct (Str.rstrip t) as [|a r].
  - rewrite Hc. by eexists.
  - by eexists.
Qed.

(** Stripping a stripped text changes nothing. *)
Lemma strip_idempotent (s : string) : Str.strip (Str.strip s) = Str.strip s.
Proof.
  unfold Str.strip. destruct (lstrip_head s) as [->|(c & t & -> & Hc)]; [reflexivity|].
  destruct (rstrip_head c t Hc) as [r Hr]. rewrite Hr.
  cbn [Str.lstrip]. rewrite Hc, <- Hr. apply rstrip_idempotent.
Qed.

(** Both parsers hand over stripped page texts. *)
Lemma parse_stripped (llama : option LlamaParser.client)
    (fitz_open_text : string -> outcome (list (outcome string))) (file_path : string)
    (docs : list Document) :
  ParseManager.parse llama fitz_open_text file_path = Returned docs ->
  Forall (fun d => Str.strip (page_content d) = page_content d) docs.
Proof.
  intros Hparse. apply Forall_lookup. intros i d Hd.
  destruct (parse_cases llama fitz_open_text file_path)
    as [(d0 & ds & Hload & Heq)|[_ Heq]]; rewrite Heq in Hparse.
  - injection Hparse as <-. destruct llama as [c|]; [|discriminate].
    unfold LlamaParser.load in Hload.
    destruct (c file_path) as [results|e]; [|discriminate]. simpl in Hload.
    destruct (proj2 (load_results_lookup _ _ _ _ Hload) _ _ Hd) as (p & _ & Hdoc).
    unfold LlamaParser.page_document in Hdoc.
    destruct (LlamaParser.parsed_page_content p) as [content|e]; [|discriminate].
    simpl in Hdoc.
    destruct (LlamaParser.parsed_metadata p) as [meta|e]; [|discriminate].
    simpl in Hdoc. injection Hdoc as <-.
    apply strip_idempotent.
  - unfold PyMuPDFParser.load in Hparse.
    destruct (fitz_open_text file_path) as [pages|e]; [|discriminate].
    simpl in Hparse. injection Hparse as <-.
    destruct (load_pages_lookup _ _ _ _ _ Hd) as (raw & _ & ->).
    apply strip_idempotent.
Qed.

(** C5: the OCR fallback is run by the parse manager on the pages of one
    of the two parsers, and both strip the text of a page.  Every such
    page whose text has at least 25 characters comes back from the
    fallback unchanged, content and metadata, at the same position, and
    is returned so by the parse manager. *)
Theorem ocr_keeps_parsed_pages_with_enough_text
    (llama : option LlamaParser.client)
    (fitz_open_text : string -> outcome (list (outcome string)))
    (fitz_open : string -> outcome OCREngine.pdf_handle) (file_path : string)
    (docs : list Document) (i : nat) (doc : Document) :
  ParseManager.parse llama fitz_open_text file_path = Returned docs ->
  docs !! i = Some doc ->
  25 <= String.length (page_content doc) ->
  OCREngine.ocr_pages_if_empty fitz_open file_path docs !! i = Some doc /\
  exists out,
    ParseManager.load llama fitz_open_text fitz_open file_path = Returned out /\
    out !! i = Some doc.
Proof.
  intros Hparse Hdoc Hlen.
  assert (Hkept : OCREngine.ocr_pages_if_empty fitz_open file_path docs !! i = Some doc).
  { apply ocr_keeps_pages_with_enough_text; [exact Hdoc|].
    by rewrite (proj1 (Forall_lookup _ _) (parse_stripped _ _ _ _ Hparse) _ _ Hdoc). }
  split; [exact Hkept|].
  eexists. split; [exact (load_after_parse _ _ fitz_open _ _ Hparse)|exact Hkept].
Qed.

Lemma ocr_keeps_parsed_pages_with_enough_text_witness :
  OCREngine.ocr_pages_if_empty Samples.open_scanned "manual.pdf" Cases.text_of_damaged !! 0
  = Some Cases.first_text_page /\
  exists out,
    ParseManager.load None Cases.open_damaged Samples.open_scanned "manual.pdf"
    = Returned out /\
    out !! 0 = Some Cases.first_text_page.
Proof.
  apply (ocr_keeps_parsed_pages_with_enough_text None Cases.open_damaged
           Samples.open_scanned "manual.pdf" Cases.text_of_damaged 0 Cases.first_text_page).
  - vm_compute. reflexivity.
  - reflexivity.
  - vm_compute. lia.
Defined.
